(** * eKartoteka integration: a shallow embedding and its verified properties

    The development follows the Python package
    [custom_components/ekartoteka_sensor]:

    - [Py]          the fragment of Python values and builtins the package uses
                    (JSON documents, [dict.get], subscripts, truthiness,
                    [int()], [str.strip], [str.format], exceptions);
    - [Api]         [ekartoteka_api.py]: the REST client, its two bearer
                    tokens, [_get] with its re-login on 401, [login] and the
                    data-fetch methods, run against a scripted server;
    - [Coordinator] [coordinator.py]: one refresh cycle
                    ([_async_update_data]), generic in the client it drives;
    - [Sensors]     [base_sensor.py] and the four entity classes: the unit
                    mapping and the [native_value] properties;
    - [ApiRest], [CoordinatorRest], [SensorsRest]
                    the rest of the client ([_post]) and of the entity
                    classes (constructors, [extra_state_attributes]), and the
                    notions the further properties are stated with;
    - [Setup]       [sensor.py]: the entities of a house and the steps of
                    the two entry points.

    Definitions come first, the theorems about them afterwards. *)

From Stdlib Require Import ZArith String Ascii List Lia DecimalString DecimalZ.
From stdpp Require Import base strings gmap list.

Set Warnings "-register-all".

Local Open Scope string_scope.
Local Open Scope Z_scope.

(* ===================================================================== *)
(** * Python values and builtins                                          *)
(* ===================================================================== *)

Module Py.

(** A decoded JSON document, as [resp.json()] returns it.  JSON numbers are
    modelled by integers: the identifiers, flags and counters of the remote
    service.  A [JObj] lists the items of a [dict] in insertion order, each
    key once. *)
Inductive json : Type :=
| JNull
| JBool (b : bool)
| JInt (n : Z)
| JStr (s : string)
| JList (l : list json)
| JObj (o : list (string * json)).

(** Exceptions.  Every class below derives from Python's [Exception], so an
    [except Exception] clause catches each of them. *)
Inductive exn_class : Type :=
| PyException        (* raise Exception(...) *)
| ConnectionError    (* requests: no response arrived *)
| JSONDecodeError    (* resp.json() on a body that is not JSON *)
| AttributeError
| KeyError
| TypeError
| ValueError
| IndexError
| RecursionError
| UpdateFailed.      (* homeassistant.helpers.update_coordinator *)

Record exn : Type := Exn { exn_cls : exn_class; exn_msg : string }.

Inductive result (A : Type) : Type :=
| Ok (a : A)
| Raise (e : exn).
Arguments Ok {A} a.
Arguments Raise {A} e.

Definition is_ok {A} (r : result A) : bool :=
  match r with Ok _ => true | Raise _ => false end.

(** The builtins whose full behaviour lives in the interpreter and not in the
    package: the text-to-integer conversion behind [int(str)] and [repr]. *)
Class PyRuntime : Type := {
  int_of_str : string -> option Z;
  py_repr : json -> string
}.

(** ** Truthiness, type names, [str()] *)

Definition truthy (v : json) : bool :=
  match v with
  | JNull => false
  | JBool b => b
  | JInt n => negb (n =? 0)
  | JStr s => negb (String.eqb s "")
  | JList l => match l with [] => false | _ => true end
  | JObj o => match o with [] => false | _ => true end
  end.

Definition is_none (v : json) : bool :=
  match v with JNull => true | _ => false end.

Definition is_dict (v : json) : bool :=
  match v with JObj _ => true | _ => false end.

Definition type_name (v : json) : string :=
  match v with
  | JNull => "NoneType"
  | JBool _ => "bool"
  | JInt _ => "int"
  | JStr _ => "str"
  | JList _ => "list"
  | JObj _ => "dict"
  end.

Definition str_of_Z (n : Z) : string := NilZero.string_of_int (Z.to_int n).

Definition py_str `{PyRuntime} (v : json) : string :=
  match v with
  | JNull => "None"
  | JBool true => "True"
  | JBool false => "False"
  | JInt n => str_of_Z n
  | JStr s => s
  | JList _ | JObj _ => py_repr v
  end.

(** ** Dictionaries *)

Fixpoint obj_lookup (k : string) (o : list (string * json)) : option json :=
  match o with
  | [] => None
  | (k', v) :: o' => if String.eqb k k' then Some v else obj_lookup k o'
  end.

(** [d[k] = v] on a dict: an existing key keeps its place, a new one is
    appended. *)
Fixpoint obj_set (k : string) (v : json) (o : list (string * json))
  : list (string * json) :=
  match o with
  | [] => [(k, v)]
  | (k', v') :: o' =>
      if String.eqb k k' then (k, v) :: o' else (k', v') :: obj_set k v o'
  end.

Definition no_attribute (v : json) (attr : string) : exn :=
  Exn AttributeError
      ("'" +:+ type_name v +:+ "' object has no attribute '" +:+ attr +:+ "'").

(** [d.get(k, dflt)] *)
Definition py_get_default (d : json) (k : string) (dflt : json) : result json :=
  match d with
  | JObj o => Ok (default dflt (obj_lookup k o))
  | _ => Raise (no_attribute d "get")
  end.

(** [d.get(k)] and [d.get(k, None)] *)
Definition py_get (d : json) (k : string) : result json :=
  py_get_default d k JNull.

(** [d[k]] for a string literal [k] *)
Definition py_getitem (d : json) (k : string) : result json :=
  match d with
  | JObj o =>
      match obj_lookup k o with
      | Some v => Ok v
      | None => Raise (Exn KeyError ("'" +:+ k +:+ "'"))
      end
  | JList _ => Raise (Exn TypeError "list indices must be integers or slices, not str")
  | JStr _ => Raise (Exn TypeError "string indices must be integers, not 'str'")
  | _ => Raise (Exn TypeError ("'" +:+ type_name d +:+ "' object is not subscriptable"))
  end.

(** [d[k] = v] for a string literal [k] *)
Definition py_setitem (d : json) (k : string) (v : json) : result json :=
  match d with
  | JObj o => Ok (JObj (obj_set k v o))
  | JList _ => Raise (Exn TypeError "list indices must be integers or slices, not str")
  | _ => Raise (Exn TypeError
                  ("'" +:+ type_name d +:+ "' object does not support item assignment"))
  end.

(** The one-character strings of a [str] (byte-wise; the package never looks
    inside them). *)
Fixpoint chars (s : string) : list json :=
  match s with
  | EmptyString => []
  | String c s' => JStr (String c EmptyString) :: chars s'
  end.

(** [xs[0]] *)
Definition py_index0 (xs : json) : result json :=
  match xs with
  | JList (x :: _) => Ok x
  | JList [] => Raise (Exn IndexError "list index out of range")
  | JStr s =>
      match chars s with
      | c :: _ => Ok c
      | [] => Raise (Exn IndexError "string index out of range")
      end
  | JObj _ => Raise (Exn KeyError "0")
  | _ => Raise (Exn TypeError ("'" +:+ type_name xs +:+ "' object is not subscriptable"))
  end.

(** [for x in xs]: the elements the loop visits, or the [TypeError] of a
    value that is not iterable.  A dict yields its keys. *)
Definition py_iter (xs : json) : result (list json) :=
  match xs with
  | JList l => Ok l
  | JStr s => Ok (chars s)
  | JObj o => Ok (map (fun kv => JStr (fst kv)) o)
  | _ => Raise (Exn TypeError ("'" +:+ type_name xs +:+ "' object is not iterable"))
  end.

(** ** Dictionary keys

    The hashable values that occur as keys.  [True] and [1] (and [False] and
    [0]) are equal and hash alike, so they name the same key. *)
Inductive pykey : Type :=
| KNone
| KInt (n : Z)
| KStr (s : string).

Definition hash_key (v : json) : result pykey :=
  match v with
  | JNull => Ok KNone
  | JBool b => Ok (KInt (if b then 1 else 0))
  | JInt n => Ok (KInt n)
  | JStr s => Ok (KStr s)
  | JList _ | JObj _ => Raise (Exn TypeError ("unhashable type: '" +:+ type_name v +:+ "'"))
  end.

#[global] Instance pykey_eq_dec : EqDecision pykey := ltac:(solve_decision).

Definition pykey_encode (k : pykey) : option (Z + string) :=
  match k with
  | KNone => None
  | KInt n => Some (inl n)
  | KStr s => Some (inr s)
  end.

Definition pykey_decode (x : option (Z + string)) : pykey :=
  match x with
  | None => KNone
  | Some (inl n) => KInt n
  | Some (inr s) => KStr s
  end.

Definition pykey_decode_encode (k : pykey) : pykey_decode (pykey_encode k) = k :=
  match k with
  | KNone => eq_refl
  | KInt _ => eq_refl
  | KStr _ => eq_refl
  end.

#[global] Instance pykey_countable : Countable pykey :=
  inj_countable' pykey_encode pykey_decode pykey_decode_encode.

(** ** [int()] *)
Definition py_int `{PyRuntime} (v : json) : result Z :=
  match v with
  | JInt n => Ok n
  | JBool b => Ok (if b then 1 else 0)
  | JStr s =>
      match int_of_str s with
      | Some n => Ok n
      | None =>
          Raise (Exn ValueError
                   ("invalid literal for int() with base 10: " +:+ py_repr v))
      end
  | _ =>
      Raise (Exn TypeError
               ("int() argument must be a string, a bytes-like object or a real number, not '"
                  +:+ type_name v +:+ "'"))
  end.

(** ** [str.strip()]

    Python strings are sequences of code points; here they are their UTF-8
    bytes.  [whitespace] lists the UTF-8 encodings of the code points for
    which [str.isspace] holds: U+0009..U+000D, U+001C..U+0020, U+0085,
    U+00A0, U+1680, U+2000..U+200A, U+2028, U+2029, U+202F, U+205F,
    U+3000. *)
Definition bytes (l : list nat) : string :=
  fold_right (fun n s => String (ascii_of_nat n) s) EmptyString l.

Definition whitespace : list string :=
  map bytes
    [ [9]; [10]; [11]; [12]; [13]; [28]; [29]; [30]; [31]; [32];
      [194; 133]; [194; 160]; [225; 154; 128];
      [226; 128; 128]; [226; 128; 129]; [226; 128; 130]; [226; 128; 131];
      [226; 128; 132]; [226; 128; 133]; [226; 128; 134]; [226; 128; 135];
      [226; 128; 136]; [226; 128; 137]; [226; 128; 138];
      [226; 128; 168]; [226; 128; 169]; [226; 128; 175];
      [226; 129; 159]; [227; 128; 128] ]%nat.

(** [drop_prefix p s] is the rest of [s] after its prefix [p]. *)
Fixpoint drop_prefix (p s : string) : option string :=
  match p, s with
  | EmptyString, _ => Some s
  | String a p', String b s' =>
      if Ascii.eqb a b then drop_prefix p' s' else None
  | String _ _, EmptyString => None
  end.

Fixpoint drop_first (ps : list string) (s : string) : option string :=
  match ps with
  | [] => None
  | p :: ps' =>
      match drop_prefix p s with
      | Some rest => Some rest
      | None => drop_first ps' s
      end
  end.

Fixpoint lstrip_with (ps : list string) (fuel : nat) (s : string) : string :=
  match fuel with
  | O => s
  | S fuel' =>
      match drop_first ps s with
      | Some rest => lstrip_with ps fuel' rest
      | None => s
      end
  end.

Definition lstrip (s : string) : string :=
  lstrip_with whitespace (String.length s) s.

Definition rstrip (s : string) : string :=
  String.rev
    (lstrip_with (map String.rev whitespace) (String.length s) (String.rev s)).

Definition strip (s : string) : string := rstrip (lstrip s).

(** ** [str.format] with positional fields [{0}] .. [{9}] *)
Definition digit_index (c : ascii) : option nat :=
  let n := nat_of_ascii c in
  if (48 <=? n)%nat && (n <=? 57)%nat then Some (n - 48)%nat else None.

Fixpoint format (template : string) (args : list string) : string :=
  match template with
  | EmptyString => EmptyString
  | String c rest =>
      match c, rest with
      | "{"%char, String d (String "}"%char rest') =>
          match digit_index d with
          | Some i => default "" (args !! i) +:+ format rest' args
          | None => String c (format rest args)
          end
      | _, _ => String c (format rest args)
      end
  end.

End Py.

(* ===================================================================== *)
(** * Effects: mutable state and exceptions                               *)
(* ===================================================================== *)

Module Eff.
Import Py.

(** A computation over a store [S] that returns or raises.  The store
    survives a raise: what was assigned before the exception stays
    assigned. *)
Definition M (S A : Type) : Type := S -> result A * S.

Definition ret {S A} (a : A) : M S A := fun st => (Ok a, st).

Definition raise {S A} (e : exn) : M S A := fun st => (Raise e, st).

Definition bind {S A B} (m : M S A) (k : A -> M S B) : M S B :=
  fun st =>
    match m st with
    | (Ok a, st') => k a st'
    | (Raise e, st') => (Raise e, st')
    end.

(** A pure builtin that may raise. *)
Definition lift {S A} (r : result A) : M S A := fun st => (r, st).

Definition get_state {S} : M S S := fun st => (Ok st, st).

Definition modify {S} (f : S -> S) : M S unit := fun st => (Ok tt, f st).

(** [try: body except Exception as e: handler(e)] *)
Definition try_except {S A} (body : M S A) (handler : exn -> M S A) : M S A :=
  fun st =>
    match body st with
    | (Ok a, st') => (Ok a, st')
    | (Raise e, st') => handler e st'
    end.

(** [for x in xs: body(x)] *)
Fixpoint for_each {S A} (xs : list A) (body : A -> M S unit) : M S unit :=
  match xs with
  | [] => ret tt
  | x :: xs' => bind (body x) (fun _ => for_each xs' body)
  end.

(** [stable R m]: whatever [m] does to the store, the store it leaves is
    [R]-related to the one it found. *)
Definition stable {S A} (R : S -> S -> Prop) (m : M S A) : Prop :=
  forall st, R st (snd (m st)).

End Eff.

Notation "x <- m ;; k" := (Eff.bind m (fun x => k))
  (at level 100, m at next level, right associativity).
Notation "m ;; k" := (Eff.bind m (fun _ => k))
  (at level 100, right associativity).

(* ===================================================================== *)
(** * ekartoteka_api.py                                                   *)
(* ===================================================================== *)

Module Api.
Import Py Eff.

(** ** Endpoints *)
Definition login_url : string := "https://www.e-kartoteka.pl/api/api-token-auth/".
Definition accounts_list : string :=
  "https://www.e-kartoteka.pl/api/konta/kontapowiazane/?pageSize=50".
Definition account_details : string :=
  "https://www.e-kartoteka.pl/api/konta/kontapowiazane/{0}/".
Definition groups : string :=
  "https://www.e-kartoteka.pl/api/uzytkownicy/grupy/?id_kli={0}&page=1&pageSize=100".
Definition houses : string :=
  "https://www.e-kartoteka.pl/api/uzytkownicy/nieruchomosci/?id_gru={0}&id_kli={1}&page=1&pageSize=20".
Definition apartments : string :=
  "https://www.e-kartoteka.pl/api/oplatymiesieczne/lokale/?page=1&pageSize=1000&id_a_do={0}&id_kli={1}&_={2}".
Definition analysis_summary : string :=
  "https://www.e-kartoteka.pl/api/media/analizazuzycia/?page=1&pageSize=20&id_a_do={0}&id_kli={1}&rok={2}&_={3}".
Definition sensors_list : string :=
  "https://www.e-kartoteka.pl/api/liczniki/rodzajemediow/?page=1&pageSize=20&id_a_do={0}&id_gru={1}&_={2}".
Definition sensor_value : string :=
  "https://www.e-kartoteka.pl/api/liczniki/liczniki/?page=1&pageSize=20&id_lok={0}&id_el_op={1}&_={2}".
Definition invoices_list : string :=
  "https://www.e-kartoteka.pl/api/oplatymiesieczne/okresy/?page=1&pageSize=20&id_a_do={0}&id_kli={1}&id_lok={2}&_={3}".
Definition monthly_rental : string :=
  "https://www.e-kartoteka.pl/api/oplatymiesieczne/oplatymiesieczneb/?page=1&pageSize=100&id_nal={0}&id_lok={1}&id_kli={2}&_={3}".
Definition monthly_meters_cost : string :=
  "https://www.e-kartoteka.pl/api/media/rozliczeniemediow/?page=1&pageSize=20&id_a_do={0}&id_kli={1}&id_el_op={2}&ordering=DataOd&_={3}".

(** ** HTTP exchanges *)
Inductive http_method : Type := GET | POST.

Record request : Type := Request {
  req_method : http_method;
  req_url : string;
  req_headers : list (string * string);
  req_json : option json
}.

(** [body] is what [resp.json()] decodes, [None] when the text is not JSON. *)
Record response : Type := Response {
  status_code : Z;
  text : string;
  body : option json
}.

(** What the network does with one request: after [elapsed_ms] either a
    response arrives or the transport fails ([outcome = None]). *)
Record reply : Type := Reply {
  elapsed_ms : Z;
  outcome : option response
}.

(** ** The client object and the world it talks to

    The first eight fields are the attributes of [eKartotekaAPI].  The rest
    is the environment reached through [self.session] and the clock: [wire]
    scripts the replies the server will give, in order (an exhausted script
    is a dead connection); [sent] records every request issued so far;
    [now_ms] is the UTC clock in milliseconds and [year] the local calendar
    year. *)
Record state : Type := State {
  username : string;
  password : string;
  auth_token : json;
  token : json;
  id_usr : json;
  id_kli : json;
  id_gru : json;
  name : json;
  wire : list reply;
  sent : list request;
  now_ms : Z;
  year : Z
}.

(** [eKartotekaAPI.__init__] *)
Definition init (user pass : string) (w : list reply) (now yr : Z) : state :=
  {| username := user; password := pass;
     auth_token := JStr ""; token := JStr "";
     id_usr := JNull; id_kli := JNull; id_gru := JNull; name := JNull;
     wire := w; sent := []; now_ms := now; year := yr |}.

Definition with_auth_token (v : json) (st : state) : state :=
  {| username := username st; password := password st;
     auth_token := v; token := token st;
     id_usr := id_usr st; id_kli := id_kli st; id_gru := id_gru st; name := name st;
     wire := wire st; sent := sent st; now_ms := now_ms st; year := year st |}.

Definition with_token (v : json) (st : state) : state :=
  {| username := username st; password := password st;
     auth_token := auth_token st; token := v;
     id_usr := id_usr st; id_kli := id_kli st; id_gru := id_gru st; name := name st;
     wire := wire st; sent := sent st; now_ms := now_ms st; year := year st |}.

Definition with_id_usr (v : json) (st : state) : state :=
  {| username := username st; password := password st;
     auth_token := auth_token st; token := token st;
     id_usr := v; id_kli := id_kli st; id_gru := id_gru st; name := name st;
     wire := wire st; sent := sent st; now_ms := now_ms st; year := year st |}.

Definition with_id_kli (v : json) (st : state) : state :=
  {| username := username st; password := password st;
     auth_token := auth_token st; token := token st;
     id_usr := id_usr st; id_kli := v; id_gru := id_gru st; name := name st;
     wire := wire st; sent := sent st; now_ms := now_ms st; year := year st |}.

Definition with_id_gru (v : json) (st : state) : state :=
  {| username := username st; password := password st;
     auth_token := auth_token st; token := token st;
     id_usr := id_usr st; id_kli := id_kli st; id_gru := v; name := name st;
     wire := wire st; sent := sent st; now_ms := now_ms st; year := year st |}.

Definition with_name (v : json) (st : state) : state :=
  {| username := username st; password := password st;
     auth_token := auth_token st; token := token st;
     id_usr := id_usr st; id_kli := id_kli st; id_gru := id_gru st; name := v;
     wire := wire st; sent := sent st; now_ms := now_ms st; year := year st |}.

(** The request goes out and the next scripted reply comes back. *)
Definition exchange (rq : request) (st : state) : result response * state :=
  let out := (sent st ++ [rq])%list in
  match wire st with
  | [] =>
      (Raise (Exn ConnectionError "connection failed"),
       {| username := username st; password := password st;
          auth_token := auth_token st; token := token st;
          id_usr := id_usr st; id_kli := id_kli st; id_gru := id_gru st;
          name := name st;
          wire := []; sent := out; now_ms := now_ms st; year := year st |})
  | r :: rest =>
      (match outcome r with
       | Some resp => Ok resp
       | None => Raise (Exn ConnectionError "connection failed")
       end,
       {| username := username st; password := password st;
          auth_token := auth_token st; token := token st;
          id_usr := id_usr st; id_kli := id_kli st; id_gru := id_gru st;
          name := name st;
          wire := rest; sent := out; now_ms := now_ms st + elapsed_ms r;
          year := year st |})
  end.

(** [self.session.get(url, headers=headers, timeout=30)] *)
Definition session_get (url : string) (headers : list (string * string))
  : M state response :=
  exchange (Request GET url headers None).

(** [self.session.post(url, headers=headers, json=json, timeout=30)] *)
Definition session_post (url : string) (headers : list (string * string))
    (payload : option json) : M state response :=
  exchange (Request POST url headers payload).

(** [resp.json()] *)
Definition resp_json (resp : response) : result json :=
  match body resp with
  | Some j => Ok j
  | None => Raise (Exn JSONDecodeError "Expecting value")
  end.

(** ** Helpers *)

Definition _json_headers : list (string * string) :=
  [ ("Content-Type", "application/json");
    ("Accept", "application/json");
    ("Origin", "https://www.e-kartoteka.pl");
    ("Referer", "https://www.e-kartoteka.pl/");
    ("Host", "www.e-kartoteka.pl") ].

Definition _ts_ms : M state Z := fun st => (Ok (now_ms st), st).

Definition _bearer `{PyRuntime} (tok : json) : list (string * string) :=
  if truthy tok then [("Authorization", "Bearer " +:+ py_str tok)] else [].

(** [{**a, **b}] *)
Fixpoint header_set (k v : string) (h : list (string * string))
  : list (string * string) :=
  match h with
  | [] => [(k, v)]
  | (k', v') :: h' =>
      if String.eqb k k' then (k, v) :: h' else (k', v') :: header_set k v h'
  end.

Definition merge_headers (a b : list (string * string)) : list (string * string) :=
  fold_left (fun h kv => header_set (fst kv) (snd kv) h) b a.

Definition _reset_tokens : M state unit :=
  modify (with_auth_token (JStr "")) ;;
  modify (with_token (JStr "")).

Definition request_headers `{PyRuntime} (use_account_token : bool) (st : state)
  : list (string * string) :=
  let token := if use_account_token then token st else auth_token st in
  merge_headers _json_headers (_bearer token).

Definition get_failed (url : string) (resp : response) : exn :=
  Exn PyException
      ("GET " +:+ url +:+ " failed: " +:+ str_of_Z (status_code resp)
         +:+ " " +:+ text resp).

(** [_get], with the [self.login] it calls on a 401 left open. *)
Definition _get_with `{PyRuntime} (login : M state bool)
    (url : string) (use_account_token : bool) : M state json :=
  st <- get_state ;;
  resp <- session_get url (request_headers use_account_token st) ;;
  resp <- (if status_code resp =? 401 then
             _reset_tokens ;;
             _ <- login ;;
             st' <- get_state ;;
             session_get url (request_headers use_account_token st')
           else ret resp) ;;
  if negb (status_code resp =? 200) then raise (get_failed url resp)
  else lift (resp_json resp).

(** [login], with the [self._get] it calls left open. *)
Definition login_with `{PyRuntime} (_get : string -> bool -> M state json)
  : M state bool :=
  st <- get_state ;;
  if truthy (token st) && truthy (auth_token st) then ret true
  else
    (* 1) Obtain auth_token *)
    let payload :=
      JObj [("username", JStr (username st)); ("password", JStr (password st))] in
    resp <- session_post login_url _json_headers (Some payload) ;;
    if negb (status_code resp =? 200) then
      raise (Exn PyException
               ("Authorization failed for " +:+ username st +:+ ". Response "
                  +:+ str_of_Z (status_code resp) +:+ " " +:+ text resp))
    else
      j <- lift (resp_json resp) ;;
      tok <- lift (py_get_default j "token" (JStr "")) ;;
      modify (with_auth_token tok) ;;
      if negb (truthy tok) then
        raise (Exn PyException "Login response did not include auth token")
      else
        (* 2) Fetch accounts list using auth_token *)
        acc_list <- _get accounts_list false ;;
        results <- (if is_dict acc_list
                    then lift (py_get_default acc_list "results" (JList []))
                    else ret (JList [])) ;;
        if negb (truthy results) then
          raise (Exn PyException "No linked accounts returned for user")
        else
          first <- lift (py_index0 results) ;;
          account_id <- lift (py_get first "id") ;;
          if is_none account_id then
            raise (Exn PyException "Linked account payload missing 'id'")
          else
            (* 3) Fetch account details -> provides per-account token *)
            details <- _get (format account_details [py_str account_id]) false ;;
            v_usr <- lift (py_get details "id_usr") ;;
            modify (with_id_usr v_usr) ;;
            v_kli <- lift (py_get details "id_kli") ;;
            modify (with_id_kli v_kli) ;;
            v_name <- lift (py_get details "nazwa") ;;
            modify (with_name v_name) ;;
            v_tok <- lift (py_get_default details "token" (JStr "")) ;;
            modify (with_token v_tok) ;;
            if negb (truthy v_tok) then
              raise (Exn PyException "Account details did not include account token")
            else
              (* 4) Fetch groups for this client -> provides id_gru *)
              grps <- _get (format groups [py_str v_kli]) true ;;
              grp_list <- (if is_dict grps
                           then lift (py_get_default grps "results" (JList []))
                           else ret (JList [])) ;;
              if negb (truthy grp_list) then
                raise (Exn PyException "Groups list empty for user")
              else
                g0 <- lift (py_index0 grp_list) ;;
                v_gru <- lift (py_get g0 "IdGru") ;;
                modify (with_id_gru v_gru) ;;
                if is_none v_gru then
                  raise (Exn PyException "Groups payload missing 'IdGru'")
                else ret true.

(** [login] and [_get] call each other.  Each nested [login] starts after a
    401 reply was taken off the wire, so the nesting is bounded by the
    replies left; [depth] counts the nested calls still allowed and the
    interpreter's [RecursionError] ends a deeper chain. *)
Fixpoint login_upto `{PyRuntime} (depth : nat) : M state bool :=
  match depth with
  | O => raise (Exn RecursionError "maximum recursion depth exceeded")
  | S depth' => login_with (_get_with (login_upto depth'))
  end.

(** [eKartotekaAPI.login] *)
Definition login `{PyRuntime} : M state bool :=
  fun st => login_upto (S (length (wire st))) st.

(** [eKartotekaAPI._get] *)
Definition _get `{PyRuntime} (url : string) (use_account_token : bool)
  : M state json :=
  fun st => _get_with (login_upto (length (wire st))) url use_account_token st.

(** ** Public API *)

(** [data.get("results", [])] *)
Definition results_of (data : json) : result json :=
  py_get_default data "results" (JList []).

Definition houseList `{PyRuntime} : M state json :=
  _ <- login ;;
  st <- get_state ;;
  data <- _get (format houses [py_str (id_gru st); py_str (id_kli st)]) true ;;
  lift (results_of data).

Definition apartmentList `{PyRuntime} (houseId : json) : M state json :=
  _ <- login ;;
  st <- get_state ;;
  ts <- _ts_ms ;;
  let url := format apartments [py_str houseId; py_str (id_kli st); str_of_Z ts] in
  data <- _get url true ;;
  lift (results_of data).

Definition houseAnalysisSummary `{PyRuntime} (houseId : json) : M state json :=
  _ <- login ;;
  st <- get_state ;;
  ts <- _ts_ms ;;
  let url := format analysis_summary
               [py_str houseId; py_str (id_kli st); str_of_Z (year st); str_of_Z ts] in
  data <- _get url true ;;
  lift (results_of data).

Definition houseInvoicesList `{PyRuntime} (houseId apartmentId : json) : M state json :=
  _ <- login ;;
  st <- get_state ;;
  ts <- _ts_ms ;;
  let url := format invoices_list
               [py_str houseId; py_str (id_kli st); py_str apartmentId; str_of_Z ts] in
  data <- _get url true ;;
  lift (results_of data).

Definition invoiceDetails `{PyRuntime} (apartmentId invoiceId : json) : M state json :=
  _ <- login ;;
  st <- get_state ;;
  ts <- _ts_ms ;;
  let url := format monthly_rental
               [py_str invoiceId; py_str apartmentId; py_str (id_kli st); str_of_Z ts] in
  data <- _get url true ;;
  lift (results_of data).

Definition houseSensorList `{PyRuntime} (houseId : json) : M state json :=
  _ <- login ;;
  st <- get_state ;;
  ts <- _ts_ms ;;
  let url := format sensors_list [py_str houseId; py_str (id_gru st); str_of_Z ts] in
  data <- _get url true ;;
  lift (results_of data).

Definition houseSensorValue `{PyRuntime} (apartmentId sensorId : json) : M state json :=
  _ <- login ;;
  ts <- _ts_ms ;;
  let url := format sensor_value [py_str apartmentId; py_str sensorId; str_of_Z ts] in
  data <- _get url true ;;
  lift (results_of data).

Definition houseSensorCost `{PyRuntime} (houseId sensorId : json) : M state json :=
  _ <- login ;;
  st <- get_state ;;
  ts <- _ts_ms ;;
  let url := format monthly_meters_cost
               [py_str houseId; py_str (id_kli st); py_str sensorId; str_of_Z ts] in
  data <- _get url true ;;
  lift (results_of data).

(** The eight data-fetch methods as one family, each with its arguments. *)
Inductive fetch : Type :=
| HouseList
| ApartmentList (houseId : json)
| HouseAnalysisSummary (houseId : json)
| HouseInvoicesList (houseId apartmentId : json)
| InvoiceDetails (apartmentId invoiceId : json)
| HouseSensorList (houseId : json)
| HouseSensorValue (apartmentId sensorId : json)
| HouseSensorCost (houseId sensorId : json).

Definition call `{PyRuntime} (op : fetch) : M state json :=
  match op with
  | HouseList => houseList
  | ApartmentList h => apartmentList h
  | HouseAnalysisSummary h => houseAnalysisSummary h
  | HouseInvoicesList h a => houseInvoicesList h a
  | InvoiceDetails a i => invoiceDetails a i
  | HouseSensorList h => houseSensorList h
  | HouseSensorValue a s => houseSensorValue a s
  | HouseSensorCost h s => houseSensorCost h s
  end.

(** ** Notions used to state the client's properties *)

(** A relation between the state before and after that every primitive step
    of the client respects. *)
Class StepRel (R : state -> state -> Prop) : Prop := {
  step_refl : forall st, R st st;
  step_trans : forall a b c, R a b -> R b c -> R a c;
  step_exchange : forall rq st, R st (snd (exchange rq st));
  step_auth_token : forall v st, R st (with_auth_token v st);
  step_token : forall v st, R st (with_token v st);
  step_id_usr : forall v st, R st (with_id_usr v st);
  step_id_kli : forall v st, R st (with_id_kli v st);
  step_id_gru : forall v st, R st (with_id_gru v st);
  step_name : forall v st, R st (with_name v st)
}.

(** The script only gets shorter. *)
Definition wire_le (a b : state) : Prop := (length (wire b) <= length (wire a))%nat.

(** Requests are only ever added to the log. *)
Definition sent_grows (a b : state) : Prop := sent a `prefix_of` sent b.

(** Two computations agree on every state with fewer than [n] replies left. *)
Definition agree {A} (n : nat) (m1 m2 : M state A) : Prop :=
  forall st, (length (wire st) < n)%nat -> m1 st = m2 st.

Definition both_tokens (st : state) : Prop :=
  truthy (token st) = true /\ truthy (auth_token st) = true.

(** A [login] that leaves both tokens set whenever it returns. *)
Definition establishes (login : M state bool) : Prop :=
  forall st b st', login st = (Ok b, st') -> both_tokens st'.

(** A [_get] whose success keeps every property of the two tokens that holds
    once both are set. *)
Definition keeps (g : string -> bool -> M state json) : Prop :=
  forall (P : json -> json -> Prop) url u st j st',
    (forall a t, truthy t = true -> truthy a = true -> P a t) ->
    P (auth_token st) (token st) ->
    g url u st = (Ok j, st') ->
    P (auth_token st') (token st').

(** The request [_get] builds in state [st]. *)
Definition get_request `{PyRuntime} (url : string) (u : bool) (st : state) : request :=
  Request GET url (request_headers u st) None.

(** The state [_reset_tokens] leaves. *)
Definition reset (st : state) : state :=
  with_token (JStr "") (with_auth_token (JStr "") st).

(** How [_get] ends once its last response [resp] has arrived in state [st]. *)
Definition conclude (url : string) (resp : response) (st : state)
  : result json * state :=
  if status_code resp =? 200 then (resp_json resp, st)
  else (Raise (get_failed url resp), st).

(** What a data-fetch method does once [login] has returned. *)
Definition fetched `{PyRuntime} (url : string) (st : state) : result json * state :=
  match _get url true st with
  | (Ok data, st') => (results_of data, st')
  | (Raise e, st') => (Raise e, st')
  end.

(** Every brace of the template [t] opens a complete field [{d}]. *)
Fixpoint fields_closed (t : string) : bool :=
  match t with
  | EmptyString => true
  | String c rest =>
      match c, rest with
      | "{"%char, String d (String "}"%char rest') =>
          match digit_index d with
          | Some _ => fields_closed rest'
          | None => false
          end
      | "{"%char, _ => false
      | _, _ => fields_closed rest
      end
  end.

(** [needle in hay] *)
Fixpoint contains (needle hay : string) : bool :=
  match drop_prefix needle hay with
  | Some _ => true
  | None =>
      match hay with
      | EmptyString => false
      | String _ hay' => contains needle hay'
      end
  end.

End Api.

(* ===================================================================== *)
(** * coordinator.py                                                      *)
(* ===================================================================== *)

Module Coordinator.
Import Py Eff.

(** The client as the coordinator uses it: the seven methods it hands to the
    executor, over whatever store [W] the client keeps. *)
Class EkartotekaApi (W : Type) : Type := {
  api_apartmentList : json -> M W json;
  api_houseSensorList : json -> M W json;
  api_houseSensorValue : json -> json -> M W json;
  api_houseInvoicesList : json -> json -> M W json;
  api_invoiceDetails : json -> json -> M W json;
  api_houseAnalysisSummary : json -> M W json;
  api_houseSensorCost : json -> json -> M W json
}.


(** ** The snapshot ([coordinator.data]) *)

(** The dict [{"value": .., "type": .., "read_date": ..}] of one meter. *)
Record meter_entry : Type := MeterEntry {
  value : json;
  type : json;
  read_date : json
}.

Record house_meta : Type := HouseMeta {
  meta_house_id : Z;
  meta_house_name : string
}.

Record snapshot : Type := Snapshot {
  meters_invoice_summary : gmap pykey json;
  meters : gmap (Z * Z) meter_entry;
  meta : house_meta;
  last_invoice : gmap pykey json
}.

(** ** Logging *)
Inductive log_level : Type := WARNING | ERROR.

(** One call [_LOGGER.<level>(msg, *args)]. *)
Record log_record : Type := LogRecord {
  level : log_level;
  msg : json;
  args : list json
}.

(** [traceback.format_exc()], the frames of the traceback left out. *)
Definition format_exc (e : exn) : string :=
  "Traceback (most recent call last): " +:+ exn_msg e.

(** ** The coordinator object *)
Record coordinator : Type := EkartotekaCoordinator {
  house_id : Z;
  house_name : string;
  data : option snapshot;
  last_update_success : bool
}.

Definition py_or (a b : json) : json := if truthy a then a else b.

(** [EkartotekaCoordinator.__init__] *)
Definition __init__ `{PyRuntime} (house : json) : result coordinator :=
  match py_get house "IdADo" with
  | Raise e => Raise e
  | Ok ido =>
      match py_int ido with
      | Raise e => Raise e
      | Ok hid =>
          let nazwa := default JNull (match house with
                                      | JObj o => obj_lookup "nazwa" o
                                      | _ => None
                                      end) in
          let Nazwa := default JNull (match house with
                                      | JObj o => obj_lookup "Nazwa" o
                                      | _ => None
                                      end) in
          Ok {| house_id := hid;
                house_name := py_str (py_or nazwa (py_or Nazwa (JInt hid)));
                data := None;
                last_update_success := true |}
      end
  end.

(** ** One refresh cycle *)

(** What the cycle works on: the client's store and the log outside, the
    three dictionaries it fills inside. *)
Record env (W : Type) : Type := Env {
  api : W;
  logs : list log_record
}.
Arguments Env {W} api logs.
Arguments api {W} e.
Arguments logs {W} e.

Record locals : Type := Locals {
  l_meters : gmap (Z * Z) meter_entry;
  l_last_invoice : gmap pykey json;
  l_meters_invoice_summary : gmap pykey json
}.

Definition with_meters (m : gmap (Z * Z) meter_entry) (l : locals) : locals :=
  {| l_meters := m;
     l_last_invoice := l_last_invoice l;
     l_meters_invoice_summary := l_meters_invoice_summary l |}.

Definition with_last_invoice (m : gmap pykey json) (l : locals) : locals :=
  {| l_meters := l_meters l;
     l_last_invoice := m;
     l_meters_invoice_summary := l_meters_invoice_summary l |}.

Definition with_meters_invoice_summary (m : gmap pykey json) (l : locals) : locals :=
  {| l_meters := l_meters l;
     l_last_invoice := l_last_invoice l;
     l_meters_invoice_summary := m |}.

Definition no_locals : locals :=
  {| l_meters := ∅; l_last_invoice := ∅; l_meters_invoice_summary := ∅ |}.

Section Cycle.
Context `{PyRuntime} {W : Type} `{EkartotekaApi W}.
Variable self : coordinator.

Definition frame : Type := env W * locals.

(** [await self.hass.async_add_executor_job(method, *args)]: the method runs
    to completion on the client before the cycle goes on. *)
Definition executor_job {A} (m : M W A) : M frame A :=
  fun f =>
    let r := m (api (fst f)) in
    (fst r, (Env (snd r) (logs (fst f)), snd f)).

Definition _LOGGER (lvl : log_level) (m : json) (a : list json) : M frame unit :=
  modify (fun f => (Env (api (fst f)) (logs (fst f) ++ [LogRecord lvl m a])%list, snd f)).

Definition set_meters (m : gmap (Z * Z) meter_entry) : M frame unit :=
  modify (fun f => (fst f, with_meters m (snd f))).

Definition set_last_invoice (m : gmap pykey json) : M frame unit :=
  modify (fun f => (fst f, with_last_invoice m (snd f))).

Definition set_meters_invoice_summary (m : gmap pykey json) : M frame unit :=
  modify (fun f => (fst f, with_meters_invoice_summary m (snd f))).

(** [values[0].get(k) if values else None] *)
Definition first_field (values : json) (k : string) : M frame json :=
  if truthy values then
    v0 <- lift (py_index0 values) ;;
    lift (py_get v0 k)
  else ret JNull.

(** Body of [for s in sensors] (lines 86-102). *)
Definition sensor_body (apt_id s : json) : M frame unit :=
  sensor_id <- lift (py_get s "id_el_op") ;;
  if is_none sensor_id then
    _LOGGER WARNING (JStr "Empty sensor ") [sensor_id; JStr "in"; s]
  else
    values <- executor_job (api_houseSensorValue apt_id sensor_id) ;;
    v <- first_field values "stan" ;;
    t <- first_field values "typ" ;;
    d <- first_field values "data" ;;
    a <- lift (py_int apt_id) ;;
    b <- lift (py_int sensor_id) ;;
    f <- get_state ;;
    set_meters (<[(a, b) := MeterEntry v t d]> (l_meters (snd f))).

(** [entry[k] = invoices[0].get(field, None)] *)
Definition annotate (invoices : json) (field k : string) (entry : json) : M frame json :=
  i0 <- lift (py_index0 invoices) ;;
  x <- lift (py_get i0 field) ;;
  lift (py_setitem entry k x).

(** Body of [for entry in invoice_entries_list] (lines 115-119). *)
Definition invoice_entry_body (invoices apt_id entry : json) : M frame unit :=
  entry <- annotate invoices "DataOd" "start_date" entry ;;
  entry <- annotate invoices "DataDo" "end_date" entry ;;
  entry <- annotate invoices "Stan" "paid" entry ;;
  entry <- lift (py_setitem entry "apartment_id" apt_id) ;;
  nazwa <- lift (py_get entry "Nazwa") ;;
  k <- lift (hash_key nazwa) ;;
  f <- get_state ;;
  set_last_invoice (<[k := entry]> (l_last_invoice (snd f))).

(** [invoices and invoices[0].get("IdNal", None)] as a condition *)
Definition has_invoice_id (invoices : json) : M frame bool :=
  if truthy invoices then
    i0 <- lift (py_index0 invoices) ;;
    id_nal <- lift (py_get i0 "IdNal") ;;
    ret (truthy id_nal)
  else ret false.

(** The last-invoice part of the apartment loop (lines 105-119). *)
Definition invoice_step (apt_id : json) : M frame unit :=
  invoices <- executor_job (api_houseInvoicesList (JInt (house_id self)) apt_id) ;;
  go <- has_invoice_id invoices ;;
  if go : bool then
    i0 <- lift (py_index0 invoices) ;;
    last_invoice_id <- lift (py_get i0 "IdNal") ;;
    invoice_entries_list <- executor_job (api_invoiceDetails apt_id last_invoice_id) ;;
    entries <- lift (py_iter invoice_entries_list) ;;
    for_each entries (invoice_entry_body invoices apt_id)
  else ret tt.

(** Body of [for apt in apartment_list] (lines 79-119). *)
Definition apartment_body (apartment_list sensors apt : json) : M frame unit :=
  apt_id <- lift (py_get apt "IdLok") ;;
  if is_none apt_id then
    _LOGGER WARNING (JStr "Empty IdLok in") [apartment_list]
  else
    ss <- lift (py_iter sensors) ;;
    for_each ss (sensor_body apt_id) ;;
    invoice_step apt_id.

(** Lines 64-119: apartments, sensors, readings and last invoices. *)
Definition fetch_meters_and_invoices : M frame unit :=
  apartment_list <- executor_job (api_apartmentList (JInt (house_id self))) ;;
  sensors <- executor_job (api_houseSensorList (JInt (house_id self))) ;;
  set_meters ∅ ;;
  set_last_invoice ∅ ;;
  apts <- lift (py_iter apartment_list) ;;
  for_each apts (apartment_body apartment_list sensors).

(** Body of [for inv in inv_list] (lines 129-138). *)
Definition summary_body (inv : json) : M frame unit :=
  _LOGGER ERROR inv [] ;;
  sensor_id <- lift (py_getitem inv "id_el_op") ;;
  sensor_cost <- executor_job (api_houseSensorCost (JInt (house_id self)) sensor_id) ;;
  _LOGGER ERROR sensor_cost [] ;;
  inv <- (if truthy sensor_cost then
            c0 <- lift (py_index0 sensor_cost) ;;
            cost <- lift (py_getitem c0 "zuzycieFaktyczne") ;;
            inv <- lift (py_setitem inv "cost" cost) ;;
            c0 <- lift (py_index0 sensor_cost) ;;
            amount <- lift (py_getitem c0 "zuzycieFaktyczneJM") ;;
            lift (py_setitem inv "amount" amount)
          else ret inv) ;;
  key <- lift (py_getitem inv "id_el_op") ;;
  k <- lift (hash_key key) ;;
  f <- get_state ;;
  set_meters_invoice_summary (<[k := inv]> (l_meters_invoice_summary (snd f))).

(** The inner [try] (lines 124-138). *)
Definition summary_try : M frame unit :=
  inv_list <- executor_job (api_houseAnalysisSummary (JInt (house_id self))) ;;
  if truthy inv_list then
    invs <- lift (py_iter inv_list) ;;
    for_each invs summary_body
  else ret tt.

(** Lines 122-143: the yearly summary, its failures caught and logged. *)
Definition fetch_summary : M frame unit :=
  set_meters_invoice_summary ∅ ;;
  try_except summary_try
    (fun inv_err =>
       _LOGGER WARNING (JStr "Invoice summary failed for house %s: %s")
               [JInt (house_id self); JStr (exn_msg inv_err)]).

(** Lines 145-150. *)
Definition build_snapshot (l : locals) : snapshot :=
  {| meters_invoice_summary := l_meters_invoice_summary l;
     meters := l_meters l;
     meta := HouseMeta (house_id self) (house_name self);
     last_invoice := l_last_invoice l |}.

(** The outer [try] (lines 64-150). *)
Definition update_try : M frame snapshot :=
  fetch_meters_and_invoices ;;
  fetch_summary ;;
  f <- get_state ;;
  ret (build_snapshot (snd f)).

Definition update_failed (err : exn) : exn :=
  Exn UpdateFailed ("Unable to update eKartoteka data: " +:+ exn_msg err).

(** [EkartotekaCoordinator._async_update_data] *)
Definition _async_update_data : M (env W) snapshot :=
  fun e =>
    let r :=
      try_except update_try
        (fun err =>
           _LOGGER ERROR (JStr (format_exc err)) [] ;;
           raise (update_failed err))
        (e, no_locals) in
    (fst r, fst (snd r)).

(** Modelled from the spec: the refresh step of the host platform's
    [DataUpdateCoordinator], which is not part of this package.  It awaits
    [_async_update_data]; a returned snapshot replaces [data] as a whole, a
    raised refresh failure leaves [data] as it was and marks the update as
    failed. *)
Definition async_refresh (e : env W) : coordinator * env W :=
  match _async_update_data e with
  | (Ok snap, e') =>
      ({| house_id := house_id self; house_name := house_name self;
          data := Some snap; last_update_success := true |}, e')
  | (Raise _, e') =>
      ({| house_id := house_id self; house_name := house_name self;
          data := data self; last_update_success := false |}, e')
  end.

End Cycle.

(** ** Notions used to state the cycle's properties *)

(** [o.get(k)] on the items of a dict. *)
Definition field (k : string) (o : list (string * json)) : json :=
  default JNull (obj_lookup k o).



(** An invoice entry [eo] with the four annotations of the period [po] and
    the apartment. *)
Definition annotated (po : list (string * json)) (apt_id : json)
    (eo : list (string * json)) : list (string * json) :=
  obj_set "apartment_id" apt_id
    (obj_set "paid" (field "Stan" po)
       (obj_set "end_date" (field "DataDo" po)
          (obj_set "start_date" (field "DataOd" po) eo))).

(** A summary row [o] with the cost figure merged in. *)
Definition with_cost (cost amount : json) (o : list (string * json))
  : list (string * json) :=
  obj_set "amount" amount (obj_set "cost" cost o).

(** Relations between frames: what a step leaves alone. *)
Definition same_meters {W} (f f' : env W * locals) : Prop :=
  l_meters (snd f') = l_meters (snd f).

Definition same_last_invoice {W} (f f' : env W * locals) : Prop :=
  l_last_invoice (snd f') = l_last_invoice (snd f).

Definition same_collected {W} (f f' : env W * locals) : Prop :=
  l_meters (snd f') = l_meters (snd f) /\
  l_last_invoice (snd f') = l_last_invoice (snd f).


Definition summary_warning (hid : Z) (err : exn) : log_record :=
  LogRecord WARNING (JStr "Invoice summary failed for house %s: %s")
            [JInt hid; JStr (exn_msg err)].

Definition update_error (err : exn) : log_record :=
  LogRecord ERROR (JStr (format_exc err)) [].

End Coordinator.

(* ===================================================================== *)
(** * base_sensor.py and the entity classes                               *)
(* ===================================================================== *)

Module Sensors.
Import Py Coordinator.

(** [homeassistant.components.sensor.SensorDeviceClass], the members used. *)
Inductive SensorDeviceClass : Type := WATER | ENERGY | MONETARY.

(** [UnitOfVolume.CUBIC_METERS] and [UnitOfEnergy.GIGA_JOULE] *)
Definition CUBIC_METERS : string := "m³".
Definition GIGA_JOULE : string := "GJ".

(** The two attributes of an entity that the unit mapping assigns. *)
Record entity : Type := Entity {
  _attr_device_class : option SensorDeviceClass;
  _attr_native_unit_of_measurement : option string
}.

(** [EkartotekaBaseEntity._apply_unit_mapping] *)
Definition _apply_unit_mapping (self : entity) (unit : option string) : entity :=
  let unit := strip (default "" unit) in
  if String.eqb unit "m3" then
    {| _attr_device_class := Some WATER;
       _attr_native_unit_of_measurement := Some CUBIC_METERS |}
  else if String.eqb unit "GJ" then
    {| _attr_device_class := Some ENERGY;
       _attr_native_unit_of_measurement := Some GIGA_JOULE |}
  else
    {| _attr_device_class := _attr_device_class self;
       _attr_native_unit_of_measurement :=
         if String.eqb unit "" then None else Some unit |}.

(** The snapshot as the entities see it: [self.coordinator.data], [None]
    before the first successful refresh.  A snapshot dict always has its
    four keys, so it is truthy whenever it is there. *)

Module EkartotekaMeterSensor.

Record t : Type := Make {
  apartment_id : Z;
  sensor_id : Z;
  group_id : Z;
  attrs : entity
}.

Definition __init__ (apartment_id sensor_id group_id : Z) (unit : option string) : t :=
  {| apartment_id := apartment_id; sensor_id := sensor_id; group_id := group_id;
     attrs := _apply_unit_mapping (Entity None None) unit |}.

(** [meters = self.coordinator.data.get("meters", {}) if self.coordinator.data else {}] *)
Definition meters_of (c : coordinator) : gmap (Z * Z) meter_entry :=
  match data c with
  | Some d => meters d
  | None => ∅
  end.

(** [return meters.get((self.apartment_id, self.sensor_id)).get("value", None)] *)
Definition native_value (c : coordinator) (self : t) : result json :=
  match meters_of c !! (apartment_id self, sensor_id self) with
  | Some e => Ok (value e)
  | None => Raise (no_attribute JNull "get")
  end.

(** The attributes [extra_state_attributes] reads from the snapshot:
    [sensor_data = meters.get((..), {})], then [sensor_data.get("type", None)]
    and [sensor_data.get("read_date", None)]. *)
Definition extra_state_attributes (c : coordinator) (self : t)
  : result (json * json) :=
  match meters_of c !! (apartment_id self, sensor_id self) with
  | Some e => Ok (type e, read_date e)
  | None => Ok (JNull, JNull)
  end.

End EkartotekaMeterSensor.

(** [value = self.coordinator.data.get(section, {}).get(key, None)
             if self.coordinator.data else {}]
    followed by [return value.get(field, None)]: the pattern shared by the
    three monetary entities. *)
Definition lookup_field (section : snapshot -> gmap pykey json)
    (c : coordinator) (key : json) (field : string) : result json :=
  match data c with
  | Some d =>
      match hash_key key with
      | Raise e => Raise e
      | Ok k =>
          match section d !! k with
          | Some v => py_get v field
          | None => Raise (no_attribute JNull "get")
          end
      end
  | None => py_get (JObj []) field
  end.

Module EkartotekaRentInvoiceEntry.

Record t : Type := Make {
  _meter_id : json;
  _apartment_id : json
}.

Definition native_value (c : coordinator) (self : t) : result json :=
  lookup_field last_invoice c (_meter_id self) "Nalicz".

End EkartotekaRentInvoiceEntry.

Module EkartotekaInvoiceSummarySensor.

Record t : Type := Make {
  _meter_id : json
}.

Definition native_value (c : coordinator) (self : t) : result json :=
  lookup_field meters_invoice_summary c (_meter_id self) "WynikRozliczenia".

End EkartotekaInvoiceSummarySensor.

Module EkartotekaMeterSensorCost.

Record t : Type := Make {
  sensor_id : Z
}.

Definition native_value (c : coordinator) (self : t) : result json :=
  lookup_field meters_invoice_summary c (JInt (sensor_id self)) "cost".

End EkartotekaMeterSensorCost.

End Sensors.

(* ===================================================================== *)
(** * A runtime for the examples                                          *)
(* ===================================================================== *)

Module Runtime.
Import Py.

(** ASCII decimal literals with an optional sign, surrounding whitespace
    ignored. *)
Fixpoint digits_value (acc : Z) (s : string) : option Z :=
  match s with
  | EmptyString => Some acc
  | String c s' =>
      match digit_index c with
      | Some d => digits_value (10 * acc + Z.of_nat d) s'
      | None => None
      end
  end.

Definition decimal (s : string) : option Z :=
  match strip s with
  | EmptyString => None
  | String "-" EmptyString | String "+" EmptyString => None
  | String "-" ds => Z.opp <$> digits_value 0 ds
  | String "+" ds => digits_value 0 ds
  | ds => digits_value 0 ds
  end.

(** A [repr] that is exact on numbers, [None] and booleans and quotes strings
    without escapes. *)
Fixpoint simple_repr (v : json) : string :=
  match v with
  | JNull => "None"
  | JBool true => "True"
  | JBool false => "False"
  | JInt n => str_of_Z n
  | JStr s => "'" +:+ s +:+ "'"
  | JList l => "[" +:+ String.concat ", " (map simple_repr l) +:+ "]"
  | JObj o =>
      "{" +:+ String.concat ", "
                (map (fun kv => "'" +:+ fst kv +:+ "': " +:+ simple_repr (snd kv)) o)
          +:+ "}"
  end.

Definition ascii_runtime : PyRuntime :=
  {| int_of_str := decimal; py_repr := simple_repr |}.

End Runtime.

(* ===================================================================== *)
(** * Example servers and states                                          *)
(* ===================================================================== *)

Module Examples.
Import Py Eff Api Coordinator.

Definition ok (j : json) : reply :=
  {| elapsed_ms := 40; outcome := Some (Response 200 "" (Some j)) |}.

Definition status (code : Z) (txt : string) : reply :=
  {| elapsed_ms := 40; outcome := Some (Response code txt None) |}.

Definition results (l : list json) : json := JObj [("results", JList l)].

(** The four replies of a successful login. *)
Definition login_replies : list reply :=
  [ ok (JObj [("token", JStr "A1")]);
    ok (results [JObj [("id", JInt 3)]]);
    ok (JObj [("id_usr", JInt 1); ("id_kli", JInt 5); ("nazwa", JStr "Kowalski");
              ("token", JStr "T1")]);
    ok (results [JObj [("IdGru", JInt 7)]]) ].

(** A new client and a client that has logged in, facing the replies [w]. *)
Definition fresh (w : list reply) : state :=
  init "user" "secret" w 1700000000000 2024.

Definition logged_in (w : list reply) : state :=
  {| username := "user"; password := "secret";
     auth_token := JStr "A1"; token := JStr "T1";
     id_usr := JInt 1; id_kli := JInt 5; id_gru := JInt 7; name := JStr "Kowalski";
     wire := w; sent := []; now_ms := 1700000000000; year := 2024 |}.

Definition some_url : string := "https://www.e-kartoteka.pl/api/liczniki/liczniki/?page=1".

(** Documents of the remote service. *)
Definition apartment_1 : json := JObj [("IdLok", JInt 1)].

Definition cold_water : json :=
  JObj [("id_el_op", JInt 10); ("jm", JStr "m3"); ("nazwa", JStr "Cold water")].

Definition sensor_without_id : list (string * json) := [("jm", JStr "GJ")].

Definition reading_12_5 : list (string * json) :=
  [("stan", JStr "12.5"); ("typ", JStr "A"); ("data", JStr "2024-01-01")].

Definition january : list (string * json) :=
  [("IdNal", JInt 77); ("DataOd", JStr "2024-01-01"); ("DataDo", JStr "2024-01-31");
   ("Stan", JBool true)].

Definition rent : list (string * json) :=
  [("Nazwa", JStr "Czynsz"); ("Nalicz", JStr "350.00")].

Definition nameless_a : list (string * json) := [("Nalicz", JStr "1.00")].
Definition nameless_b : list (string * json) := [("Nalicz", JStr "2.00")].

Definition row_10 : list (string * json) :=
  [("id_el_op", JInt 10); ("Nazwa", JStr "Cold water"); ("WynikRozliczenia", JStr "-12.30")].

Definition cost_10 : list (string * json) :=
  [("zuzycieFaktyczne", JStr "41.5"); ("zuzycieFaktyczneJM", JStr "m3")].


Definition house_11 : coordinator :=
  {| house_id := 11; house_name := "Dom"; data := None; last_update_success := true |}.


Definition empty_snapshot : snapshot :=
  {| meters_invoice_summary := ∅; meters := ∅; meta := HouseMeta 0 ""; last_invoice := ∅ |}.

Definition snapshot_of (r : result snapshot) : snapshot :=
  match r with
  | Ok snap => snap
  | Raise _ => empty_snapshot
  end.

(** Stand-ins for the client that answer from fixed data; their store counts
    the calls.  [canned] always answers, [unreachable] never does, and
    [no_summary] answers all but the yearly summary. *)
Definition answer (j : json) : M nat json := fun n => (Ok j, S n).
Definition refuse : M nat json :=
  fun n => (Raise (Exn ConnectionError "connection failed"), S n).

Definition canned : EkartotekaApi nat :=
  {| api_apartmentList := fun _ => answer (JList [apartment_1]);
     api_houseSensorList := fun _ => answer (JList [JObj sensor_without_id; cold_water]);
     api_houseSensorValue := fun _ _ => answer (JList [JObj reading_12_5]);
     api_houseInvoicesList := fun _ _ => answer (JList [JObj january]);
     api_invoiceDetails :=
       fun _ _ => answer (JList [JObj rent; JObj nameless_a; JObj nameless_b]);
     api_houseAnalysisSummary := fun _ => answer (JList [JObj row_10]);
     api_houseSensorCost := fun _ _ => answer (JList [JObj cost_10]) |}.

Definition unreachable : EkartotekaApi nat :=
  {| api_apartmentList := fun _ => refuse;
     api_houseSensorList := fun _ => refuse;
     api_houseSensorValue := fun _ _ => refuse;
     api_houseInvoicesList := fun _ _ => refuse;
     api_invoiceDetails := fun _ _ => refuse;
     api_houseAnalysisSummary := fun _ => refuse;
     api_houseSensorCost := fun _ _ => refuse |}.


(** A coordinator that already holds a snapshot. *)
Definition old_snapshot : snapshot :=
  {| meters_invoice_summary := ∅;
     meters := {[ (1, 10) := MeterEntry (JStr "11.0") (JStr "A") (JStr "2023-12-01") ]};
     meta := HouseMeta 11 "Dom";
     last_invoice := {[ KStr "Czynsz" := JObj rent ]} |}.

Definition house_11_refreshed : coordinator :=
  {| house_id := 11; house_name := "Dom"; data := Some old_snapshot;
     last_update_success := true |}.

End Examples.

(* ===================================================================== *)
(** * ekartoteka_api.py: the rest of the client                           *)
(* ===================================================================== *)

Module ApiRest.
Import Py Eff Api.

Definition post_failed (url : string) (resp : response) : exn :=
  Exn PyException
      ("POST " +:+ url +:+ " failed: " +:+ str_of_Z (status_code resp)
         +:+ " " +:+ text resp).

(** [eKartotekaAPI._post].  [login] never calls it, so it is defined after
    [login]. *)
Definition _post `{PyRuntime} (url : string) (json : option Py.json)
    (use_account_token : bool) : M state Py.json :=
  st <- get_state ;;
  resp <- session_post url (request_headers use_account_token st) json ;;
  resp <- (if status_code resp =? 401 then
             _reset_tokens ;;
             _ <- login ;;
             st' <- get_state ;;
             session_post url (request_headers use_account_token st') json
           else ret resp) ;;
  if negb (status_code resp =? 200) then raise (post_failed url resp)
  else lift (resp_json resp).

(** ** Notions used to state further properties of the client *)

(** The request [_post] builds in state [st]. *)
Definition post_request `{PyRuntime} (url : string) (json : option Py.json)
    (u : bool) (st : state) : request :=
  Request POST url (request_headers u st) json.

(** The request [login] opens with. *)
Definition credentials_request (st : state) : request :=
  Request POST login_url _json_headers
    (Some (JObj [("username", JStr (username st)); ("password", JStr (password st))])).

(** The state after one reply [r] to the request [rq]: the reply is off the
    wire, the request is in the log, the clock has moved on. *)
Definition answered (rq : request) (r : reply) (rest : list reply) (st : state) : state :=
  {| username := username st; password := password st;
     auth_token := auth_token st; token := token st;
     id_usr := id_usr st; id_kli := id_kli st; id_gru := id_gru st; name := name st;
     wire := rest; sent := (sent st ++ [rq])%list;
     now_ms := now_ms st + elapsed_ms r; year := year st |}.

(** What no method of the client touches or rewrites: the credentials and
    the calendar year stay, the log of requests only grows at its end, the
    replies are taken off the wire from its front. *)
Definition client_frame (a b : state) : Prop :=
  username b = username a /\ password b = password a /\ year b = year a /\
  sent a `prefix_of` sent b /\ wire b `suffix_of` wire a.

(** A relation between the states around a computation that may depend on
    whether the computation returned, respected by every primitive step. *)
Class TrackRel (Q : bool -> state -> state -> Prop) : Prop := {
  track_refl : forall x st, Q x st st;
  track_seq : forall x a b c, Q true a b -> Q x b c -> Q x a c;
  track_exchange : forall rq st,
    Q (is_ok (fst (exchange rq st))) st (snd (exchange rq st));
  track_auth_token : forall x v st, Q x st (with_auth_token v st);
  track_token : forall x v st, Q x st (with_token v st);
  track_id_usr : forall x v st, Q x st (with_id_usr v st);
  track_id_kli : forall x v st, Q x st (with_id_kli v st);
  track_id_gru : forall x v st, Q x st (with_id_gru v st);
  track_name : forall x v st, Q x st (with_name v st)
}.

Definition tracked {A} (Q : bool -> state -> state -> Prop) (m : M state A) : Prop :=
  forall st, Q (is_ok (fst (m st))) st (snd (m st)).

(** A reply that carries an HTTP response; the others stand for a request
    to which the transport raised. *)
Definition delivered (r : reply) : Prop := outcome r <> None.

(** Requests against replies between two states of the client, [taken] being
    the replies that left the wire.  After a computation that returned, every
    request was answered by a response.  After one that raised, every request
    but the last was: the last one met a reply that was no response, or an
    empty wire, or it was answered and the computation raised by itself. *)
Definition all_answered (returned : bool) (a b : state) : Prop :=
  exists taken : list reply,
    wire a = (taken ++ wire b)%list /\
    if returned then
      Forall delivered taken /\
      length (sent b) = (length (sent a) + length taken)%nat
    else
      Forall delivered (removelast taken) /\
      (length (sent b) = (length (sent a) + length taken)%nat \/
       (Forall delivered taken /\ wire b = [] /\
        length (sent b) = S (length (sent a) + length taken))).



End ApiRest.

(* ===================================================================== *)
(** * coordinator.py: what a snapshot holds                               *)
(* ===================================================================== *)

Module CoordinatorRest.
Import Py Eff Coordinator.

(** [n] is [int(x.get(k))] for an element [x] of the list [xs]: an
    identifier the list carries under [k]. *)
Definition listed_id `{PyRuntime} (k : string) (xs : json) (n : Z) : Prop :=
  exists (l : list json) (x v : json),
    py_iter xs = Ok l /\ x ∈ l /\ py_get x k = Ok v /\ py_int v = Ok n.

(** An invoice entry as step 4 leaves it under the key [k]: a dict stored
    under its own [Nazwa] that carries the period and the apartment. *)
Definition stored_entry (k : pykey) (v : json) : Prop :=
  exists (o : list (string * json)) (apt_id : json),
    v = JObj o /\ hash_key (field "Nazwa" o) = Ok k /\
    obj_lookup "apartment_id" o = Some apt_id /\ is_none apt_id = false /\
    is_Some (obj_lookup "start_date" o) /\
    is_Some (obj_lookup "end_date" o) /\
    is_Some (obj_lookup "paid" o).

(** A summary row as step 5 leaves it under the key [k]: a dict stored under
    its own [id_el_op]. *)
Definition stored_row (k : pykey) (v : json) : Prop :=
  exists (o : list (string * json)) (sid : json),
    v = JObj o /\ obj_lookup "id_el_op" o = Some sid /\ hash_key sid = Ok k.

(** A property of the three dictionaries that a step does not break. *)
Definition preserves {W} (P : locals -> Prop) (f f' : env W * locals) : Prop :=
  P (snd f) -> P (snd f').

(** The keys of the meter map after a step: those it had, and those [D]
    describes. *)
Definition adds_keys {W} (D : Z * Z -> Prop) (f f' : env W * locals) : Prop :=
  forall k, is_Some (l_meters (snd f') !! k) <->
            is_Some (l_meters (snd f) !! k) \/ D k.

Definition entries_stored (l : locals) : Prop :=
  forall k v, l_last_invoice l !! k = Some v -> stored_entry k v.

Definition rows_stored (l : locals) : Prop :=
  forall k v, l_meters_invoice_summary l !! k = Some v -> stored_row k v.

End CoordinatorRest.

(* ===================================================================== *)
(** * The entity classes: construction and attributes                     *)
(* ===================================================================== *)

Module SensorsRest.
Import Py Coordinator Sensors.

(** What every entity class sets in its [__init__] besides the key it reads
    the snapshot with. *)
Record identity : Type := Identity {
  _attr_name : string;
  _unique_id : string
}.

(** [value = self.coordinator.data.get(section, {}).get(key, None)
             if self.coordinator.data else None]
    as [extra_state_attributes] of the invoice and summary entities has it. *)
Definition lookup_value (section : snapshot -> gmap pykey json)
    (c : coordinator) (key : json) : result json :=
  match data c with
  | Some d =>
      match hash_key key with
      | Raise e => Raise e
      | Ok k => Ok (default JNull (section d !! k))
      end
  | None => Ok JNull
  end.

(** The items [name: value.get(field, None)] of a dict display, evaluated in
    order. *)
Fixpoint get_all (value : json) (fields : list (string * string))
  : result (list (string * json)) :=
  match fields with
  | [] => Ok []
  | (name, field) :: rest =>
      match py_get value field with
      | Raise e => Raise e
      | Ok x =>
          match get_all value rest with
          | Raise e => Raise e
          | Ok items => Ok ((name, x) :: items)
          end
      end
  end.

(** meter_sensor.py *)
Module MeterSensor.

(** [__init__], called with integers as sensor.py does. *)
Definition __init__ `{PyRuntime} (c : coordinator) (apartment_id sensor_id group_id : Z)
    (unit : option string) (sensor_name : json)
  : EkartotekaMeterSensor.t * identity :=
  (EkartotekaMeterSensor.__init__ apartment_id sensor_id group_id unit,
   {| _attr_name := py_str sensor_name +:+ " (" +:+ str_of_Z sensor_id +:+ ")";
      _unique_id :=
        "ekartoteka_meter_" +:+ str_of_Z (house_id c) +:+ "_" +:+ str_of_Z apartment_id
          +:+ "_" +:+ str_of_Z group_id +:+ "_" +:+ str_of_Z sensor_id |}).

End MeterSensor.

(** invoice_entry_sensor.py *)
Module RentInvoiceEntry.

Definition __init__ `{PyRuntime} (c : coordinator) (entry_name apartment_id : json)
  : EkartotekaRentInvoiceEntry.t * identity :=
  (EkartotekaRentInvoiceEntry.Make entry_name apartment_id,
   {| _attr_name := py_str entry_name +:+ " (" +:+ str_of_Z (house_id c) +:+ ")";
      _unique_id :=
        "ekartoteka_invoice_entry_" +:+ str_of_Z (house_id c) +:+ "_" +:+ py_str entry_name |}).

Definition extra_state_attributes (c : coordinator) (self : EkartotekaRentInvoiceEntry.t)
  : result (list (string * json)) :=
  match lookup_value last_invoice c (EkartotekaRentInvoiceEntry._meter_id self) with
  | Raise e => Raise e
  | Ok value =>
      match get_all value
              [ ("count", "WspIle"); ("count_unit", "WspIleJM"); ("price", "Cena");
                ("price_coefficent", "WspCena"); ("is_sub", "is_sub"); ("size", "Ilosc");
                ("unit", "JM"); ("period", "zaOkres");
                ("period_start", "start_date"); ("period_end", "end_date");
                ("name", "Nazwa") ] with
      | Raise e => Raise e
      | Ok items =>
          Ok (items ++
              [ ("house_id", JInt (house_id c));
                ("apartment_id", EkartotekaRentInvoiceEntry._apartment_id self);
                ("house_name", JStr (house_name c)) ])%list
      end
  end.

End RentInvoiceEntry.

(** utility_summary_sensor.py *)
Module InvoiceSummarySensor.

Definition __init__ `{PyRuntime} (c : coordinator) (meter_id meter_name : json)
  : EkartotekaInvoiceSummarySensor.t * identity :=
  (EkartotekaInvoiceSummarySensor.Make meter_id,
   {| _attr_name := py_str meter_name +:+ " (" +:+ str_of_Z (house_id c) +:+ ")";
      _unique_id :=
        "ekartoteka_meters_invoice_sum_" +:+ str_of_Z (house_id c) +:+ "_"
          +:+ py_str meter_id |}).

Definition extra_state_attributes (c : coordinator)
    (self : EkartotekaInvoiceSummarySensor.t) : result (list (string * json)) :=
  match lookup_value meters_invoice_summary c
          (EkartotekaInvoiceSummarySensor._meter_id self) with
  | Raise e => Raise e
  | Ok value =>
      match get_all value [ ("name", "Nazwa") ] with
      | Raise e => Raise e
      | Ok items =>
          Ok (items ++
              [ ("house_id", JInt (house_id c));
                ("house_name", JStr (house_name c)) ])%list
      end
  end.

End InvoiceSummarySensor.

(** meter_sensor_cost.py *)
Module MeterSensorCost.

(** [__init__]: [self.sensor_id = int(sensor_id)] may raise. *)
Definition __init__ `{PyRuntime} (c : coordinator) (sensor_id sensor_name : json)
  : result (EkartotekaMeterSensorCost.t * identity) :=
  match py_int sensor_id with
  | Raise e => Raise e
  | Ok n =>
      Ok (EkartotekaMeterSensorCost.Make n,
          {| _attr_name := py_str sensor_name +:+ " (" +:+ str_of_Z n +:+ ")";
             _unique_id :=
               "ekartoteka_meter_cost_" +:+ str_of_Z (house_id c) +:+ "_"
                 +:+ str_of_Z n |})
  end.

(** The snapshot is looked up and not used. *)
Definition extra_state_attributes (c : coordinator) (self : EkartotekaMeterSensorCost.t)
  : result (list (string * json)) :=
  Ok [ ("house_id", JInt (house_id c)); ("house_name", JStr (house_name c)) ].

End MeterSensorCost.

End SensorsRest.

(* ===================================================================== *)
(** * sensor.py: setting the platform up                                  *)
(* ===================================================================== *)

Module Setup.
Import Py Eff Coordinator Sensors SensorsRest.

(** [api.houseList], the one method the set-up calls besides those the
    coordinator uses. *)
Class EkartotekaHouses (W : Type) : Type := {
  api_houseList : M W json
}.

#[global] Instance client_houses `{PyRuntime} : EkartotekaHouses Api.state := {
  api_houseList := Api.houseList
}.

(** An entity of one of the four classes, as its constructor leaves it. *)
Inductive sensor_entity : Type :=
| InvoiceSummarySensor (s : EkartotekaInvoiceSummarySensor.t * identity)
| MeterSensorCost (s : EkartotekaMeterSensorCost.t * identity)
| RentInvoiceEntry (s : EkartotekaRentInvoiceEntry.t * identity)
| MeterSensor (s : EkartotekaMeterSensor.t * identity).

(** One value of [sensor_meta_by_id]. *)
Record sensor_meta : Type := SensorMeta {
  meta_group_id : json;
  meta_unit : string;
  meta_name : json
}.

(** [(x or "").strip()] *)
Definition or_empty_strip (x : json) : result string :=
  if truthy x then
    match x with
    | JStr s => Ok (strip s)
    | _ => Raise (no_attribute x "strip")
    end
  else Ok (strip "").

Section Build.
Context `{PyRuntime} {W : Type} `{EkartotekaApi W}.

(** The host's [DataUpdateCoordinator.async_config_entry_first_refresh], which
    is not part of this package: it either raises or leaves the coordinator
    with what the first refresh made of it. *)
Variable async_config_entry_first_refresh : coordinator -> M (env W) coordinator.

(** [dict.items()] of the two maps the entities are derived from.  A Python
    dict yields its items in the order of insertion, with the key objects
    that were inserted; the maps of the snapshot keep neither. *)
Variable last_invoice_items : gmap pykey json -> list (json * json).
Variable meters_items : gmap (Z * Z) meter_entry -> list ((Z * Z) * meter_entry).

(** What [_async_build_entities_for_house] works on: the client's store and
    the log outside, the list [entities] inside. *)
Definition build_frame : Type := env W * list sensor_entity.

Definition executor_job {A} (m : M W A) : M build_frame A :=
  fun f =>
    let r := m (api (fst f)) in
    (fst r, (Env (snd r) (logs (fst f)), snd f)).

(** [await] of a method of the host that works on the client and the log. *)
Definition await {A} (m : M (env W) A) : M build_frame A :=
  fun f =>
    let r := m (fst f) in
    (fst r, (snd r, snd f)).

Definition _LOGGER (lvl : log_level) (m : json) (a : list json) : M build_frame unit :=
  modify (fun f => (Env (api (fst f)) (logs (fst f) ++ [LogRecord lvl m a])%list, snd f)).

(** [entities.append(x)] *)
Definition append (x : sensor_entity) : M build_frame unit :=
  modify (fun f => (fst f, (snd f ++ [x])%list)).

(** Body of [for meter in meters_info] (lines 70-87). *)
Definition summary_entities_body (coordinator : Coordinator.coordinator) (meter : json)
  : M build_frame unit :=
  id <- lift (py_get meter "id_el_op") ;;
  if truthy id then
    meter_id <- lift (py_get meter "id_el_op") ;;
    meter_name <- lift (py_get_default meter "Nazwa" (JStr "")) ;;
    append (InvoiceSummarySensor
              (SensorsRest.InvoiceSummarySensor.__init__ coordinator meter_id meter_name)) ;;
    _LOGGER ERROR (JStr "test") [] ;;
    sensor_id <- lift (py_get meter "id_el_op") ;;
    sensor_name <- lift (py_get_default meter "Nazwa" (JStr "")) ;;
    cost <- lift (SensorsRest.MeterSensorCost.__init__ coordinator sensor_id sensor_name) ;;
    append (MeterSensorCost cost)
  else ret tt.

(** Body of [for entry_name, entry in last_invoice.items()] (line 92). *)
Definition invoice_entity_body (coordinator : Coordinator.coordinator)
    (item : json * json) : M build_frame unit :=
  apartment_id <- lift (py_get (snd item) "apartment_id") ;;
  append (RentInvoiceEntry
            (SensorsRest.RentInvoiceEntry.__init__ coordinator (fst item) apartment_id)).

(** The dict comprehension of lines 99-107: a later sensor replaces an
    earlier one with the same identifier. *)
Fixpoint sensor_meta_by_id (sensors : list json) (acc : gmap Z sensor_meta)
  : result (gmap Z sensor_meta) :=
  match sensors with
  | [] => Ok acc
  | s :: rest =>
      match py_get s "id_el_op" with
      | Raise e => Raise e
      | Ok id =>
          if is_none id then sensor_meta_by_id rest acc
          else
            match py_int id with
            | Raise e => Raise e
            | Ok n =>
                match py_get s "id_gru" with
                | Raise e => Raise e
                | Ok gru =>
                    match py_get s "jm" with
                    | Raise e => Raise e
                    | Ok jm =>
                        match or_empty_strip jm with
                        | Raise e => Raise e
                        | Ok unit =>
                            match py_get s "nazwa" with
                            | Raise e => Raise e
                            | Ok nazwa =>
                                sensor_meta_by_id rest
                                  (<[n := SensorMeta gru unit (py_or nazwa (JStr (py_str id)))]>
                                     acc)
                            end
                        end
                    end
                end
            end
      end
  end.

(** Body of [for (apt_id, sensor_id), _ in meters.items()] (lines 109-122). *)
Definition meter_entity_body (coordinator : Coordinator.coordinator)
    (metas : gmap Z sensor_meta) (item : (Z * Z) * meter_entry) : M build_frame unit :=
  let apt_id := fst (fst item) in
  let sensor_id := snd (fst item) in
  match metas !! sensor_id with
  | None => ret tt
  | Some meta =>
      group_id <- (if is_none (meta_group_id meta) then ret 0
                   else lift (py_int (meta_group_id meta))) ;;
      append (MeterSensor
                (SensorsRest.MeterSensor.__init__ coordinator apt_id sensor_id group_id
                   (Some (meta_unit meta)) (meta_name meta)))
  end.

(** [coordinator.data.get(..)] after the first refresh. *)
Definition data_of (coordinator : Coordinator.coordinator) : result snapshot :=
  match data coordinator with
  | Some d => Ok d
  | None => Raise (no_attribute JNull "get")
  end.

(** The [try] of [_async_build_entities_for_house] (lines 59-122). *)
Definition build_try (house : json) : M build_frame unit :=
  ido <- lift (py_get house "IdADo") ;;
  if is_none ido then
    _LOGGER WARNING (JStr "Skipping house without IdADo: %s") [house]
  else
    coordinator <- lift (Coordinator.__init__ house) ;;
    coordinator <- await (async_config_entry_first_refresh coordinator) ;;
    meters_info <- executor_job (api_houseAnalysisSummary (JInt (house_id coordinator))) ;;
    ms <- lift (py_iter meters_info) ;;
    for_each ms (summary_entities_body coordinator) ;;
    d <- lift (data_of coordinator) ;;
    for_each (last_invoice_items (last_invoice d)) (invoice_entity_body coordinator) ;;
    d <- lift (data_of coordinator) ;;
    sensors <- executor_job (api_houseSensorList (JInt (house_id coordinator))) ;;
    ss <- lift (py_iter sensors) ;;
    metas <- lift (sensor_meta_by_id ss ∅) ;;
    for_each (meters_items (meters d)) (meter_entity_body coordinator metas).

(** [_async_build_entities_for_house] *)
Definition _async_build_entities_for_house (house : json)
  : M (env W) (list sensor_entity) :=
  fun e =>
    let r :=
      (try_except (build_try house)
         (fun err => _LOGGER ERROR (JStr (format_exc err)) []) ;;
       f <- get_state ;;
       ret (snd f)) (e, []) in
    (fst r, fst (snd r)).

(** ** The two entry points

    [async_setup_entry] and [async_setup_platform] build the client from the
    credentials and then run the same steps (lines 136-153 and 164-181),
    which differ in the text of a debug message only.  Debug messages are
    not kept in the log. *)
Context `{!EkartotekaHouses W}.

(** What the entry points work on: the client's store and the log, and the
    lists handed to the host's [async_add_entities]. *)
Definition setup_frame : Type := env W * list (list sensor_entity).

Definition setup_job {A} (m : M W A) : M setup_frame A :=
  fun f =>
    let r := m (api (fst f)) in
    (fst r, (Env (snd r) (logs (fst f)), snd f)).

Definition setup_log (lvl : log_level) (m : json) (a : list json) : M setup_frame unit :=
  modify (fun f => (Env (api (fst f)) (logs (fst f) ++ [LogRecord lvl m a])%list, snd f)).

Definition async_add_entities (l : list sensor_entity) : M setup_frame unit :=
  modify (fun f => (fst f, (snd f ++ [l])%list)).

(** [for house in houses: ... all_entities.extend(entities)] *)
Fixpoint build_houses (houses : list json) (all_entities : list sensor_entity)
  : M setup_frame (list sensor_entity) :=
  match houses with
  | [] => ret all_entities
  | house :: rest =>
      entities <- (fun f =>
                     let r := _async_build_entities_for_house house (fst f) in
                     (fst r, (snd r, snd f))) ;;
      build_houses rest (all_entities ++ entities)%list
  end.

(** The steps after the client has been built. *)
Definition setup_houses : M setup_frame unit :=
  fetched <- try_except
               (houses <- setup_job api_houseList ;; ret (Some houses))
               (fun err =>
                  setup_log ERROR (JStr "Failed to fetch house list: %s")
                            [JStr (exn_msg err)] ;;
                  ret None) ;;
  match fetched with
  | None => ret tt
  | Some houses =>
      if negb (truthy houses) then
        setup_log WARNING (JStr "No houses returned by API") []
      else
        hs <- lift (py_iter houses) ;;
        all_entities <- build_houses hs [] ;;
        match all_entities with
        | [] => ret tt
        | _ :: _ => async_add_entities all_entities
        end
  end.

(** ** Notions used to state the properties of the set-up *)

(** The entities of a list of houses built one after the other, each on the
    store and log the one before left, and the store and log after the
    last. *)
Fixpoint entities_of_houses (houses : list json) (e : env W)
  : list sensor_entity * env W :=
  match houses with
  | [] => ([], e)
  | house :: rest =>
      let r := _async_build_entities_for_house house e in
      let entities := match fst r with Ok l => l | Raise _ => [] end in
      let r' := entities_of_houses rest (snd r) in
      ((entities ++ fst r')%list, snd r')
  end.

End Build.

(** The record of the error the build of a house ended with. *)
Definition build_error (err : exn) : log_record :=
  LogRecord ERROR (JStr (format_exc err)) [].

(** The list holds a meter entity for apartment [a] and sensor [b]. *)
Definition has_meter_entity (entities : list sensor_entity) (a b : Z) : Prop :=
  exists x, MeterSensor x ∈ entities /\
            EkartotekaMeterSensor.apartment_id (fst x) = a /\
            EkartotekaMeterSensor.sensor_id (fst x) = b.

(** A step that adds no meter entity to the list. *)
Definition no_new_meters {W} (f f' : env W * list sensor_entity) : Prop :=
  forall a b, has_meter_entity (snd f') a b -> has_meter_entity (snd f) a b.

(** The invoice entity of one item of the last-invoice map. *)
Definition invoice_entity `{PyRuntime} (coordinator : Coordinator.coordinator)
    (item : json * json) : sensor_entity :=
  RentInvoiceEntry
    (SensorsRest.RentInvoiceEntry.__init__ coordinator (fst item)
       (match snd item with
        | JObj o => field "apartment_id" o
        | _ => JNull
        end)).

End Setup.

(** Examples for the set-up. *)
Module SetupExamples.
Import Py Eff Coordinator Sensors SensorsRest Setup Examples.

(** The key object a key of the last-invoice map stands for. *)
Definition key_object (k : pykey) : json :=
  match k with
  | KNone => JNull
  | KInt n => JInt n
  | KStr s => JStr s
  end.

(** The items of the two maps, in the order of their keys. *)
Definition invoice_items (m : gmap pykey json) : list (json * json) :=
  map (fun kv => (key_object (fst kv), snd kv)) (map_to_list m).

Definition meter_items (m : gmap (Z * Z) meter_entry) : list ((Z * Z) * meter_entry) :=
  map_to_list m.

Definition house : json := JObj [("IdADo", JInt 11); ("nazwa", JStr "Dom")].

(** A host whose first refresh leaves the coordinator with [old_snapshot],
    without a call to the client. *)
Definition refreshed : coordinator -> M (env nat) coordinator :=
  fun _ e => (Ok house_11_refreshed, e).

(** A client that answers the yearly summary and nothing else. *)
Definition summary_only : EkartotekaApi nat :=
  {| api_apartmentList := fun _ => refuse;
     api_houseSensorList := fun _ => refuse;
     api_houseSensorValue := fun _ _ => refuse;
     api_houseInvoicesList := fun _ _ => refuse;
     api_invoiceDetails := fun _ _ => refuse;
     api_houseAnalysisSummary := fun _ => answer (JList [JObj row_10]);
     api_houseSensorCost := fun _ _ => refuse |}.

(** A client whose apartments carry no identifier and whose sensor list is
    no list. *)
Definition idless : EkartotekaApi nat :=
  {| api_apartmentList := fun _ => answer (JList [JObj []; JObj [("IdLok", JNull)]]);
     api_houseSensorList := fun _ => answer JNull;
     api_houseSensorValue := fun _ _ => refuse;
     api_houseInvoicesList := fun _ _ => refuse;
     api_invoiceDetails := fun _ _ => refuse;
     api_houseAnalysisSummary := fun _ => refuse;
     api_houseSensorCost := fun _ _ => refuse |}.

End SetupExamples.
(* ===================================================================== *)
(** * Facts about effects                                                 *)
(* ===================================================================== *)

Section StableFacts.
Import Py Eff.
Context {S : Type} (R : S -> S -> Prop) `{!PreOrder R}.

Lemma stable_ret {A} (a : A) : stable R (ret a).
Proof. intros st. reflexivity. Qed.

Lemma stable_raise {A} (e : exn) : stable R (@raise S A e).
Proof. intros st. reflexivity. Qed.

Lemma stable_lift {A} (r : result A) : stable R (lift r).
Proof. intros st. reflexivity. Qed.

Lemma stable_get_state : stable R get_state.
Proof. intros st. reflexivity. Qed.

Lemma stable_modify (f : S -> S) : (forall st, R st (f st)) -> stable R (modify f).
Proof. intros Hf st. apply Hf. Qed.

Lemma stable_bind {A B} (m : M S A) (k : A -> M S B) :
  stable R m -> (forall a, stable R (k a)) -> stable R (bind m k).
Proof.
  intros Hm Hk st. unfold bind. specialize (Hm st).
  destruct (m st) as [[a|e] st']; simpl in *; [|exact Hm].
  etrans; [exact Hm | apply Hk].
Qed.

Lemma stable_try_except {A} (body : M S A) (handler : exn -> M S A) :
  stable R body -> (forall e, stable R (handler e)) ->
  stable R (try_except body handler).
Proof.
  intros Hb Hh st. unfold try_except. specialize (Hb st).
  destruct (body st) as [[a|e] st']; simpl in *; [exact Hb|].
  etrans; [exact Hb | apply Hh].
Qed.

Lemma stable_for_each {A} (xs : list A) (body : A -> M S unit) :
  (forall x, stable R (body x)) -> stable R (for_each xs body).
Proof.
  intros Hb. induction xs as [|x xs IH]; simpl.
  - apply stable_ret.
  - apply stable_bind; [apply Hb | intros _; exact IH].
Qed.

End StableFacts.

(* ===================================================================== *)
(** * Facts about the client                                              *)
(* ===================================================================== *)

Import Py Eff Api.

#[local] Instance step_rel_preorder (R : state -> state -> Prop) `{!StepRel R} :
  PreOrder R.
Proof. split; [exact step_refl | exact step_trans]. Qed.

#[local] Instance wire_le_step : StepRel wire_le.
Proof.
  split; unfold wire_le; intros; simpl; try lia.
  unfold exchange. destruct (wire st); simpl; lia.
Qed.

#[local] Instance sent_grows_step : StepRel sent_grows.
Proof.
  split; unfold sent_grows; intros; simpl; try done.
  - by etrans.
  - unfold exchange. destruct (wire st); simpl; by apply prefix_app_r.
Qed.

Section StableClient.
Context (R : state -> state -> Prop) `{!StepRel R}.

Lemma stable_ts : stable R _ts_ms.
Proof. intros st. apply step_refl. Qed.

Lemma stable_exchange rq : stable R (exchange rq).
Proof. intros st. apply step_exchange. Qed.

Lemma stable_reset_tokens : stable R _reset_tokens.
Proof.
  intros st. unfold _reset_tokens, bind, modify. simpl.
  eapply step_trans; [apply step_auth_token | apply step_token].
Qed.

Lemma stable_set_auth_token v : stable R (modify (with_auth_token v)).
Proof. intros st. apply step_auth_token. Qed.

Lemma stable_set_token v : stable R (modify (with_token v)).
Proof. intros st. apply step_token. Qed.

Lemma stable_set_id_usr v : stable R (modify (with_id_usr v)).
Proof. intros st. apply step_id_usr. Qed.

Lemma stable_set_id_kli v : stable R (modify (with_id_kli v)).
Proof. intros st. apply step_id_kli. Qed.

Lemma stable_set_id_gru v : stable R (modify (with_id_gru v)).
Proof. intros st. apply step_id_gru. Qed.

Lemma stable_set_name v : stable R (modify (with_name v)).
Proof. intros st. apply step_name. Qed.

End StableClient.

Ltac stable_client_step R :=
  first
    [ assumption
    | apply (stable_ret R) | apply (stable_raise R) | apply (stable_lift R)
    | apply (stable_get_state R) | apply (stable_ts R) | apply (stable_exchange R)
    | apply (stable_reset_tokens R)
    | apply (stable_set_auth_token R) | apply (stable_set_token R)
    | apply (stable_set_id_usr R) | apply (stable_set_id_kli R)
    | apply (stable_set_id_gru R) | apply (stable_set_name R)
    | match goal with
      | Hg : forall u b, stable _ (?g u b) |- stable _ (?g _ _) => apply Hg
      | |- stable _ (if ?c then _ else _) => destruct c
      end
    | apply (stable_bind R); [| intros ] ].

Ltac stable_client :=
  repeat match goal with |- stable ?R _ => stable_client_step R end.

Section StableMethods.
Context (R : state -> state -> Prop) `{!StepRel R} `{PyRuntime}.

Lemma stable_get_with (login : M state bool) url b :
  stable R login -> stable R (_get_with login url b).
Proof. intros Hl. unfold _get_with, session_get. stable_client. Qed.

Lemma stable_login_with (g : string -> bool -> M state json) :
  (forall url b, stable R (g url b)) -> stable R (login_with g).
Proof. intros Hg. unfold login_with, session_post. stable_client. Qed.

Lemma stable_login_upto n : stable R (login_upto n).
Proof.
  induction n as [|n IH]; simpl.
  - stable_client.
  - apply stable_login_with. intros. by apply stable_get_with.
Qed.

Lemma stable_login : stable R login.
Proof. intros st. unfold login. apply stable_login_upto. Qed.


End StableMethods.

(** ** The bound on nested logins is never reached *)

Section Fuel.
Context `{PyRuntime}.

Lemma agree_refl {A} n (m : M state A) : agree n m m.
Proof. by intros st _. Qed.

Lemma agree_zero {A} (m1 m2 : M state A) : agree 0 m1 m2.
Proof. intros st Hlt. lia. Qed.

Lemma agree_weaken {A} n n' (m1 m2 : M state A) :
  (n <= n')%nat -> agree n' m1 m2 -> agree n m1 m2.
Proof. intros Hle Ha st Hlt. apply Ha. lia. Qed.

Lemma agree_bind {A B} n (m1 m2 : M state A) (k1 k2 : A -> M state B) :
  agree n m1 m2 -> stable wire_le m1 ->
  (forall a, agree n (k1 a) (k2 a)) ->
  agree n (bind m1 k1) (bind m2 k2).
Proof.
  intros Hm Hs Hk st Hlt. unfold bind. rewrite <- (Hm st Hlt).
  specialize (Hs st). unfold wire_le in Hs.
  destruct (m1 st) as [[a|e] st']; simpl in *; [|done].
  apply Hk. lia.
Qed.

Lemma agree_exchange {B} n rq (k1 k2 : response -> M state B) :
  (forall resp, agree n (k1 resp) (k2 resp)) ->
  agree (S n) (bind (exchange rq) k1) (bind (exchange rq) k2).
Proof.
  intros Hk st Hlt. unfold bind, exchange.
  destruct (wire st) as [|r rest] eqn:Hw; [done|].
  destruct (outcome r); [|done].
  apply Hk. simpl in *. lia.
Qed.

Ltac agree_tac :=
  repeat first
    [ apply agree_refl
    | match goal with
      | Ha : agree ?n ?l1 ?l2 |- agree ?n ?l1 ?l2 => exact Ha
      | Ha : forall u b, agree ?n (?g1 u b) (?g2 u b)
        |- agree ?n (?g1 _ _) (?g2 _ _) => apply Ha
      | |- agree _ (if ?c then _ else _) (if ?c then _ else _) => destruct c
      end
    | apply agree_exchange; intros
    | apply agree_bind; [ | solve [stable_client] | intros ] ].

Lemma get_with_agree n (l1 l2 : M state bool) url b :
  agree n l1 l2 -> stable wire_le l1 ->
  agree (S n) (_get_with l1 url b) (_get_with l2 url b).
Proof.
  intros Ha Hs. unfold _get_with, session_get.
  apply (agree_bind _ get_state get_state); [apply agree_refl | stable_client |].
  intros st. apply agree_exchange. intros resp.
  agree_tac.
Qed.

Lemma login_with_agree n (g1 g2 : string -> bool -> M state json) :
  (forall url b, agree n (g1 url b) (g2 url b)) ->
  (forall url b, stable wire_le (g1 url b)) ->
  agree (S n) (login_with g1) (login_with g2).
Proof.
  intros Ha Hs. unfold login_with, session_post.
  apply (agree_bind _ get_state get_state); [apply agree_refl | stable_client |].
  intros st. destruct (truthy (token st) && truthy (auth_token st)).
  { apply agree_refl. }
  cbv zeta. apply agree_exchange. intros resp.
  agree_tac.
Qed.

(** With [n] replies left at most, any two bounds of at least [n] give the
    same [login]. *)
Lemma login_upto_agree n : forall a b,
  (n <= a)%nat -> (n <= b)%nat -> agree n (login_upto a) (login_upto b).
Proof.
  induction n as [|n IH]; intros a b Ha Hb; [apply agree_zero|].
  destruct a as [|a]; [lia|]. destruct b as [|b]; [lia|]. simpl.
  apply login_with_agree.
  - intros url u. destruct n as [|n]; [apply agree_zero|].
    apply get_with_agree; [|apply (stable_login_upto wire_le)].
    apply (agree_weaken n (S n)); [lia|]. apply IH; lia.
  - intros url u. apply (stable_get_with wire_le), (stable_login_upto wire_le).
Qed.

(** Enough depth gives the result of [login]: the [RecursionError] of an
    exhausted bound does not occur. *)
Lemma login_upto_enough n st :
  (length (wire st) < n)%nat -> login_upto n st = login st.
Proof.
  intros Hlt. unfold login.
  apply (login_upto_agree (S (length (wire st)))); lia.
Qed.

(** [_get] and [login] satisfy the mutually recursive equations of the
    source. *)
Lemma _get_unfold url b st : _get url b st = _get_with login url b st.
Proof.
  unfold _get.
  assert (Ha : agree (length (wire st)) (login_upto (length (wire st))) login).
  { intros st' Hlt. by apply login_upto_enough. }
  apply (get_with_agree _ _ _ url b Ha); [apply (stable_login_upto wire_le) | lia].
Qed.

Lemma login_unfold st : login st = login_with _get st.
Proof.
  unfold login. simpl.
  assert (Ha : forall url b,
             agree (length (wire st)) (_get_with (login_upto (length (wire st))) url b)
                   (_get url b)).
  { intros url b st' Hlt. unfold _get.
    assert (Hl : agree (length (wire st'))
                   (login_upto (length (wire st))) (login_upto (length (wire st')))).
    { apply login_upto_agree; lia. }
    apply (get_with_agree _ _ _ url b Hl); [apply (stable_login_upto wire_le) | lia]. }
  apply (login_with_agree _ _ _ Ha); [|lia].
  intros url b. apply (stable_get_with wire_le), (stable_login_upto wire_le).
Qed.

End Fuel.

(** ** Tokens after a login *)

Section Tokens.
Context `{PyRuntime}.

#[local] Arguments format : simpl never.

Lemma exchange_tokens rq st :
  auth_token (snd (exchange rq st)) = auth_token st /\
  token (snd (exchange rq st)) = token st.
Proof. unfold exchange. by destruct (wire st). Qed.

Lemma get_with_keeps (l : M state bool) : establishes l -> keeps (_get_with l).
Proof.
  intros Hl P url u st j st' HP HP0.
  unfold _get_with, bind, get_state, session_get.
  destruct (exchange _ st) as [[resp|e] st1] eqn:E1; [|done].
  pose proof (exchange_tokens (Request GET url (request_headers u st) None) st) as [Ea Et].
  rewrite E1 in Ea, Et. simpl in Ea, Et.
  destruct (status_code resp =? 401) eqn:E401.
  - unfold _reset_tokens, bind, modify.
    destruct (l _) as [[b|e] st2] eqn:E2; [|done].
    apply Hl in E2. destruct E2 as [Ht Ha].
    destruct (exchange _ st2) as [[resp2|e] st3] eqn:E3; [|done].
    match type of E3 with exchange ?rq _ = _ =>
      pose proof (exchange_tokens rq st2) as [Ea3 Et3] end.
    rewrite E3 in Ea3, Et3. simpl in Ea3, Et3.
    destruct (negb (status_code resp2 =? 200)); [done|].
    unfold lift. intros [= _ <-]. rewrite Ea3, Et3. by apply HP.
  - unfold ret. destruct (negb (status_code resp =? 200)); [done|].
    unfold lift. intros [= _ <-]. by rewrite Ea, Et.
Qed.

Lemma login_with_establishes (g : string -> bool -> M state json) :
  keeps g -> establishes (login_with g).
Proof.
  intros Hg st b st' Hrun.
  unfold login_with, bind, get_state in Hrun.
  destruct (truthy (token st) && truthy (auth_token st)) eqn:E0.
  { injection Hrun as _ <-. by apply andb_true_iff in E0. }
  cbv zeta in Hrun. unfold session_post in Hrun.
  destruct (exchange _ st) as [[resp|e] st1] eqn:E1; [|done].
  destruct (negb (status_code resp =? 200)); [done|].
  unfold lift, modify in Hrun.
  destruct (resp_json resp) as [j|e]; [|done].
  destruct (py_get_default j "token" (JStr "")) as [tok|e]; [|done].
  destruct (truthy tok) eqn:Etok; [|done]. simpl in Hrun.
  destruct (g accounts_list false _) as [[acc|e] st2] eqn:E2; [|done].
  apply (Hg (fun a _ => truthy a = true)) in E2; [|done|done].
  destruct (is_dict acc); simpl in Hrun.
  all: repeat
    match type of Hrun with
    | (match ?x with _ => _ end) = _ => destruct x eqn:?; try done; simpl in Hrun
    | (if ?c then _ else _) = _ => destruct c eqn:?; try done; simpl in Hrun
    | (if ?c then _ else _) _ = _ => destruct c eqn:?; try done; simpl in Hrun
    | (let (_, _) := ?x in _) = _ => destruct x eqn:?; simpl in Hrun
    end.
  all: unfold ret in Hrun.
  2: done.
  injection Hrun as _ <-.
  match goal with
  | E : ?f (format account_details _) _ _ = _ |- _ =>
      apply (Hg (fun a _ => truthy a = true)) in E; [|done|done]
  end.
  match goal with
  | E : ?f (format groups _) _ _ = _ |- _ =>
      apply (Hg (fun a t => truthy t = true /\ truthy a = true)) in E;
        [|done|split; [by apply negb_false_iff|done]]
  end.
  match goal with
  | E : (if is_dict ?x then _ else _) _ = (_, _) |- _ =>
      destruct (is_dict x); unfold ret in E; injection E as _ <-
  end.
  all: done.
Qed.

Lemma login_upto_establishes n : establishes (login_upto n).
Proof.
  induction n as [|n IH]; simpl; [by intros st b st'|].
  by apply login_with_establishes, get_with_keeps.
Qed.

Lemma login_establishes : establishes login.
Proof. intros st b st'. unfold login. apply login_upto_establishes. Qed.

Lemma login_noop st :
  truthy (token st) = true -> truthy (auth_token st) = true ->
  login st = (Ok true, st).
Proof.
  intros Ht Ha. rewrite login_unfold.
  unfold login_with, bind, get_state. by rewrite Ht, Ha.
Qed.

End Tokens.

(** ** What [_get] does with the first reply *)

Section GetFacts.
Context `{PyRuntime}.

Lemma get_first_reply url u st :
  _get url u st =
  match exchange (get_request url u st) st with
  | (Raise e, st1) => (Raise e, st1)
  | (Ok resp, st1) =>
      if status_code resp =? 401 then
        match login (reset st1) with
        | (Raise e, st2) => (Raise e, st2)
        | (Ok _, st2) =>
            match exchange (get_request url u st2) st2 with
            | (Raise e, st3) => (Raise e, st3)
            | (Ok resp2, st3) => conclude url resp2 st3
            end
        end
      else conclude url resp st1
  end.
Proof.
  rewrite _get_unfold.
  unfold _get_with, bind, get_state, session_get, get_request, conclude.
  destruct (exchange _ st) as [[resp|e] st1]; [|done].
  destruct (status_code resp =? 401).
  - unfold _reset_tokens, bind, modify, reset.
    destruct (login _) as [[b|e] st2]; [|done].
    destruct (exchange _ st2) as [[resp2|e] st3]; [|done].
    unfold raise, lift. by destruct (status_code resp2 =? 200).
  - unfold ret, raise, lift. by destruct (status_code resp =? 200).
Qed.

Lemma exchange_sent rq st : sent (snd (exchange rq st)) = (sent st ++ [rq])%list.
Proof. unfold exchange. by destruct (wire st). Qed.

Lemma exchange_arrives rq st r rest resp :
  wire st = r :: rest -> outcome r = Some resp ->
  exchange rq st = (Ok resp, snd (exchange rq st)).
Proof. intros Hw Ho. unfold exchange. by rewrite Hw, Ho. Qed.

Lemma exchange_first_reply rq st resp st1 :
  exchange rq st = (Ok resp, st1) ->
  exists r rest, wire st = r :: rest /\ outcome r = Some resp.
Proof.
  unfold exchange. destruct (wire st) as [|r rest]; [done|].
  destruct (outcome r) as [resp'|] eqn:Ho; [|done].
  intros [= -> _]. by exists r, rest.
Qed.

(** What [_get] adds to the log: its request first, and nothing else unless
    the first reply is a 401. *)
Lemma get_sent url u st :
  exists more,
    sent (snd (_get url u st)) = (sent st ++ get_request url u st :: more)%list /\
    ((forall r rest resp, wire st = r :: rest -> outcome r = Some resp ->
        status_code resp <> 401) -> more = []).
Proof.
  rewrite get_first_reply.
  pose proof (exchange_sent (get_request url u st) st) as Hs.
  destruct (exchange _ st) as [[resp|e] st1] eqn:Hex; simpl in Hs.
  2: { exists []. simpl. by rewrite Hs. }
  destruct (status_code resp =? 401) eqn:E401.
  - assert (Hnot : (forall r rest resp, wire st = r :: rest -> outcome r = Some resp ->
                      status_code resp <> 401) -> False).
    { intros Hno. apply Z.eqb_eq in E401.
      destruct (exchange_first_reply _ _ _ _ Hex) as (r & rest & Hw & Ho).
      by eapply Hno. }
    pose proof (stable_login sent_grows (reset st1)) as Hl.
    unfold sent_grows in Hl. change (sent (reset st1)) with (sent st1) in Hl.
    rewrite Hs in Hl.
    destruct (login (reset st1)) as [[b|e] st2]; simpl in Hl; destruct Hl as [k Hk].
    + pose proof (exchange_sent (get_request url u st2) st2) as Hs2.
      exists (k ++ [get_request url u st2])%list. split; [|by intros ?%Hnot].
      destruct (exchange _ st2) as [[resp2|e] st3]; simpl in *.
      * unfold conclude. destruct (status_code resp2 =? 200); simpl;
          rewrite Hs2, Hk; by rewrite <- !List.app_assoc.
      * rewrite Hs2, Hk. by rewrite <- !List.app_assoc.
    + exists k. split; [simpl; by rewrite Hk, <- List.app_assoc | by intros ?%Hnot].
  - exists []. unfold conclude. by destruct (status_code resp =? 200); simpl; rewrite Hs.
Qed.

Lemma bearer_headers st :
  truthy (token st) = true ->
  request_headers true st =
    (_json_headers ++ [("Authorization", "Bearer " +:+ py_str (token st))])%list.
Proof. intros Ht. unfold request_headers, _bearer. by rewrite Ht. Qed.

End GetFacts.

(** ** Formatting the endpoint templates *)

Lemma str_app_assoc (a b c : string) : (a +:+ b) +:+ c = a +:+ (b +:+ c).
Proof.
  induction a as [|x a IH]; [done|].
  change (String x ((a +:+ b) +:+ c) = String x (a +:+ (b +:+ c))).
  by rewrite IH.
Qed.

Lemma str_app_nil_r (a : string) : a +:+ "" = a.
Proof.
  induction a as [|x a IH]; [done|].
  change (String x (a +:+ "") = String x a). by rewrite IH.
Qed.

Lemma format_app (t1 t2 : string) (args : list string) :
  fields_closed t1 = true ->
  format (t1 +:+ t2) args = format t1 args +:+ format t2 args.
Proof.
  remember (String.length t1) as n eqn:Hn.
  revert t1 Hn. induction n as [n IH] using lt_wf_ind. intros t1 Hn Hc.
  destruct t1 as [|c rest]; [done|].
  destruct (Ascii.eqb_spec c "{") as [->|Hc'].
  - destruct rest as [|d [|e rest']]; try done.
    destruct (Ascii.eqb_spec e "}") as [->|He].
    + simpl in Hc.
      change (format (String "{" (String d (String "}" (rest' +:+ t2)))) args =
              format (String "{" (String d (String "}" rest'))) args +:+ format t2 args).
      simpl. destruct (digit_index d) as [i|]; [|done].
      rewrite (IH (String.length rest')); [|simpl in Hn; lia|done|done].
      by rewrite str_app_assoc.
    + exfalso. simpl in Hc.
      destruct e as [[] [] [] [] [] [] [] []]; try done.
  - assert (Hrest : fields_closed rest = true).
    { destruct c as [[] [] [] [] [] [] [] []]; try done. }
    assert (Hf : forall s, format (String c s) args = String c (format s args)).
    { intros s. destruct c as [[] [] [] [] [] [] [] []]; try done. }
    change (format (String c (rest +:+ t2)) args =
            format (String c rest) args +:+ format t2 args).
    rewrite !Hf.
    change (String c (format (rest +:+ t2) args) =
            String c (format rest args +:+ format t2 args)).
    f_equal. apply (IH (String.length rest)); [simpl in Hn; lia|done|done].
Qed.

(** A template that ends in the field [&_={k}] formats to a URL that ends in
    [&_=] and the [k]-th argument. *)
Lemma format_timestamp (base tail : string) (args : list string) (ts : string) :
  fields_closed base = true ->
  format tail args = "&_=" +:+ ts ->
  exists pre, format (base +:+ tail) args = pre +:+ "&_=" +:+ ts.
Proof.
  intros Hc Ht. exists (format base args). by rewrite format_app, Ht.
Qed.

Ltac timestamp_tac T :=
  let n := eval vm_compute in (String.length T - 6)%nat in
  let b := eval vm_compute in (String.substring 0 n T) in
  let s := eval vm_compute in (String.substring n 6 T) in
  change T with (b +:+ s);
  apply format_timestamp;
  [ vm_compute; reflexivity
  | cbn [format digit_index]; simpl; by rewrite str_app_nil_r ].

Lemma drop_prefix_app (n post : string) : drop_prefix n (n +:+ post) = Some post.
Proof.
  induction n as [|c n IH]; [done|].
  change (drop_prefix (String c n) (String c (n +:+ post)) = Some post).
  simpl. by rewrite Ascii.eqb_refl.
Qed.

Lemma contains_here (n hay rest : string) :
  drop_prefix n hay = Some rest -> contains n hay = true.
Proof. intros Hd. destruct hay; simpl; by rewrite Hd. Qed.

Lemma contains_app (n pre post : string) : contains n (pre +:+ n +:+ post) = true.
Proof.
  induction pre as [|c pre IH].
  - change (contains n (n +:+ post) = true).
    apply (contains_here _ _ post), drop_prefix_app.
  - change (contains n (String c (pre +:+ n +:+ post)) = true).
    simpl. by destruct (drop_prefix n (String c (pre +:+ n +:+ post))).
Qed.

Lemma call_after_login `{PyRuntime} (op : fetch) (st : state) :
  match login st with
  | (Raise e, st1) => call op st = (Raise e, st1)
  | (Ok _, st1) =>
      exists url,
        call op st = fetched url st1 /\
        (op <> HouseList ->
         exists pre, url = pre +:+ "&_=" +:+ str_of_Z (now_ms st1))
  end.
Proof.
  destruct op; unfold call, houseList, apartmentList, houseAnalysisSummary,
    houseInvoicesList, invoiceDetails, houseSensorList, houseSensorValue,
    houseSensorCost, bind, get_state, _ts_ms, fetched, lift;
    destruct (login st) as [[b|e] st1]; try done;
    (eexists; split; [reflexivity|]); intros Hop; try done.
  - timestamp_tac apartments.
  - timestamp_tac analysis_summary.
  - timestamp_tac invoices_list.
  - timestamp_tac monthly_rental.
  - timestamp_tac sensors_list.
  - timestamp_tac sensor_value.
  - timestamp_tac monthly_meters_cost.
Qed.

(* ===================================================================== *)
(** * The claims about the client                                         *)
(* ===================================================================== *)

Section ClientTheorems.
Context `{PyRuntime}.

(** C4.  [login] is idempotent: with both tokens set it returns [True] and
    leaves the client and the network as they are, no request is sent; and a
    [login] that returned leaves both tokens set, so a second [login] right
    after it sends nothing. *)
Theorem login_idempotent (st : state) :
  (truthy (token st) = true -> truthy (auth_token st) = true ->
   login st = (Ok true, st)) /\
  (forall b st', login st = (Ok b, st') ->
     login st' = (Ok true, st') /\ sent (snd (login st')) = sent st').
Proof.
  split; [apply login_noop|].
  intros b st' Hrun. apply login_establishes in Hrun as [Ht Ha].
  by rewrite (login_noop st' Ht Ha).
Qed.

(** C3, as the code has it.  Let the first response to the request be
    [resp].  If its status is 401, both tokens are cleared and [login] runs
    again; when that [login] raises, its exception leaves [_get] and the
    request is not sent again; when it returns, the same URL is requested
    exactly once more, with headers built from the new tokens, and the
    response to that retry decides the call: status 200 gives its JSON, any
    other status (a second 401 too) raises the error that names the URL, the
    status and the body.  If the first status is neither 401 nor 200, that
    error is raised at once and only the one request was sent. *)
Theorem get_retries_after_relogin (url : string) (u : bool) (st : state)
    (r : reply) (rest : list reply) (resp : response) :
  wire st = r :: rest ->
  outcome r = Some resp ->
  let st1 := snd (exchange (get_request url u st) st) in
  (status_code resp = 401 ->
     auth_token (reset st1) = JStr "" /\ token (reset st1) = JStr "" /\
     (forall e st2, login (reset st1) = (Raise e, st2) ->
        _get url u st = (Raise e, st2)) /\
     (forall b st2, login (reset st1) = (Ok b, st2) ->
        let retry := exchange (get_request url u st2) st2 in
        sent (snd retry) = (sent st2 ++ [get_request url u st2])%list /\
        _get url u st =
          match fst retry with
          | Ok resp2 =>
              if status_code resp2 =? 200 then (resp_json resp2, snd retry)
              else (Raise (get_failed url resp2), snd retry)
          | Raise e => (Raise e, snd retry)
          end)) /\
  (status_code resp <> 401 -> status_code resp <> 200 ->
     _get url u st = (Raise (get_failed url resp), st1) /\
     sent st1 = (sent st ++ [get_request url u st])%list) /\
  exn_msg (get_failed url resp) =
    "GET " +:+ url +:+ " failed: " +:+ str_of_Z (status_code resp) +:+ " " +:+ text resp.
Proof.
  intros Hw Ho st1.
  assert (Hex : exchange (get_request url u st) st = (Ok resp, st1)).
  { by apply exchange_arrives with r rest. }
  split; [|split; [|done]].
  - intros H401. apply Z.eqb_eq in H401.
    split; [done|]. split; [done|]. split.
    + intros e st2 Hl. by rewrite get_first_reply, Hex, H401, Hl.
    + intros b st2 Hl retry. split; [apply exchange_sent|].
      rewrite get_first_reply, Hex, H401, Hl. subst retry. unfold conclude.
      by destruct (exchange _ st2) as [[resp2|e] st3].
  - intros Hn401 Hn200. apply Z.eqb_neq in Hn401, Hn200.
    split; [|subst st1; apply exchange_sent].
    rewrite get_first_reply, Hex, Hn401. unfold conclude. by rewrite Hn200.
Qed.

(** C5, as the code has it.  Every data-fetch method first calls [login];
    once that has returned, in state [st1], the method is one [_get] with the
    account token and the [results] of what it returns.  The first request of
    that [_get] is a GET with the header [Authorization: Bearer <token>] of
    the account token, and it is the only one unless the reply is a 401.  For
    every method but [houseList] its URL ends in [&_=] and the clock reading
    in milliseconds. *)
Theorem fetch_logs_in_then_gets (op : fetch) (st : state) (b : bool) (st1 : state) :
  login st = (Ok b, st1) ->
  exists url more,
    call op st = fetched url st1 /\
    sent (snd (call op st)) =
      (sent st1 ++
       Request GET url
         (_json_headers ++ [("Authorization", "Bearer " +:+ py_str (token st1))])
         None :: more)%list /\
    ((forall r rest resp, wire st1 = r :: rest -> outcome r = Some resp ->
        status_code resp <> 401) -> more = []) /\
    (op <> HouseList ->
     exists pre, url = pre +:+ "&_=" +:+ str_of_Z (now_ms st1)).
Proof.
  intros Hl. pose proof (call_after_login op st) as Hc. rewrite Hl in Hc.
  destruct Hc as (url & Hcall & Hts).
  destruct (get_sent url true st1) as (more & Hsent & Hone).
  exists url, more. split; [done|]. split; [|by split].
  rewrite Hcall. unfold fetched.
  apply login_establishes in Hl as [Ht _].
  rewrite <- (bearer_headers st1 Ht).
  by destruct (_get url true st1) as [[data|e] st2].
Qed.

End ClientTheorems.

(* ===================================================================== *)
(** * Facts about the refresh cycle                                       *)
(* ===================================================================== *)

Import Coordinator.

Lemma obj_lookup_set_ne (k k' : string) (v : json) (o : list (string * json)) :
  k <> k' -> obj_lookup k (obj_set k' v o) = obj_lookup k o.
Proof.
  intros Hne. induction o as [|[k0 v0] o IH]; simpl.
  - by destruct (String.eqb_spec k k').
  - destruct (String.eqb_spec k' k0) as [->|Hk0]; simpl.
    + by destruct (String.eqb_spec k k0).
    + destruct (String.eqb_spec k k0); [done|exact IH].
Qed.

Lemma obj_lookup_set_eq (k : string) (v : json) (o : list (string * json)) :
  obj_lookup k (obj_set k v o) = Some v.
Proof.
  induction o as [|[k0 v0] o IH]; simpl.
  - by rewrite String.eqb_refl.
  - destruct (String.eqb_spec k k0) as [->|Hk0]; simpl.
    + by rewrite String.eqb_refl.
    + destruct (String.eqb_spec k k0); [done|exact IH].
Qed.

Lemma field_annotated (k : string) po apt_id eo :
  k <> "apartment_id" -> k <> "paid" -> k <> "end_date" -> k <> "start_date" ->
  field k (annotated po apt_id eo) = field k eo.
Proof.
  intros H1 H2 H3 H4. unfold field, annotated.
  by rewrite !obj_lookup_set_ne.
Qed.

#[local] Instance same_meters_pre {W} : PreOrder (@same_meters W).
Proof. split; unfold same_meters; [done|]. intros a b c Hab Hbc. congruence. Qed.

#[local] Instance same_last_invoice_pre {W} : PreOrder (@same_last_invoice W).
Proof. split; unfold same_last_invoice; [done|]. intros a b c Hab Hbc. congruence. Qed.

#[local] Instance same_collected_pre {W} : PreOrder (@same_collected W).
Proof.
  split; unfold same_collected; [done|].
  intros a b c [H1 H2] [H3 H4]. split; congruence.
Qed.

Ltac stable_frame_step R :=
  first
    [ assumption
    | apply (stable_ret R) | apply (stable_raise R) | apply (stable_lift R)
    | apply (stable_get_state R)
    | apply (stable_for_each R); intros
    | apply (stable_try_except R); [| intros ]
    | match goal with
      | |- stable _ (executor_job _) => by intros [? ?]
      | |- stable _ (_LOGGER _ _ _) => by intros [? ?]
      | |- stable _ (set_meters _) => by intros [? ?]
      | |- stable _ (set_last_invoice _) => by intros [? ?]
      | |- stable _ (set_meters_invoice_summary _) => by intros [? ?]
      | |- stable _ (if ?c then _ else _) => destruct c
      end
    | apply (stable_bind R); [| intros ] ].

Ltac stable_frame :=
  repeat match goal with |- stable ?R _ => stable_frame_step R end.

Section CycleFacts.
Context `{PyRuntime} {W : Type} `{EkartotekaApi W}.
Variable self : coordinator.

(** *** Steps 1-3: meters *)




Lemma sensor_body_same_last_invoice apt_id s :
  stable same_last_invoice (sensor_body apt_id s).
Proof. unfold sensor_body, first_field. stable_frame. Qed.




(** *** Step 4: the last invoice *)

Lemma annotate_dict (po eo : list (string * json)) (ps : list json)
    (fld k : string) (f : @frame W) :
  annotate (JList (JObj po :: ps)) fld k (JObj eo) f =
    (Ok (JObj (obj_set k (field fld po) eo)), f).
Proof. done. Qed.

Lemma invoice_entry_body_stored (po eo : list (string * json)) (ps : list json)
    (apt_id : json) (k : pykey) (e : env W) (l : locals) :
  hash_key (field "Nazwa" eo) = Ok k ->
  invoice_entry_body (JList (JObj po :: ps)) apt_id (JObj eo) (e, l) =
    (Ok tt,
     (e, with_last_invoice
           (<[k := JObj (annotated po apt_id eo)]> (l_last_invoice l)) l)).
Proof.
  intros Hk.
  unfold invoice_entry_body, bind. rewrite !annotate_dict.
  unfold lift, get_state, set_last_invoice, modify. simpl.
  fold (annotated po apt_id eo).
  change (default JNull (obj_lookup "Nazwa" (annotated po apt_id eo)))
    with (field "Nazwa" (annotated po apt_id eo)).
  rewrite field_annotated by done. by rewrite Hk.
Qed.

(** The entries of one invoice, each with the key its name hashes to, end
    up in the map in the order of the list: a later one replaces an earlier
    one of the same name. *)
Lemma invoice_entries_indexed (po : list (string * json)) (ps : list json)
    (apt_id : json) (keyed : list (pykey * list (string * json)))
    (e : env W) (l : locals) :
  Forall (fun kv => hash_key (field "Nazwa" (snd kv)) = Ok (fst kv)) keyed ->
  for_each (map (fun kv => JObj (snd kv)) keyed)
    (invoice_entry_body (JList (JObj po :: ps)) apt_id) (e, l) =
    (Ok tt,
     (e, with_last_invoice
           (fold_left (fun m kv => <[fst kv := JObj (annotated po apt_id (snd kv))]> m)
                      keyed (l_last_invoice l)) l)).
Proof.
  intros Hall. revert l. induction Hall as [|[k eo] keyed Hk _ IH]; intros l.
  - by destruct l.
  - simpl in *. unfold bind.
    rewrite (invoice_entry_body_stored po eo ps apt_id k e l Hk).
    by rewrite IH.
Qed.

Lemma invoice_step_no_periods (apt_id invoices : json) (w w' : W)
    (lg : list log_record) (l : locals) :
  api_houseInvoicesList (JInt (house_id self)) apt_id w = (Ok invoices, w') ->
  truthy invoices = false ->
  invoice_step self apt_id (Env w lg, l) = (Ok tt, (Env w' lg, l)).
Proof.
  intros Hapi Hempty.
  unfold invoice_step, bind, executor_job, has_invoice_id. simpl.
  rewrite Hapi. simpl. by rewrite Hempty.
Qed.

Lemma invoice_step_entries (apt_id : json) (po : list (string * json)) (ps : list json)
    (id_nal : json) (entries : list json) (w w' w'' : W)
    (lg : list log_record) (l : locals) :
  api_houseInvoicesList (JInt (house_id self)) apt_id w = (Ok (JList (JObj po :: ps)), w') ->
  obj_lookup "IdNal" po = Some id_nal ->
  truthy id_nal = true ->
  api_invoiceDetails apt_id id_nal w' = (Ok (JList entries), w'') ->
  invoice_step self apt_id (Env w lg, l) =
    for_each entries (invoice_entry_body (JList (JObj po :: ps)) apt_id) (Env w'' lg, l).
Proof.
  intros Hapi Hid Htruthy Hdetails.
  unfold invoice_step, bind, executor_job, has_invoice_id, lift. simpl.
  rewrite Hapi. simpl. rewrite Hid. simpl. rewrite Htruthy. simpl.
  by rewrite Hdetails.
Qed.

Lemma invoice_step_same_meters apt_id : stable same_meters (invoice_step self apt_id).
Proof.
  unfold invoice_step, has_invoice_id. stable_frame.
Qed.

(** *** Step 5: the yearly summary *)




(** The inner [try] turns every exception of step 5 into a warning. *)
Lemma fetch_summary_caught (e : env W) (l : locals) :
  fetch_summary self (e, l) =
    match summary_try self (e, with_meters_invoice_summary ∅ l) with
    | (Ok _, f') => (Ok tt, f')
    | (Raise err, (e', l')) =>
        (Ok tt, (Env (api e') (logs e' ++ [summary_warning (house_id self) err]), l'))
    end.
Proof.
  unfold fetch_summary, bind, set_meters_invoice_summary, modify, try_except. simpl.
  destruct (summary_try self _) as [[[]|err] [e' l']]; done.
Qed.

Lemma fetch_summary_returns (f : @frame W) :
  exists f', fetch_summary self f = (Ok tt, f').
Proof.
  destruct f as [e l]. rewrite fetch_summary_caught.
  destruct (summary_try self _) as [[[]|err] [e' l']]; eauto.
Qed.

Lemma fetch_summary_same_collected : stable same_collected (fetch_summary self).
Proof.
  unfold fetch_summary, summary_try, summary_body. stable_frame.
Qed.



(** *** Step 6: the outcome of the cycle *)

Lemma update_fails (e : env W) (err : exn) (f1 : frame) :
  fetch_meters_and_invoices self (e, no_locals) = (Raise err, f1) ->
  _async_update_data self e =
    (Raise (update_failed err),
     Env (api (fst f1)) (logs (fst f1) ++ [update_error err])).
Proof.
  intros Hf. unfold _async_update_data, try_except, update_try, bind.
  rewrite Hf. by destruct f1.
Qed.

Lemma update_succeeds (e : env W) (f1 : frame) :
  fetch_meters_and_invoices self (e, no_locals) = (Ok tt, f1) ->
  exists f2,
    fetch_summary self f1 = (Ok tt, f2) /\
    l_meters (snd f2) = l_meters (snd f1) /\
    l_last_invoice (snd f2) = l_last_invoice (snd f1) /\
    _async_update_data self e = (Ok (build_snapshot self (snd f2)), fst f2).
Proof.
  intros Hf. destruct (fetch_summary_returns f1) as [f2 Hs].
  pose proof (fetch_summary_same_collected f1) as [Hm Hl]. rewrite Hs in Hm, Hl.
  exists f2. repeat split; [done..|].
  unfold _async_update_data, try_except, update_try, bind.
  by rewrite Hf, Hs.
Qed.

Lemma update_outcome (e : env W) :
  match _async_update_data self e with
  | (Ok snap, _) =>
      exists f1,
        fetch_meters_and_invoices self (e, no_locals) = (Ok tt, f1) /\
        meters snap = l_meters (snd f1) /\
        last_invoice snap = l_last_invoice (snd f1) /\
        meta snap = HouseMeta (house_id self) (house_name self)
  | (Raise x, _) =>
      exists err f1,
        fetch_meters_and_invoices self (e, no_locals) = (Raise err, f1) /\
        x = update_failed err
  end.
Proof.
  destruct (fetch_meters_and_invoices self (e, no_locals)) as [[[]|err] f1] eqn:Hf.
  - destruct (update_succeeds e f1 Hf) as (f2 & _ & Hm & Hl & ->).
    exists f1. by rewrite <- Hm, <- Hl.
  - rewrite (update_fails e err f1 Hf). by exists err, f1.
Qed.

Lemma apartment_fetch_raises (e : env W) (err : exn) (w' : W) :
  api_apartmentList (JInt (house_id self)) (api e) = (Raise err, w') ->
  fetch_meters_and_invoices self (e, no_locals) = (Raise err, (Env w' (logs e), no_locals)).
Proof.
  intros Hapi. unfold fetch_meters_and_invoices, bind, executor_job. simpl.
  by rewrite Hapi.
Qed.

Lemma sensor_fetch_raises (e : env W) (apts : json) (err : exn) (w1 w2 : W) :
  api_apartmentList (JInt (house_id self)) (api e) = (Ok apts, w1) ->
  api_houseSensorList (JInt (house_id self)) w1 = (Raise err, w2) ->
  fetch_meters_and_invoices self (e, no_locals) = (Raise err, (Env w2 (logs e), no_locals)).
Proof.
  intros Hapts Hsens. unfold fetch_meters_and_invoices, bind, executor_job. simpl.
  rewrite Hapts. simpl. by rewrite Hsens.
Qed.

Lemma refresh_keeps_data (e : env W) (x : exn) (e' : env W) :
  _async_update_data self e = (Raise x, e') ->
  async_refresh self e =
    ({| house_id := house_id self; house_name := house_name self;
        data := data self; last_update_success := false |}, e').
Proof. intros Hu. unfold async_refresh. by rewrite Hu. Qed.

Lemma refresh_replaces_data (e : env W) (snap : snapshot) (e' : env W) :
  _async_update_data self e = (Ok snap, e') ->
  async_refresh self e =
    ({| house_id := house_id self; house_name := house_name self;
        data := Some snap; last_update_success := true |}, e').
Proof. intros Hu. unfold async_refresh. by rewrite Hu. Qed.


End CycleFacts.

(* ===================================================================== *)
(** * The claims about the refresh cycle                                  *)
(* ===================================================================== *)

Section CycleTheorems.
Context `{PyRuntime} {W : Type} `{EkartotekaApi W}.
Variable self : coordinator.

(** C2.  A refresh cycle ends in exactly one of two ways: it returns a
    snapshot, and then lines 64-119 ran to their end and the snapshot holds the
    meters and last invoices they collected; or it raises, and then what is
    raised is [UpdateFailed] built from the exception that left lines 64-119.
    Every exception raised outside the inner [try] of step 5 ends the cycle
    that way (in particular one raised by the apartment or the sensor list
    fetch), after the traceback is logged.  A failed cycle hands no snapshot to
    the host, whose refresh step then leaves [data] as it was ([None] on the
    first refresh); a successful one replaces [data] as a whole. *)
Theorem failed_refresh_publishes_nothing (e : env W) :
  match _async_update_data self e with
  | (Ok snap, _) =>
      exists f1,
        fetch_meters_and_invoices self (e, no_locals) = (Ok tt, f1) /\
        meters snap = l_meters (snd f1) /\
        last_invoice snap = l_last_invoice (snd f1) /\
        meta snap = HouseMeta (house_id self) (house_name self)
  | (Raise x, _) =>
      exists err f1,
        fetch_meters_and_invoices self (e, no_locals) = (Raise err, f1) /\
        x = update_failed err
  end /\
  (forall err f1,
     fetch_meters_and_invoices self (e, no_locals) = (Raise err, f1) ->
     _async_update_data self e =
       (Raise (Exn UpdateFailed ("Unable to update eKartoteka data: " +:+ exn_msg err)),
        Env (api (fst f1)) (logs (fst f1) ++ [update_error err]))) /\
  (forall err w',
     api_apartmentList (JInt (house_id self)) (api e) = (Raise err, w') ->
     _async_update_data self e =
       (Raise (update_failed err), Env w' (logs e ++ [update_error err]))) /\
  (forall apts err w1 w2,
     api_apartmentList (JInt (house_id self)) (api e) = (Ok apts, w1) ->
     api_houseSensorList (JInt (house_id self)) w1 = (Raise err, w2) ->
     _async_update_data self e =
       (Raise (update_failed err), Env w2 (logs e ++ [update_error err]))) /\
  (forall x e',
     _async_update_data self e = (Raise x, e') ->
     data (fst (async_refresh self e)) = data self /\
     last_update_success (fst (async_refresh self e)) = false) /\
  (forall snap e',
     _async_update_data self e = (Ok snap, e') ->
     data (fst (async_refresh self e)) = Some snap).
Proof.
  split; [apply update_outcome|].
  split; [intros err f1 Hf; by rewrite (update_fails self e err f1 Hf)|].
  split.
  { intros err w' Hapi.
    by rewrite (update_fails self e err _ (apartment_fetch_raises self e err w' Hapi)). }
  split.
  { intros apts err w1 w2 Hapts Hsens.
    by rewrite (update_fails self e err _
                  (sensor_fetch_raises self e apts err w1 w2 Hapts Hsens)). }
  split.
  - intros x e' Hu. by rewrite (refresh_keeps_data self e x e' Hu).
  - intros snap e' Hu. by rewrite (refresh_replaces_data self e snap e' Hu).
Qed.


(** C7.  Per apartment: when the invoice period list is empty, the step
    returns without an exception and leaves the last-invoice map as it was.
    When the first (most recent) period carries a truthy [IdNal], the details of
    that invoice are fetched and the entries are processed in order; each
    entry gets [start_date], [end_date] and [paid] from the period and
    [apartment_id] from the apartment, and is stored under its [Nazwa].  The
    store is an overwrite: whatever an earlier apartment (or an earlier entry)
    left under that name is replaced, the other names are untouched; a list of
    entries ends up in the map in list order. *)
Theorem last_invoice_indexed_by_name (apt_id : json) :
  (forall invoices (w w' : W) lg l,
     api_houseInvoicesList (JInt (house_id self)) apt_id w = (Ok invoices, w') ->
     truthy invoices = false ->
     invoice_step self apt_id (Env w lg, l) = (Ok tt, (Env w' lg, l))) /\
  (forall po ps id_nal entries (w w' w'' : W) lg l,
     api_houseInvoicesList (JInt (house_id self)) apt_id w =
       (Ok (JList (JObj po :: ps)), w') ->
     obj_lookup "IdNal" po = Some id_nal ->
     truthy id_nal = true ->
     api_invoiceDetails apt_id id_nal w' = (Ok (JList entries), w'') ->
     invoice_step self apt_id (Env w lg, l) =
       for_each entries (invoice_entry_body (JList (JObj po :: ps)) apt_id)
         (Env w'' lg, l)) /\
  (forall po ps eo k (e : env W) l,
     hash_key (field "Nazwa" eo) = Ok k ->
     invoice_entry_body (JList (JObj po :: ps)) apt_id (JObj eo) (e, l) =
       (Ok tt, (e, with_last_invoice
                     (<[k := JObj (annotated po apt_id eo)]> (l_last_invoice l)) l)) /\
     (<[k := JObj (annotated po apt_id eo)]> (l_last_invoice l)) !! k =
       Some (JObj (annotated po apt_id eo)) /\
     (forall k', k' <> k ->
        (<[k := JObj (annotated po apt_id eo)]> (l_last_invoice l)) !! k' =
          l_last_invoice l !! k') /\
     field "start_date" (annotated po apt_id eo) = field "DataOd" po /\
     field "end_date" (annotated po apt_id eo) = field "DataDo" po /\
     field "paid" (annotated po apt_id eo) = field "Stan" po /\
     field "apartment_id" (annotated po apt_id eo) = apt_id) /\
  (forall po ps (keyed : list (pykey * list (string * json))) (e : env W) l,
     Forall (fun kv => hash_key (field "Nazwa" (snd kv)) = Ok (fst kv)) keyed ->
     for_each (map (fun kv => JObj (snd kv)) keyed)
       (invoice_entry_body (JList (JObj po :: ps)) apt_id) (e, l) =
       (Ok tt,
        (e, with_last_invoice
              (fold_left
                 (fun m kv => <[fst kv := JObj (annotated po apt_id (snd kv))]> m)
                 keyed (l_last_invoice l)) l))).
Proof.
  split; [|split; [|split]]; [| | |intros; by apply invoice_entries_indexed].
  - intros. by eapply invoice_step_no_periods.
  - intros. by eapply invoice_step_entries.
  - intros po ps eo k e l Hk.
    split; [by apply invoice_entry_body_stored|].
    split; [apply lookup_insert_eq|].
    split; [intros k' Hne; by apply lookup_insert_ne|].
    unfold field, annotated.
    rewrite !obj_lookup_set_eq.
    rewrite !(obj_lookup_set_ne "start_date"), !(obj_lookup_set_ne "end_date"),
      !(obj_lookup_set_ne "paid") by done.
    by rewrite !obj_lookup_set_eq.
Qed.



End CycleTheorems.

(* ===================================================================== *)
(** * The claims about the entities                                       *)
(* ===================================================================== *)

Import Sensors.


(** C1 at the inputs where the code breaks it.  The meter entity raises
    [AttributeError] whenever its key is not in the meters map, which
    includes every read before the first snapshot; the three monetary
    entities raise it whenever there is a snapshot without their key.  Only
    the monetary entities without any snapshot return null.  The sibling
    [extra_state_attributes] of the meter entity reads the same key with a
    default and returns nulls. *)
Theorem native_value_raises_on_absent_key :
  (forall c self,
     EkartotekaMeterSensor.meters_of c
       !! (EkartotekaMeterSensor.apartment_id self, EkartotekaMeterSensor.sensor_id self)
       = None ->
     EkartotekaMeterSensor.native_value c self =
       Raise (Exn AttributeError "'NoneType' object has no attribute 'get'") /\
     EkartotekaMeterSensor.extra_state_attributes c self = Ok (JNull, JNull)) /\
  (forall c self,
     data c = None ->
     EkartotekaMeterSensor.native_value c self =
       Raise (Exn AttributeError "'NoneType' object has no attribute 'get'")) /\
  (forall c d key k field,
     data c = Some d -> hash_key key = Ok k ->
     (last_invoice d !! k = None ->
      lookup_field last_invoice c key field =
        Raise (Exn AttributeError "'NoneType' object has no attribute 'get'")) /\
     (meters_invoice_summary d !! k = None ->
      lookup_field meters_invoice_summary c key field =
        Raise (Exn AttributeError "'NoneType' object has no attribute 'get'"))) /\
  (forall c self1 self2 self3,
     data c = None ->
     EkartotekaRentInvoiceEntry.native_value c self1 = Ok JNull /\
     EkartotekaInvoiceSummarySensor.native_value c self2 = Ok JNull /\
     EkartotekaMeterSensorCost.native_value c self3 = Ok JNull).
Proof.
  split; [|split; [|split]].
  - intros c self Hk.
    unfold EkartotekaMeterSensor.native_value, EkartotekaMeterSensor.extra_state_attributes.
    by rewrite Hk.
  - intros c self Hd.
    unfold EkartotekaMeterSensor.native_value, EkartotekaMeterSensor.meters_of.
    by rewrite Hd, lookup_empty.
  - intros c d key k field Hd Hk. unfold lookup_field. rewrite Hd, Hk.
    split; by intros ->.
  - intros c self1 self2 self3 Hd.
    unfold EkartotekaRentInvoiceEntry.native_value,
      EkartotekaInvoiceSummarySensor.native_value,
      EkartotekaMeterSensorCost.native_value, lookup_field.
    by rewrite Hd.
Qed.

(* ===================================================================== *)
(** * The claims at concrete inputs                                       *)
(* ===================================================================== *)

Import Runtime Examples.

#[local] Existing Instance ascii_runtime.

(** The meter entity of apartment 1, sensor 10, read before any snapshot. *)
Lemma native_value_raises_on_absent_key_witness :
  EkartotekaMeterSensor.native_value house_11
    (EkartotekaMeterSensor.__init__ 1 10 0 (Some "m3")) =
    Raise (Exn AttributeError "'NoneType' object has no attribute 'get'").
Proof.
  apply (proj1 (proj2 native_value_raises_on_absent_key)). reflexivity.
Defined.

(** The rent entity read from a snapshot that has no entry of its name. *)
Lemma native_value_raises_on_missing_entry :
  EkartotekaRentInvoiceEntry.native_value house_11_refreshed
    (EkartotekaRentInvoiceEntry.Make (JStr "Woda") (JInt 1)) =
    Raise (Exn AttributeError "'NoneType' object has no attribute 'get'").
Proof. vm_compute. reflexivity. Qed.



Lemma login_idempotent_witness :
  login (logged_in []) = (Ok true, logged_in []) /\
  login (snd (login (fresh login_replies))) = (Ok true, snd (login (fresh login_replies))).
Proof.
  split.
  - apply (proj1 (login_idempotent (logged_in []))); reflexivity.
  - apply (proj2 (login_idempotent (fresh login_replies)) true). vm_compute. reflexivity.
Defined.

(** C3: the first response is a 401 and the re-login fails on a 500; the
    request is not sent again. *)
Lemma get_not_retried_when_relogin_fails :
  let st := logged_in [status 401 "expired"; status 500 "down"] in
  fst (_get some_url true st) =
    Raise (Exn PyException "Authorization failed for user. Response 500 down") /\
  map req_url (sent (snd (_get some_url true st))) = [some_url; login_url].
Proof. vm_compute. done. Qed.

(** A 401, a successful re-login, and a second 401 on the retry. *)
Lemma get_retries_after_relogin_witness :
  let st := logged_in ([status 401 "expired"] ++ login_replies ++ [status 401 "again"]) in
  fst (_get some_url true st) =
    Raise (Exn PyException ("GET " +:+ some_url +:+ " failed: 401 again")).
Proof.
  intros st.
  pose proof (get_retries_after_relogin some_url true st
                (status 401 "expired") (login_replies ++ [status 401 "again"])
                (Response 401 "expired" None) eq_refl eq_refl) as (Hretry & _ & _).
  destruct (Hretry eq_refl) as (_ & _ & _ & Hok).
  set (st1 := snd (exchange (get_request some_url true st) st)) in *.
  specialize (Hok true (snd (login (reset st1)))).
  destruct Hok as [_ Hget]; [vm_compute; reflexivity|].
  rewrite Hget. vm_compute. reflexivity.
Defined.

(** C5: the URL of [houseList] has no timestamp parameter. *)
Lemma houseList_carries_no_timestamp :
  let st := logged_in [ok (results [])] in
  map req_url (sent (snd (call HouseList st))) =
    ["https://www.e-kartoteka.pl/api/uzytkownicy/nieruchomosci/?id_gru=7&id_kli=5&page=1&pageSize=20"] /\
  contains "_="
    "https://www.e-kartoteka.pl/api/uzytkownicy/nieruchomosci/?id_gru=7&id_kli=5&page=1&pageSize=20"
    = false /\
  forall pre ts,
    "https://www.e-kartoteka.pl/api/uzytkownicy/nieruchomosci/?id_gru=7&id_kli=5&page=1&pageSize=20"
    <> pre +:+ "&_=" +:+ ts.
Proof.
  split; [vm_compute; reflexivity|]. split; [vm_compute; reflexivity|].
  intros pre ts E.
  pose proof (contains_app "&_=" pre ts) as Hc. rewrite <- E in Hc.
  vm_compute in Hc. discriminate.
Qed.

Lemma fetch_logs_in_then_gets_witness :
  let st := fresh (login_replies ++ [ok (results [apartment_1])]) in
  exists url more,
    call (ApartmentList (JInt 11)) st = fetched url (snd (login st)) /\
    sent (snd (call (ApartmentList (JInt 11)) st)) =
      (sent (snd (login st)) ++
       Request GET url
         (_json_headers ++
          [("Authorization", "Bearer " +:+ py_str (token (snd (login st))))])
         None :: more)%list /\
    ((forall r rest resp, wire (snd (login st)) = r :: rest -> outcome r = Some resp ->
        status_code resp <> 401) -> more = []) /\
    (ApartmentList (JInt 11) <> HouseList ->
     exists pre, url = pre +:+ "&_=" +:+ str_of_Z (now_ms (snd (login st)))).
Proof.
  intros st. apply (fetch_logs_in_then_gets _ st true). vm_compute. reflexivity.
Defined.

(** C2: nothing answers; the cycle raises [UpdateFailed] and the snapshot of
    the previous refresh stays. *)
Lemma failed_refresh_publishes_nothing_witness :
  fst (@_async_update_data _ nat unreachable house_11_refreshed (Env 0%nat [])) =
    Raise (Exn UpdateFailed "Unable to update eKartoteka data: connection failed") /\
  data (fst (@async_refresh _ nat unreachable house_11_refreshed (Env 0%nat []))) =
    Some old_snapshot.
Proof.
  pose proof (@failed_refresh_publishes_nothing _ nat unreachable house_11_refreshed
                (Env 0%nat [])) as (_ & _ & Hfail & _ & Hkeep & _).
  specialize (Hfail (Exn ConnectionError "connection failed") 1%nat eq_refl).
  split; [by rewrite Hfail|].
  by destruct (Hkeep _ _ Hfail).
Defined.


(** C7: the rent entry of the stand-in client, annotated and stored under its
    name. *)
Lemma last_invoice_indexed_by_name_witness :
  @invoice_entry_body nat (JList [JObj january]) (JInt 1) (JObj rent) (Env 0%nat [], no_locals) =
    (Ok tt, (Env 0%nat [],
             with_last_invoice
               (<[KStr "Czynsz" := JObj (annotated january (JInt 1) rent)]> ∅) no_locals)).
Proof.
  pose proof (@last_invoice_indexed_by_name nat canned house_11 (JInt 1)) as (_ & _ & Hst & _).
  by destruct (Hst january [] rent (KStr "Czynsz") (Env 0%nat []) no_locals eq_refl).
Defined.



(* ===================================================================== *)
(** * Further properties of the client                                    *)
(* ===================================================================== *)

Import ApiRest.

Lemma exchange_answered rq st r rest :
  wire st = r :: rest ->
  exchange rq st =
    (match outcome r with
     | Some resp => Ok resp
     | None => Raise (Exn ConnectionError "connection failed")
     end, answered rq r rest st).
Proof. intros Hw. unfold exchange, answered. by rewrite Hw. Qed.

Section LoginFailures.
Context `{PyRuntime}.

(** X1.  A [login] that has to authenticate posts the credentials once.  Any
    status other than 200 in the reply, a 401 included, raises the
    authorization error that names the user, the status and the body; there is
    no retry, and the fields of the client stay as they were. *)
Theorem login_rejected (st : state) (r : reply) (rest : list reply) (resp : response) :
  truthy (token st) && truthy (auth_token st) = false ->
  wire st = r :: rest ->
  outcome r = Some resp ->
  status_code resp <> 200 ->
  login st =
    (Raise (Exn PyException
              ("Authorization failed for " +:+ username st +:+ ". Response "
                 +:+ str_of_Z (status_code resp) +:+ " " +:+ text resp)),
     answered (credentials_request st) r rest st).
Proof.
  intros Htok Hw Ho Hs. rewrite login_unfold.
  unfold login_with, bind, get_state, session_post. rewrite Htok. cbv zeta.
  fold (credentials_request st).
  rewrite (exchange_answered _ st r rest Hw), Ho.
  by rewrite (proj2 (Z.eqb_neq _ _) Hs).
Qed.

End LoginFailures.

Lemma login_rejected_witness :
  fst (login (fresh [status 401 "no"])) =
    Raise (Exn PyException "Authorization failed for user. Response 401 no").
Proof.
  rewrite (login_rejected (fresh [status 401 "no"]) (status 401 "no") []
             (Response 401 "no" None)); [reflexivity | reflexivity..| discriminate].
Defined.

Section LoginHalfDone.
Context `{PyRuntime}.

#[local] Arguments format : simpl never.
#[local] Arguments _get : simpl never.
#[local] Arguments login : simpl never.

Lemma get_answered_200 url u st r rest resp :
  wire st = r :: rest ->
  outcome r = Some resp ->
  status_code resp = 200 ->
  _get url u st = (resp_json resp, answered (get_request url u st) r rest st).
Proof.
  intros Hw Ho Hs. rewrite get_first_reply.
  rewrite (exchange_answered _ st r rest Hw), Ho. unfold conclude.
  rewrite Hs. done.
Qed.

Lemma get_answered_failure url u st r rest resp :
  wire st = r :: rest ->
  outcome r = Some resp ->
  status_code resp <> 200 ->
  status_code resp <> 401 ->
  _get url u st =
    (Raise (get_failed url resp), answered (get_request url u st) r rest st).
Proof.
  intros Hw Ho Hs Hs'. rewrite get_first_reply.
  rewrite (exchange_answered _ st r rest Hw), Ho. unfold conclude.
  by rewrite (proj2 (Z.eqb_neq _ _) Hs), (proj2 (Z.eqb_neq _ _) Hs').
Qed.

(** X2.  A [login] whose first three steps succeed and whose groups fetch is
    answered with a status that is neither 200 nor 401 raises the error of
    that fetch.  By then both tokens are stored and [id_gru] is not: the
    client is left with both tokens set and the [id_gru] it had before, so
    the next [login] is a no-op that sends nothing. *)
Theorem login_half_done (st : state) (d1 d2 d3 : Z) (t1 t2 t3 : string)
    (o1 o2 a0 o3 : list (string * json)) (others : list json)
    (tok aid atok : json) (r4 : reply) (resp4 : response) (rest : list reply) :
  truthy (token st) && truthy (auth_token st) = false ->
  wire st = Reply d1 (Some (Response 200 t1 (Some (JObj o1))))
            :: Reply d2 (Some (Response 200 t2 (Some (JObj o2))))
            :: Reply d3 (Some (Response 200 t3 (Some (JObj o3))))
            :: r4 :: rest ->
  obj_lookup "token" o1 = Some tok -> truthy tok = true ->
  obj_lookup "results" o2 = Some (JList (JObj a0 :: others)) ->
  obj_lookup "id" a0 = Some aid -> is_none aid = false ->
  obj_lookup "token" o3 = Some atok -> truthy atok = true ->
  outcome r4 = Some resp4 ->
  status_code resp4 <> 200 -> status_code resp4 <> 401 ->
  exists st',
    login st =
      (Raise (get_failed (format groups [py_str (field "id_kli" o3)]) resp4), st') /\
    auth_token st' = tok /\ token st' = atok /\
    id_gru st' = id_gru st /\ wire st' = rest /\
    login st' = (Ok true, st').
Proof.
  intros Htok Hw Ht1 Htok1 Hres Hid Haid Ht3 Htok3 Ho4 Hs4 Hs4'.
  rewrite login_unfold.
  unfold login_with, bind, get_state, session_post. rewrite Htok. cbv zeta.
  rewrite (exchange_answered _ st _ _ Hw). simpl.
  unfold lift, modify. simpl. rewrite Ht1. simpl. rewrite Htok1. simpl.
  rewrite Hres. simpl. rewrite Hid. simpl. rewrite Haid. simpl.
  rewrite Ht3. simpl. rewrite Htok3. simpl.
  erewrite get_answered_failure; [|reflexivity|exact Ho4|exact Hs4|exact Hs4'].
  eexists. split; [reflexivity|]. simpl.
  repeat split. apply login_noop; simpl; done.
Qed.

End LoginHalfDone.

Lemma login_half_done_witness :
  let st := fresh (firstn 3 login_replies ++ [status 500 "down"]) in
  is_ok (fst (login st)) = false /\
  login (snd (login st)) = (Ok true, snd (login st)) /\
  id_gru (snd (login st)) = JNull.
Proof.
  intros st.
  destruct (login_half_done st 40 40 40 "" "" ""
              [("token", JStr "A1")] [("results", JList [JObj [("id", JInt 3)]])]
              [("id", JInt 3)]
              [("id_usr", JInt 1); ("id_kli", JInt 5); ("nazwa", JStr "Kowalski");
               ("token", JStr "T1")]
              [] (JStr "A1") (JInt 3) (JStr "T1") (status 500 "down")
              (Response 500 "down" None) [])
    as (st' & Hl & _ & _ & Hg & _ & Hl'); try reflexivity; try discriminate.
  rewrite Hl. simpl. by rewrite Hl', Hg.
Defined.

#[local] Instance client_frame_step : StepRel client_frame.
Proof.
  split; unfold client_frame.
  - intros st. repeat split; done.
  - intros a b c (Hu & Hp & Hy & Hs & Hw) (Hu' & Hp' & Hy' & Hs' & Hw').
    repeat split; try congruence; by etrans.
  - intros rq st. unfold exchange.
    destruct (wire st) as [|r rest] eqn:Hw; simpl; rewrite ?Hw;
      repeat split; try done; try by apply prefix_app_r.
    by apply suffix_cons_r.
  - intros v st. repeat split; done.
  - intros v st. repeat split; done.
  - intros v st. repeat split; done.
  - intros v st. repeat split; done.
  - intros v st. repeat split; done.
  - intros v st. repeat split; done.
Qed.

Section ClientFrame.
Context `{PyRuntime}.




End ClientFrame.

Section FetchResults.
Context `{PyRuntime}.

(** X4.  A data fetch by a client that holds both tokens, answered with
    status 200, sends that one request and never logs in again.  When the body
    is a JSON object the fetch returns its [results], or the empty list when
    the object has none; a body that is JSON but no object raises
    [AttributeError]; a body that is not JSON raises the decode error. *)
Theorem fetch_returns_results (op : fetch) (st : state) (r : reply)
    (rest : list reply) (resp : response) :
  truthy (token st) = true ->
  truthy (auth_token st) = true ->
  wire st = r :: rest ->
  outcome r = Some resp ->
  status_code resp = 200 ->
  exists url,
    let st1 := answered (get_request url true st) r rest st in
    (forall o, body resp = Some (JObj o) ->
       call op st = (Ok (default (JList []) (obj_lookup "results" o)), st1)) /\
    (forall j, body resp = Some j -> is_dict j = false ->
       call op st = (Raise (no_attribute j "get"), st1)) /\
    (body resp = None ->
       call op st = (Raise (Exn JSONDecodeError "Expecting value"), st1)).
Proof.
  intros Ht Ha Hw Ho Hs.
  pose proof (call_after_login op st) as Hc.
  rewrite (login_noop st Ht Ha) in Hc. destruct Hc as (url & Hcall & _).
  exists url. intros st1. rewrite Hcall. unfold fetched.
  rewrite (get_answered_200 url true st r rest resp Hw Ho Hs). fold st1.
  unfold resp_json. repeat split.
  - intros o Hb. by rewrite Hb.
  - intros j Hb Hd. rewrite Hb. by destruct j.
  - intros Hb. by rewrite Hb.
Qed.

(** X5.  [_post] treats the reply to its request as [_get] does.  Status 200
    gives the decoded body.  A status that is neither 200 nor 401 raises the
    error that names the URL, the status and the body, with no retry.  A 401
    clears both tokens and runs [login]; if that raises, the exception leaves
    [_post] and nothing is posted again; if it returns, the same URL and the
    same payload are posted once more with the headers of the new tokens, and
    the reply to that decides the call. *)
Theorem post_retries_after_relogin (url : string) (json : option Py.json) (u : bool)
    (st : state) (r : reply) (rest : list reply) (resp : response) :
  wire st = r :: rest ->
  outcome r = Some resp ->
  let st1 := answered (post_request url json u st) r rest st in
  (status_code resp = 200 -> _post url json u st = (resp_json resp, st1)) /\
  (status_code resp <> 200 -> status_code resp <> 401 ->
     _post url json u st = (Raise (post_failed url resp), st1)) /\
  (status_code resp = 401 ->
     (forall e st2, login (reset st1) = (Raise e, st2) ->
        _post url json u st = (Raise e, st2)) /\
     (forall b st2, login (reset st1) = (Ok b, st2) ->
        _post url json u st =
          match exchange (post_request url json u st2) st2 with
          | (Ok resp2, st3) =>
              if status_code resp2 =? 200 then (resp_json resp2, st3)
              else (Raise (post_failed url resp2), st3)
          | (Raise e, st3) => (Raise e, st3)
          end)).
Proof.
  intros Hw Ho st1.
  assert (Hex : exchange (post_request url json u st) st = (Ok resp, st1)).
  { by rewrite (exchange_answered _ st r rest Hw), Ho. }
  unfold _post, bind, get_state, session_post.
  fold (post_request url json u st). rewrite Hex.
  split; [|split].
  - intros Hs. rewrite Hs. simpl. unfold ret. by rewrite Hs.
  - intros Hs Hs'.
    rewrite (proj2 (Z.eqb_neq _ _) Hs'). unfold ret.
    by rewrite (proj2 (Z.eqb_neq _ _) Hs).
  - intros Hs. rewrite Hs. simpl.
    unfold _reset_tokens, bind, modify. fold (reset st1). split.
    + intros e st2 Hl. by rewrite Hl.
    + intros b st2 Hl. rewrite Hl. fold (post_request url json u st2).
      destruct (exchange _ st2) as [[resp2|e] st3]; [|done].
      unfold raise, lift. by destruct (status_code resp2 =? 200).
Qed.

(** X6.  A [login] that returns, returns [True] with both tokens set; and
    when it had to authenticate (the tokens were not both set before), the
    [id_gru] it leaves is not [None]. *)
Theorem login_returns_ready (st : state) (b : bool) (st' : state) :
  login st = (Ok b, st') ->
  b = true /\ both_tokens st' /\
  (truthy (token st) && truthy (auth_token st) = false ->
   is_none (id_gru st') = false).
Proof.
  intros Hrun. split; [|split; [by apply login_establishes in Hrun|]].
  all: rewrite login_unfold in Hrun.
  all: unfold login_with, bind, get_state in Hrun.
  all: destruct (truthy (token st) && truthy (auth_token st)) eqn:E0;
    [by injection Hrun as <- _|].
  all: cbv zeta in Hrun; unfold session_post, lift, modify in Hrun.
  all: repeat
    match type of Hrun with
    | (match ?x with _ => _ end) = _ => destruct x eqn:?; try done; simpl in Hrun
    | (if ?c then _ else _) = _ => destruct c eqn:?; try done; simpl in Hrun
    | (if ?c then _ else _) _ = _ => destruct c eqn:?; try done; simpl in Hrun
    | (let (_, _) := ?x in _) = _ => destruct x eqn:?; simpl in Hrun
    end.
  all: unfold ret in Hrun; try done.
  all: injection Hrun as <- <-; done.
Qed.

End FetchResults.

Lemma fetch_returns_results_witness :
  fst (call (HouseSensorValue (JInt 1) (JInt 10)) (logged_in [ok (JObj [("count", JInt 0)])]))
    = Ok (JList []).
Proof.
  destruct (fetch_returns_results (HouseSensorValue (JInt 1) (JInt 10))
              (logged_in [ok (JObj [("count", JInt 0)])])
              (ok (JObj [("count", JInt 0)])) []
              (Response 200 "" (Some (JObj [("count", JInt 0)])))
              eq_refl eq_refl eq_refl eq_refl eq_refl) as (url & Hres & _).
  by rewrite (Hres [("count", JInt 0)] eq_refl).
Defined.

Lemma post_retries_after_relogin_witness :
  fst (_post some_url (Some (JObj [])) true
         (logged_in ([status 401 "expired"] ++ login_replies ++ [status 503 "busy"]))) =
    Raise (Exn PyException ("POST " +:+ some_url +:+ " failed: 503 busy")).
Proof.
  set (st := logged_in ([status 401 "expired"] ++ login_replies ++ [status 503 "busy"])).
  destruct (post_retries_after_relogin some_url (Some (JObj [])) true st
              (status 401 "expired") (login_replies ++ [status 503 "busy"])
              (Response 401 "expired" None) eq_refl eq_refl) as (_ & _ & Hretry).
  destruct (Hretry eq_refl) as [_ Hok].
  rewrite (Hok true (snd (login (reset
             (answered (post_request some_url (Some (JObj [])) true st)
                (status 401 "expired") (login_replies ++ [status 503 "busy"]) st)))));
    vm_compute; reflexivity.
Defined.

Lemma login_returns_ready_witness :
  is_none (id_gru (snd (login (fresh login_replies)))) = false.
Proof.
  apply (login_returns_ready (fresh login_replies) true); vm_compute; reflexivity.
Defined.

(** ** Requests against replies *)

Section Tracked.
Context (Q : bool -> state -> state -> Prop) `{!TrackRel Q}.

Lemma tracked_ret {A} (a : A) : tracked Q (ret a).
Proof. intros st. apply track_refl. Qed.

Lemma tracked_raise {A} (e : exn) : tracked Q (@raise state A e).
Proof. intros st. apply track_refl. Qed.

Lemma tracked_lift {A} (r : result A) : tracked Q (lift r).
Proof. intros st. apply track_refl. Qed.

Lemma tracked_get_state : tracked Q get_state.
Proof. intros st. apply track_refl. Qed.

Lemma tracked_ts : tracked Q _ts_ms.
Proof. intros st. apply track_refl. Qed.

Lemma tracked_exchange rq : tracked Q (exchange rq).
Proof. intros st. apply track_exchange. Qed.

Lemma tracked_bind {A B} (m : M state A) (k : A -> M state B) :
  tracked Q m -> (forall a, tracked Q (k a)) -> tracked Q (bind m k).
Proof.
  intros Hm Hk st. unfold bind. specialize (Hm st).
  destruct (m st) as [[a|e] st']; simpl in *; [|exact Hm].
  eapply track_seq; [exact Hm | apply Hk].
Qed.

Lemma tracked_reset_tokens : tracked Q _reset_tokens.
Proof.
  intros st. unfold _reset_tokens, bind, modify. simpl.
  eapply track_seq; [apply track_auth_token | apply track_token].
Qed.

Lemma tracked_set_auth_token v : tracked Q (modify (with_auth_token v)).
Proof. intros st. apply track_auth_token. Qed.

Lemma tracked_set_token v : tracked Q (modify (with_token v)).
Proof. intros st. apply track_token. Qed.

Lemma tracked_set_id_usr v : tracked Q (modify (with_id_usr v)).
Proof. intros st. apply track_id_usr. Qed.

Lemma tracked_set_id_kli v : tracked Q (modify (with_id_kli v)).
Proof. intros st. apply track_id_kli. Qed.

Lemma tracked_set_id_gru v : tracked Q (modify (with_id_gru v)).
Proof. intros st. apply track_id_gru. Qed.

Lemma tracked_set_name v : tracked Q (modify (with_name v)).
Proof. intros st. apply track_name. Qed.

End Tracked.

Ltac tracked_step Q :=
  first
    [ assumption
    | apply (tracked_ret Q) | apply (tracked_raise Q) | apply (tracked_lift Q)
    | apply (tracked_get_state Q) | apply (tracked_ts Q) | apply (tracked_exchange Q)
    | apply (tracked_reset_tokens Q)
    | apply (tracked_set_auth_token Q) | apply (tracked_set_token Q)
    | apply (tracked_set_id_usr Q) | apply (tracked_set_id_kli Q)
    | apply (tracked_set_id_gru Q) | apply (tracked_set_name Q)
    | match goal with
      | Hg : forall u b, tracked _ (?g u b) |- tracked _ (?g _ _) => apply Hg
      | |- tracked _ (if ?c then _ else _) => destruct c
      end
    | apply (tracked_bind Q); [| intros ] ].

Ltac tracked_client :=
  repeat match goal with |- tracked ?Q _ => tracked_step Q end.

Section TrackedMethods.
Context (Q : bool -> state -> state -> Prop) `{!TrackRel Q} `{PyRuntime}.

Lemma tracked_get_with (login : M state bool) url b :
  tracked Q login -> tracked Q (_get_with login url b).
Proof. intros Hl. unfold _get_with, session_get. tracked_client. Qed.

Lemma tracked_login_with (g : string -> bool -> M state json) :
  (forall url b, tracked Q (g url b)) -> tracked Q (login_with g).
Proof. intros Hg. unfold login_with, session_post. tracked_client. Qed.

Lemma tracked_login_upto n : tracked Q (login_upto n).
Proof.
  induction n as [|n IH]; simpl.
  - tracked_client.
  - apply tracked_login_with. intros. by apply tracked_get_with.
Qed.

Lemma tracked_login : tracked Q login.
Proof. intros st. unfold login. apply tracked_login_upto. Qed.

Lemma tracked_get url b : tracked Q (_get url b).
Proof. intros st. unfold _get. apply tracked_get_with, tracked_login_upto. Qed.

Lemma tracked_call (op : fetch) : tracked Q (call op).
Proof.
  pose proof tracked_login as Hl.
  pose proof tracked_get as Hg.
  destruct op; unfold call, houseList, apartmentList, houseAnalysisSummary,
    houseInvoicesList, invoiceDetails, houseSensorList, houseSensorValue,
    houseSensorCost, results_of; tracked_client.
Qed.

Lemma tracked_post url json u : tracked Q (_post url json u).
Proof.
  pose proof tracked_login as Hl.
  unfold _post, session_post. tracked_client.
Qed.

End TrackedMethods.

Lemma Forall_removelast {A} (P : A -> Prop) (l : list A) :
  Forall P l -> Forall P (removelast l).
Proof.
  induction 1 as [|x l Hx Hl IH]; simpl; [constructor|].
  destruct l; [constructor|]. by constructor.
Qed.

Lemma removelast_app_delivered (P : reply -> Prop) (t1 t2 : list reply) :
  Forall P t1 -> Forall P (removelast t2) -> Forall P (removelast (t1 ++ t2)).
Proof.
  intros H1 H2. destruct t2 as [|r t2].
  - rewrite app_nil_r. by apply Forall_removelast.
  - rewrite removelast_app by done. apply Forall_app. by split.
Qed.

#[local] Instance all_answered_track : TrackRel all_answered.
Proof.
  assert (Hsame : forall x a b, wire b = wire a -> sent b = sent a ->
                                all_answered x a b).
  { intros x a b Hw Hs. exists []. rewrite Hw, Hs. simpl.
    split; [done|]. destruct x; simpl.
    - split; [constructor | lia].
    - split; [constructor | left; lia]. }
  split; try (intros; by apply Hsame).
  - intros x a b c (t1 & Hw1 & Hd1 & Hs1) (t2 & Hw2 & H2).
    exists (t1 ++ t2)%list. split; [by rewrite Hw1, Hw2, app_assoc|].
    rewrite length_app. destruct x.
    + destruct H2 as [Hd2 Hs2]. split; [by apply Forall_app | lia].
    + destruct H2 as [Hd2 Hs2]. split; [by apply removelast_app_delivered|].
      destruct Hs2 as [Hs2 | (Hd2' & Hc & Hs2)]; [left; lia|].
      right. split; [by apply Forall_app|]. split; [done | lia].
  - intros rq st. unfold exchange.
    destruct (wire st) as [|r rest] eqn:Hw; simpl.
    + exists []. simpl. split; [done|]. split; [constructor|].
      right. split; [constructor|]. split; [done|].
      rewrite length_app. simpl. lia.
    + exists [r]. split; [done|].
      destruct (outcome r) eqn:Ho; simpl; rewrite length_app; simpl.
      * split; [|lia]. constructor; [|constructor]. unfold delivered. by rewrite Ho.
      * split; [constructor | left; lia].
Qed.

(** X7.  The client never goes on after the transport failed: for each of
    the eight data fetches, for [login], [_get] and [_post], a call that
    returns got an HTTP response to every request it sent, as many responses
    as requests; a call that raises sent nothing after the first request that
    got no response. *)
Theorem requests_match_replies `{PyRuntime} (st : state) :
  (forall op,
     all_answered (is_ok (fst (call op st))) st (snd (call op st))) /\
  all_answered (is_ok (fst (login st))) st (snd (login st)) /\
  (forall url u,
     all_answered (is_ok (fst (_get url u st))) st (snd (_get url u st))) /\
  (forall url json u,
     all_answered (is_ok (fst (_post url json u st))) st (snd (_post url json u st))).
Proof.
  split; [|split; [|split]].
  - intros op. apply (tracked_call all_answered).
  - apply (tracked_login all_answered).
  - intros url u. apply (tracked_get all_answered).
  - intros url json u. apply (tracked_post all_answered).
Qed.

(** ** Re-login inside [login] *)

Section Relogin.
Context `{PyRuntime}.

#[local] Arguments format : simpl never.
#[local] Arguments _get : simpl never.
#[local] Arguments login : simpl never.


End Relogin.


(* ===================================================================== *)
(** * Further properties of the refresh cycle                             *)
(* ===================================================================== *)

Import CoordinatorRest.

#[local] Instance preserves_pre {W} (P : locals -> Prop) : PreOrder (@preserves W P).
Proof.
  split.
  - intros a Ha. exact Ha.
  - intros a b c Hab Hbc Ha. apply Hbc, Hab, Ha.
Qed.

(** Steps that leave a dictionary alone keep every property of it. *)
Ltac preserved_step R :=
  first
    [ assumption
    | match goal with
      | Hb : forall _, stable _ _ |- _ => apply Hb
      | Hb : forall _ _, stable _ _ |- _ => apply Hb
      | Hb : forall _ _ _, stable _ _ |- _ => apply Hb
      end
    | apply (stable_ret R) | apply (stable_raise R) | apply (stable_lift R)
    | apply (stable_get_state R)
    | apply (stable_for_each R); intros
    | apply (stable_try_except R); [| intros ]
    | match goal with
      | |- stable _ (executor_job _) => intros [? ?] ?; assumption
      | |- stable _ (_LOGGER _ _ _) => intros [? ?] ?; assumption
      | |- stable _ (set_meters _) => intros [? ?] ?; assumption
      | |- stable _ (set_last_invoice _) => intros [? ?] ?; assumption
      | |- stable _ (set_meters_invoice_summary _) => intros [? ?] ?; assumption
      | |- stable _ (if ?c then _ else _) => destruct c eqn:?
      end
    | apply (stable_bind R); [| intros ] ].

Ltac preserved :=
  repeat match goal with |- stable ?R _ => preserved_step R end.

Section SnapshotFacts.
Context `{PyRuntime} {W : Type} `{EkartotekaApi W}.
Variable self : coordinator.

(** ** The keys of the meter map *)

Lemma first_field_pure (values : json) (k : string) :
  exists r : result json, forall f : @frame W, first_field values k f = (r, f).
Proof.
  unfold first_field. destruct (truthy values).
  - unfold bind, lift. destruct (py_index0 values) as [v0|err]; eauto.
  - unfold ret. eauto.
Qed.

(** What one turn of the sensor loop that returns has done. *)
Lemma sensor_body_returns (apt_id s : json) (e : env W) (l : locals) (f' : @frame W) :
  sensor_body apt_id s (e, l) = (Ok tt, f') ->
  exists sid,
    py_get s "id_el_op" = Ok sid /\
    if is_none sid then snd f' = l
    else exists a b entry,
        py_int apt_id = Ok a /\ py_int sid = Ok b /\
        snd f' = with_meters (<[(a, b) := entry]> (l_meters l)) l.
Proof.
  unfold sensor_body, bind, lift.
  destruct (py_get s "id_el_op") as [sid|err] eqn:Hs; [|done].
  destruct (is_none sid) eqn:Hn.
  - unfold _LOGGER, modify. intros [= <-]. exists sid. by rewrite Hn.
  - unfold executor_job. simpl.
    destruct (api_houseSensorValue apt_id sid (api e)) as [[values|err] w']; [|done].
    simpl.
    destruct (first_field_pure values "stan") as [rv Hv].
    destruct (first_field_pure values "typ") as [rt Ht].
    destruct (first_field_pure values "data") as [rd Hd].
    rewrite Hv. destruct rv as [v|err]; [|done].
    rewrite Ht. destruct rt as [t|err]; [|done].
    rewrite Hd. destruct rd as [d|err]; [|done].
    destruct (py_int apt_id) as [a|err] eqn:Ha; [|done].
    destruct (py_int sid) as [b|err] eqn:Hb; [|done].
    unfold get_state, set_meters, modify. simpl. intros [= <-].
    exists sid. rewrite Hn. split; [done|]. by exists a, b, (MeterEntry v t d).
Qed.

Lemma py_int_none_raises (v : json) (n : Z) : is_none v = true -> py_int v <> Ok n.
Proof. by destruct v. Qed.

Lemma sensor_body_adds (apt_id s : json) (f f' : @frame W) :
  sensor_body apt_id s f = (Ok tt, f') ->
  adds_keys (fun k => exists sid a b,
                 py_get s "id_el_op" = Ok sid /\ py_int apt_id = Ok a /\
                 py_int sid = Ok b /\ k = (a, b)) f f'.
Proof.
  destruct f as [e l]. intros Hb.
  destruct (sensor_body_returns _ _ _ _ _ Hb) as (sid & Hs & Hcase).
  intros k. destruct (is_none sid) eqn:Hn.
  - rewrite Hcase. simpl. split; [by left|].
    intros [Hk|(sid' & a & b & Hs' & _ & Hb' & _)]; [done|].
    rewrite Hs in Hs'. injection Hs' as <-. by destruct (py_int_none_raises sid b Hn).
  - destruct Hcase as (a & b & entry & Ha & Hb' & ->). simpl.
    destruct (decide (k = (a, b))) as [->|Hne].
    + rewrite lookup_insert_eq. split; [|done]. intros _. right. by exists sid, a, b.
    + rewrite lookup_insert_ne by done. split; [by left|].
      intros [Hk|(sid' & a' & b' & Hs' & Ha' & Hb'' & ->)]; [done|].
      rewrite Hs in Hs'. injection Hs' as <-. congruence.
Qed.

Lemma for_each_adds {A} (D : A -> Z * Z -> Prop) (body : A -> M (@frame W) unit)
    (xs : list A) :
  (forall x f f', body x f = (Ok tt, f') -> adds_keys (D x) f f') ->
  forall f f', for_each xs body f = (Ok tt, f') ->
               adds_keys (fun k => exists x, x ∈ xs /\ D x k) f f'.
Proof.
  intros Hbody. induction xs as [|x xs IH]; intros f f'; simpl.
  - unfold ret. intros [= <-] k. split; [by left|].
    intros [Hk|(x & Hx & _)]; [done|]. by apply elem_of_nil in Hx.
  - unfold bind. destruct (body x f) as [[[]|err] f1] eqn:Hx; [|done].
    intros Hrest k. specialize (Hbody x f f1 Hx k). specialize (IH f1 f' Hrest k).
    rewrite IH, Hbody. split.
    + intros [[Hk|Hd]|(y & Hy & Hd)]; [by left| |].
      * right. exists x. split; [apply elem_of_cons; by left | done].
      * right. exists y. split; [apply elem_of_cons; by right | done].
    + intros [Hk|(y & Hy & Hd)]; [by left; left|].
      apply elem_of_cons in Hy as [->|Hy]; [by left; right|].
      right. by exists y.
Qed.

Lemma apartment_body_adds (apartment_list sensors apt : json) (f f' : @frame W) :
  apartment_body self apartment_list sensors apt f = (Ok tt, f') ->
  adds_keys (fun k => exists apt_id a b,
                 py_get apt "IdLok" = Ok apt_id /\ py_int apt_id = Ok a /\
                 listed_id "id_el_op" sensors b /\ k = (a, b)) f f'.
Proof.
  unfold apartment_body, bind, lift.
  destruct (py_get apt "IdLok") as [apt_id|err] eqn:Hapt; [|done].
  destruct (is_none apt_id) eqn:Hn.
  - destruct f as [e l]. unfold _LOGGER, modify. intros [= <-] k. simpl.
    split; [by left|].
    intros [Hk|(apt_id' & a & b & [= <-] & Ha & _)]; [done|].
    by destruct (py_int_none_raises apt_id a Hn).
  - destruct (py_iter sensors) as [ss|err] eqn:Hss; [|done].
    destruct (for_each ss (sensor_body apt_id) f) as [[[]|err] f1] eqn:Hloop; [|done].
    intros Hinv.
    pose proof (invoice_step_same_meters self apt_id f1) as Hsame.
    rewrite Hinv in Hsame. unfold same_meters in Hsame. simpl in Hsame.
    pose proof (for_each_adds _ _ ss (sensor_body_adds apt_id) f f1 Hloop) as Hadds.
    intros k. rewrite Hsame, (Hadds k). split.
    + intros [Hk|(s & Hs & sid & a & b & Hsid & Ha & Hb & ->)]; [by left|].
      right. exists apt_id, a, b.
      split; [done|]. split; [done|]. split; [|done]. by exists ss, s, sid.
    + intros [Hk|(apt_id' & a & b & [= <-] & Ha & (ss' & s & sid & Hss' & Hs & Hsid & Hb) & ->)];
        [by left|].
      rewrite Hss in Hss'. injection Hss' as <-.
      right. exists s. split; [done|]. by exists sid, a, b.
Qed.

Lemma fetch_meters_keys (e : env W) (f1 : @frame W) :
  fetch_meters_and_invoices self (e, no_locals) = (Ok tt, f1) ->
  exists apartment_list sensors w1 w2,
    api_apartmentList (JInt (house_id self)) (api e) = (Ok apartment_list, w1) /\
    api_houseSensorList (JInt (house_id self)) w1 = (Ok sensors, w2) /\
    forall a b,
      is_Some (l_meters (snd f1) !! (a, b)) <->
      listed_id "IdLok" apartment_list a /\ listed_id "id_el_op" sensors b.
Proof.
  unfold fetch_meters_and_invoices, bind, executor_job, lift. simpl.
  destruct (api_apartmentList _ (api e)) as [[apartment_list|err] w1] eqn:Hapi1; [|done].
  simpl.
  destruct (api_houseSensorList _ w1) as [[sensors|err] w2] eqn:Hapi2; [|done]. simpl.
  destruct (py_iter apartment_list) as [apts|err] eqn:Hapts; [|done].
  intros Hloop. exists apartment_list, sensors, w1, w2.
  split; [done|]. split; [done|]. intros a b.
  rewrite (for_each_adds _ _ apts (apartment_body_adds apartment_list sensors) _ _ Hloop (a, b)).
  simpl. rewrite lookup_empty. split.
  - intros [Hk|(apt & Hapt & apt_id & a' & b' & Hid & Ha & Hb & [= -> ->])];
      [by destruct Hk|].
    split; [|done]. by exists apts, apt, apt_id.
  - intros [(apts' & apt & apt_id & Hapts' & Hapt & Hid & Ha) Hb].
    rewrite Hapts in Hapts'. injection Hapts' as <-.
    right. exists apt. split; [done|]. by exists apt_id, a, b.
Qed.

(** ** The entries of the last invoice *)

Lemma annotated_stored (po eo : list (string * json)) (apt_id : json) (k : pykey) :
  is_none apt_id = false ->
  hash_key (field "Nazwa" (annotated po apt_id eo)) = Ok k ->
  stored_entry k (JObj (annotated po apt_id eo)).
Proof.
  intros Hn Hk. exists (annotated po apt_id eo), apt_id.
  unfold annotated in *. repeat split; [done| |done| | |].
  - by rewrite obj_lookup_set_eq.
  - rewrite !obj_lookup_set_ne by done. by rewrite obj_lookup_set_eq.
  - rewrite !obj_lookup_set_ne by done. by rewrite obj_lookup_set_eq.
  - rewrite !obj_lookup_set_ne by done. by rewrite obj_lookup_set_eq.
Qed.

Lemma invoice_entry_body_preserves (invoices apt_id entry : json) :
  is_none apt_id = false ->
  stable (@preserves W entries_stored) (invoice_entry_body invoices apt_id entry).
Proof.
  intros Hn [e l] HP. simpl in HP.
  unfold invoice_entry_body, annotate, bind, lift.
  destruct (py_index0 invoices) as [i0|err]; [|exact HP].
  destruct i0 as [| | | | |po]; try exact HP.
  destruct entry as [| | | | |eo]; try exact HP.
  simpl. fold (annotated po apt_id eo).
  destruct (hash_key _) as [k|err] eqn:Hk; [|exact HP].
  intros k' v. simpl.
  destruct (decide (k' = k)) as [->|Hne].
  - rewrite lookup_insert_eq. intros [= <-].
    exact (annotated_stored po eo apt_id k Hn Hk).
  - rewrite lookup_insert_ne by done. apply HP.
Qed.

Lemma apartment_body_preserves_entries (apartment_list sensors apt : json) :
  stable (@preserves W entries_stored) (apartment_body self apartment_list sensors apt).
Proof.
  unfold apartment_body.
  apply (stable_bind _); [preserved|]. intros apt_id.
  destruct (is_none apt_id) eqn:Hn; [preserved|].
  pose proof (fun invoices entry => invoice_entry_body_preserves invoices apt_id entry Hn)
    as Hentry.
  unfold invoice_step, has_invoice_id, sensor_body, first_field. preserved.
Qed.

Lemma fetch_meters_entries (e : env W) :
  entries_stored (snd (snd (fetch_meters_and_invoices self (e, no_locals)))).
Proof.
  assert (Hst : stable (@preserves W entries_stored) (fetch_meters_and_invoices self)).
  { pose proof apartment_body_preserves_entries as Hbody.
    unfold fetch_meters_and_invoices. preserved.
    intros [? l] _ k v. simpl. by rewrite lookup_empty. }
  apply (Hst (e, no_locals)). intros k v. simpl. by rewrite lookup_empty.
Qed.

(** ** The rows of the yearly summary *)

Lemma getitem_dict (inv : json) (k : string) (v : json) :
  py_getitem inv k = Ok v -> exists o, inv = JObj o /\ obj_lookup k o = Some v.
Proof.
  destruct inv as [| | | | |o]; try done. simpl.
  destruct (obj_lookup k o) as [v'|] eqn:Hv; [|done]. intros [= <-]. by exists o.
Qed.

Lemma summary_body_preserves (inv : json) :
  stable (@preserves W rows_stored) (summary_body self inv).
Proof.
  intros [e l] HP. simpl in HP.
  unfold summary_body, bind, lift, _LOGGER, executor_job, modify. simpl.
  destruct (py_getitem inv "id_el_op") as [sensor_id|err]; [|exact HP]. simpl.
  destruct (api_houseSensorCost _ sensor_id (api e)) as [[sensor_cost|err] w'];
    [|exact HP]. simpl.
  assert (Hlast : forall (inv' : json) (f : @frame W),
             rows_stored (snd f) ->
             rows_stored
               (snd ((key <- lift (py_getitem inv' "id_el_op") ;;
                      k <- lift (hash_key key) ;;
                      f <- get_state ;;
                      set_meters_invoice_summary
                        (<[k := inv']> (l_meters_invoice_summary (snd f)))) f).2)).
  { intros inv' [e' l'] HP'. unfold bind, lift, get_state, set_meters_invoice_summary, modify.
    destruct (py_getitem inv' "id_el_op") as [key|err] eqn:Hkey; [|exact HP'].
    destruct (hash_key key) as [k|err] eqn:Hk; [|exact HP'].
    intros k' v. simpl.
    destruct (decide (k' = k)) as [->|Hne].
    - rewrite lookup_insert_eq. intros [= <-].
      destruct (getitem_dict _ _ _ Hkey) as (o & -> & Ho). by exists o, key.
    - rewrite lookup_insert_ne by done. apply HP'. }
  destruct (truthy sensor_cost).
  - destruct (py_index0 sensor_cost) as [c0|err]; [|exact HP]. simpl.
    destruct (py_getitem c0 "zuzycieFaktyczne") as [cost|err]; [|exact HP]. simpl.
    destruct (py_setitem inv "cost" cost) as [inv1|err]; [|exact HP]. simpl.
    destruct (py_getitem c0 "zuzycieFaktyczneJM") as [amount|err]; [|exact HP]. simpl.
    destruct (py_setitem inv1 "amount" amount) as [inv2|err]; [|exact HP].
    apply (Hlast inv2 (_, l)), HP.
  - apply (Hlast inv (_, l)), HP.
Qed.

Lemma fetch_summary_rows (f : @frame W) :
  rows_stored (snd (snd (fetch_summary self f))).
Proof.
  pose proof summary_body_preserves as Hbody.
  assert (Hst : stable (@preserves W rows_stored)
                  (try_except (summary_try self)
                     (fun inv_err =>
                        _LOGGER WARNING (JStr "Invoice summary failed for house %s: %s")
                          [JInt (house_id self); JStr (exn_msg inv_err)]))).
  { unfold summary_try. preserved. }
  destruct f as [e l]. unfold fetch_summary, bind, set_meters_invoice_summary, modify.
  simpl. apply Hst. intros k v. simpl. by rewrite lookup_empty.
Qed.

(** ** The snapshot of a cycle that returned *)

Lemma snapshot_from_cycle (e : env W) (snap : snapshot) (e' : env W) :
  _async_update_data self e = (Ok snap, e') ->
  exists f1 f2,
    fetch_meters_and_invoices self (e, no_locals) = (Ok tt, f1) /\
    fetch_summary self f1 = (Ok tt, f2) /\
    meters snap = l_meters (snd f1) /\
    last_invoice snap = l_last_invoice (snd f1) /\
    meters_invoice_summary snap = l_meters_invoice_summary (snd f2).
Proof.
  intros Hu.
  destruct (fetch_meters_and_invoices self (e, no_locals)) as [[[]|err] f1] eqn:Hf.
  - destruct (update_succeeds self e f1 Hf) as (f2 & Hs & Hm & Hl & Hu').
    rewrite Hu in Hu'. injection Hu' as -> ->.
    exists f1, f2. simpl. by rewrite Hm, Hl.
  - rewrite (update_fails self e err f1 Hf) in Hu. done.
Qed.

Lemma cycle_entries (e : env W) (snap : snapshot) (e' : env W) :
  _async_update_data self e = (Ok snap, e') ->
  forall k v, last_invoice snap !! k = Some v -> stored_entry k v.
Proof.
  intros Hu. destruct (snapshot_from_cycle e snap e' Hu) as (f1 & f2 & Hf & _ & _ & Hl & _).
  rewrite Hl. pose proof (fetch_meters_entries e) as He. by rewrite Hf in He.
Qed.

Lemma cycle_rows (e : env W) (snap : snapshot) (e' : env W) :
  _async_update_data self e = (Ok snap, e') ->
  forall k v, meters_invoice_summary snap !! k = Some v -> stored_row k v.
Proof.
  intros Hu. destruct (snapshot_from_cycle e snap e' Hu) as (f1 & f2 & _ & Hs & _ & _ & Hr).
  rewrite Hr. pose proof (fetch_summary_rows f1) as He. by rewrite Hs in He.
Qed.

(** ** Apartments without an identifier *)

Lemma idless_apartments_loop (apartment_list sensors : json)
    (aos : list (list (string * json))) (e : env W) (l : locals) :
  Forall (fun ao => is_none (field "IdLok" ao) = true) aos ->
  for_each (map JObj aos) (apartment_body self apartment_list sensors) (e, l) =
    (Ok tt,
     (Env (api e)
          (logs e ++ map (fun _ => LogRecord WARNING (JStr "Empty IdLok in") [apartment_list])
                         aos), l)).
Proof.
  intros Hall. revert e. induction Hall as [|ao aos Hao _ IH]; intros e; simpl.
  - unfold ret. rewrite app_nil_r. by destruct e.
  - unfold bind at 1. unfold apartment_body at 1. unfold bind, lift. simpl.
    fold (field "IdLok" ao). rewrite Hao. unfold _LOGGER, modify. simpl.
    rewrite IH. simpl. by rewrite <- List.app_assoc.
Qed.

End SnapshotFacts.

Section SnapshotTheorems.
Context `{PyRuntime} {W : Type} `{EkartotekaApi W}.
Variable self : coordinator.

(** X9.  The meter map of a snapshot has an entry for exactly the pairs the
    two lists give: [(a, b)] is a key if and only if [a] is [int(IdLok)] of an
    element of the apartment list and [b] is [int(id_el_op)] of an element of
    the sensor list.  Entries without an identifier add nothing, and no pair
    is left out. *)
Theorem snapshot_meters_domain (e : env W) (snap : snapshot) (e' : env W) :
  _async_update_data self e = (Ok snap, e') ->
  exists apartment_list sensors w1 w2,
    api_apartmentList (JInt (house_id self)) (api e) = (Ok apartment_list, w1) /\
    api_houseSensorList (JInt (house_id self)) w1 = (Ok sensors, w2) /\
    forall a b,
      is_Some (meters snap !! (a, b)) <->
      listed_id "IdLok" apartment_list a /\ listed_id "id_el_op" sensors b.
Proof.
  intros Hu.
  destruct (snapshot_from_cycle self e snap e' Hu) as (f1 & f2 & Hf & _ & Hm & _).
  destruct (fetch_meters_keys self e f1 Hf) as (al & ss & w1 & w2 & Ha & Hs & Hkeys).
  exists al, ss, w1, w2. split; [done|]. split; [done|].
  intros a b. rewrite Hm. apply Hkeys.
Qed.

(** X10.  Every value of the last-invoice map of a snapshot is a dict stored
    under the key its own [Nazwa] hashes to, and it carries the four
    annotations of step 4: [start_date], [end_date], [paid], and an
    [apartment_id] that is not [None]. *)
Theorem snapshot_invoice_entries (e : env W) (snap : snapshot) (e' : env W) :
  _async_update_data self e = (Ok snap, e') ->
  forall k v, last_invoice snap !! k = Some v -> stored_entry k v.
Proof. apply cycle_entries. Qed.

(** X11.  Every value of the summary map of a snapshot is a dict stored under
    the key its own [id_el_op] hashes to; this holds for the rows that were
    stored before a failure cut step 5 short as well. *)
Theorem snapshot_summary_rows (e : env W) (snap : snapshot) (e' : env W) :
  _async_update_data self e = (Ok snap, e') ->
  forall k v, meters_invoice_summary snap !! k = Some v -> stored_row k v.
Proof. apply cycle_rows. Qed.

(** X12.  After a refresh that returned, the entities whose key the new
    snapshot holds read their value without an exception: the meter entity
    reads the stored [value], the invoice entity the [Nalicz] of its entry,
    the summary entity the [WynikRozliczenia] of its row and the cost entity
    the [cost] of its row ([None] when the row has none). *)
Theorem refreshed_entities_read (e : env W) (snap : snapshot) (e' : env W) :
  _async_update_data self e = (Ok snap, e') ->
  let c' := fst (async_refresh self e) in
  data c' = Some snap /\
  (forall a b g u entry,
     meters snap !! (a, b) = Some entry ->
     EkartotekaMeterSensor.native_value c' (EkartotekaMeterSensor.__init__ a b g u) =
       Ok (value entry)) /\
  (forall key k apt v,
     hash_key key = Ok k -> last_invoice snap !! k = Some v ->
     exists o, v = JObj o /\
       EkartotekaRentInvoiceEntry.native_value c'
         (EkartotekaRentInvoiceEntry.Make key apt) = Ok (field "Nalicz" o)) /\
  (forall key k v,
     hash_key key = Ok k -> meters_invoice_summary snap !! k = Some v ->
     exists o, v = JObj o /\
       EkartotekaInvoiceSummarySensor.native_value c'
         (EkartotekaInvoiceSummarySensor.Make key) = Ok (field "WynikRozliczenia" o)) /\
  (forall n v,
     meters_invoice_summary snap !! KInt n = Some v ->
     exists o, v = JObj o /\
       EkartotekaMeterSensorCost.native_value c' (EkartotekaMeterSensorCost.Make n) =
         Ok (field "cost" o)).
Proof.
  intros Hu c'.
  assert (Hdata : data c' = Some snap).
  { unfold c'. by rewrite (refresh_replaces_data self e snap e' Hu). }
  split; [done|]. split; [|split; [|split]].
  - intros a b g u entry Hentry.
    unfold EkartotekaMeterSensor.native_value, EkartotekaMeterSensor.meters_of.
    rewrite Hdata. simpl. by rewrite Hentry.
  - intros key k apt v Hk Hv.
    destruct (cycle_entries self e snap e' Hu k v Hv) as (o & _ & -> & _).
    exists o. split; [done|].
    unfold EkartotekaRentInvoiceEntry.native_value, lookup_field.
    rewrite Hdata. simpl. by rewrite Hk, Hv.
  - intros key k v Hk Hv.
    destruct (cycle_rows self e snap e' Hu k v Hv) as (o & _ & -> & _).
    exists o. split; [done|].
    unfold EkartotekaInvoiceSummarySensor.native_value, lookup_field.
    rewrite Hdata. simpl. by rewrite Hk, Hv.
  - intros n v Hv.
    destruct (cycle_rows self e snap e' Hu _ v Hv) as (o & _ & -> & _).
    exists o. split; [done|].
    unfold EkartotekaMeterSensorCost.native_value, lookup_field.
    rewrite Hdata. simpl. by rewrite Hv.
Qed.

(** X13.  When no element of the apartment list carries an [IdLok], the cycle
    makes the two list requests and nothing else before the summary: each
    apartment is logged and skipped, the sensor list is never looked at (it
    may be any value), both maps stay empty, and the cycle returns a
    snapshot. *)
Theorem apartments_without_id_skipped (e : env W)
    (aos : list (list (string * json))) (sensors : json) (w1 w2 : W) :
  api_apartmentList (JInt (house_id self)) (api e) = (Ok (JList (map JObj aos)), w1) ->
  api_houseSensorList (JInt (house_id self)) w1 = (Ok sensors, w2) ->
  Forall (fun ao => is_none (field "IdLok" ao) = true) aos ->
  fetch_meters_and_invoices self (e, no_locals) =
    (Ok tt,
     (Env w2 (logs e ++ map (fun _ => LogRecord WARNING (JStr "Empty IdLok in")
                                        [JList (map JObj aos)]) aos),
      no_locals)) /\
  exists snap e',
    _async_update_data self e = (Ok snap, e') /\
    meters snap = ∅ /\ last_invoice snap = ∅.
Proof.
  intros Ha Hs Hall.
  assert (Hf : fetch_meters_and_invoices self (e, no_locals) =
               (Ok tt,
                (Env w2 (logs e ++ map (fun _ => LogRecord WARNING (JStr "Empty IdLok in")
                                                   [JList (map JObj aos)]) aos),
                 no_locals))).
  { unfold fetch_meters_and_invoices, bind, executor_job, lift. simpl.
    rewrite Ha. simpl. rewrite Hs. simpl.
    by rewrite (idless_apartments_loop self _ sensors aos _ _ Hall). }
  split; [exact Hf|].
  destruct (update_succeeds self e _ Hf) as (f2 & _ & Hm & Hl & Hu).
  eexists _, _. split; [exact Hu|]. simpl. by rewrite Hm, Hl.
Qed.

End SnapshotTheorems.

Lemma snapshot_meters_domain_witness :
  is_Some (meters (snapshot_of (fst (@_async_update_data _ nat canned house_11
                                       (Env 0%nat [])))) !! (1, 10)) /\
  ~ is_Some (meters (snapshot_of (fst (@_async_update_data _ nat canned house_11
                                         (Env 0%nat [])))) !! (1, 11)).
Proof.
  destruct (@snapshot_meters_domain _ nat canned house_11 (Env 0%nat [])
              (snapshot_of (fst (@_async_update_data _ nat canned house_11 (Env 0%nat []))))
              (snd (@_async_update_data _ nat canned house_11 (Env 0%nat []))))
    as (al & ss & w1 & w2 & Ha & Hs & Hkeys); [vm_compute; reflexivity|].
  injection Ha as <- <-. injection Hs as <- <-. split.
  - apply Hkeys. split.
    + exists [apartment_1], apartment_1, (JInt 1).
      split; [reflexivity|]. split; [apply elem_of_cons; by left|]. split; reflexivity.
    + exists [JObj sensor_without_id; cold_water], cold_water, (JInt 10).
      split; [reflexivity|].
      split; [apply elem_of_cons; right; apply elem_of_cons; by left|].
      split; reflexivity.
  - vm_compute. intros [x Hx]. discriminate Hx.
Defined.

Lemma snapshot_invoice_entries_witness :
  stored_entry (KStr "Czynsz") (JObj (annotated january (JInt 1) rent)).
Proof.
  apply (@snapshot_invoice_entries _ nat canned house_11 (Env 0%nat [])
           (snapshot_of (fst (@_async_update_data _ nat canned house_11 (Env 0%nat []))))
           (snd (@_async_update_data _ nat canned house_11 (Env 0%nat []))));
    vm_compute; reflexivity.
Defined.

Lemma snapshot_summary_rows_witness :
  stored_row (KInt 10) (JObj (with_cost (JStr "41.5") (JStr "m3") row_10)).
Proof.
  apply (@snapshot_summary_rows _ nat canned house_11 (Env 0%nat [])
           (snapshot_of (fst (@_async_update_data _ nat canned house_11 (Env 0%nat []))))
           (snd (@_async_update_data _ nat canned house_11 (Env 0%nat []))));
    vm_compute; reflexivity.
Defined.

Lemma refreshed_entities_read_witness :
  EkartotekaRentInvoiceEntry.native_value
    (fst (@async_refresh _ nat canned house_11 (Env 0%nat [])))
    (EkartotekaRentInvoiceEntry.Make (JStr "Czynsz") (JInt 1)) = Ok (JStr "350.00").
Proof.
  destruct (@refreshed_entities_read _ nat canned house_11 (Env 0%nat [])
              (snapshot_of (fst (@_async_update_data _ nat canned house_11 (Env 0%nat []))))
              (snd (@_async_update_data _ nat canned house_11 (Env 0%nat []))))
    as (_ & _ & Hinv & _); [vm_compute; reflexivity|].
  destruct (Hinv (JStr "Czynsz") (KStr "Czynsz") (JInt 1)
              (JObj (annotated january (JInt 1) rent)))
    as (o & Ho & Hread); [reflexivity | vm_compute; reflexivity |].
  injection Ho as <-. exact Hread.
Defined.

Lemma apartments_without_id_skipped_witness :
  exists snap e',
    @_async_update_data _ nat SetupExamples.idless house_11 (Env 0%nat []) = (Ok snap, e') /\
    meters snap = ∅ /\ last_invoice snap = ∅.
Proof.
  eapply (@apartments_without_id_skipped _ nat SetupExamples.idless house_11 (Env 0%nat [])
            [[]; [("IdLok", JNull)]] JNull 1%nat 2%nat);
    [reflexivity | reflexivity |].
  repeat constructor.
Defined.

(* ===================================================================== *)
(** * Further properties of the entities                                  *)
(* ===================================================================== *)

Import SensorsRest.

(** ** Decimal numerals *)









(** ** Unique identifiers *)

Section Identities.
Context `{PyRuntime}.



End Identities.

(** ** Attributes *)

Lemma get_all_dict (v : json) (f : string * string) (fields : list (string * string)) :
  is_ok (get_all v (f :: fields)) = is_dict v.
Proof.
  destruct v as [| | | | |o]; try by destruct f.
  revert f. induction fields as [|g fields IH]; intros [name field]; simpl in *.
  - done.
  - specialize (IH g). destruct g as [name' field']. simpl in IH.
    by destruct (get_all (JObj o) fields).
Qed.

(** X15.  [extra_state_attributes] of the invoice and of the summary entity
    returns only when the snapshot is there and holds a dict under the
    entity's key.  Without a snapshot it raises the [AttributeError] of
    [None.get], where [native_value] of the same entity returns [None]; the
    attributes of the cost entity do not depend on the snapshot. *)
Theorem attributes_need_entry (c : coordinator) (key apt : json) (n : Z) :
  (is_ok (RentInvoiceEntry.extra_state_attributes c
            (EkartotekaRentInvoiceEntry.Make key apt)) = true <->
   exists d k o, data c = Some d /\ hash_key key = Ok k /\
                 last_invoice d !! k = Some (JObj o)) /\
  (is_ok (InvoiceSummarySensor.extra_state_attributes c
            (EkartotekaInvoiceSummarySensor.Make key)) = true <->
   exists d k o, data c = Some d /\ hash_key key = Ok k /\
                 meters_invoice_summary d !! k = Some (JObj o)) /\
  (data c = None ->
   RentInvoiceEntry.extra_state_attributes c (EkartotekaRentInvoiceEntry.Make key apt) =
     Raise (no_attribute JNull "get") /\
   InvoiceSummarySensor.extra_state_attributes c (EkartotekaInvoiceSummarySensor.Make key) =
     Raise (no_attribute JNull "get") /\
   EkartotekaRentInvoiceEntry.native_value c (EkartotekaRentInvoiceEntry.Make key apt) =
     Ok JNull /\
   EkartotekaInvoiceSummarySensor.native_value c (EkartotekaInvoiceSummarySensor.Make key) =
     Ok JNull) /\
  MeterSensorCost.extra_state_attributes c (EkartotekaMeterSensorCost.Make n) =
    Ok [("house_id", JInt (house_id c)); ("house_name", JStr (house_name c))].
Proof.
  assert (Hiff : forall (section : snapshot -> gmap pykey json) f fields,
             (match lookup_value section c key with
              | Raise _ => false
              | Ok value => is_ok (get_all value (f :: fields))
              end = true <->
              exists d k o, data c = Some d /\ hash_key key = Ok k /\
                            section d !! k = Some (JObj o))).
  { intros section f fields. unfold lookup_value.
    destruct (data c) as [d|] eqn:Hd.
    - destruct (hash_key key) as [k|err] eqn:Hk.
      + rewrite get_all_dict.
        destruct (section d !! k) as [v|] eqn:Hv; simpl.
        * split.
          -- destruct v; try done. intros _. by eexists _, _, _.
          -- intros (d' & k' & o & [= <-] & [= <-] & Hv'). rewrite Hv in Hv'.
             by injection Hv' as ->.
        * split; [done|]. intros (d' & k' & o & [= <-] & [= <-] & Hv'). congruence.
      + split; [done|]. by intros (d' & k' & o & _ & Hk' & _).
    - rewrite get_all_dict. simpl. split; [done|]. by intros (d' & k' & o & Hd' & _). }
  split; [|split; [|split]].
  - unfold RentInvoiceEntry.extra_state_attributes.
    cbn [EkartotekaRentInvoiceEntry._meter_id].
    rewrite <- (Hiff last_invoice ("count", "WspIle")
                  [ ("count_unit", "WspIleJM"); ("price", "Cena");
                    ("price_coefficent", "WspCena"); ("is_sub", "is_sub"); ("size", "Ilosc");
                    ("unit", "JM"); ("period", "zaOkres");
                    ("period_start", "start_date"); ("period_end", "end_date");
                    ("name", "Nazwa") ]).
    destruct (lookup_value last_invoice c key) as [value|err]; [|done].
    by destruct (get_all value _).
  - unfold InvoiceSummarySensor.extra_state_attributes.
    cbn [EkartotekaInvoiceSummarySensor._meter_id].
    rewrite <- (Hiff meters_invoice_summary ("name", "Nazwa") []).
    destruct (lookup_value meters_invoice_summary c key) as [value|err]; [|done].
    by destruct (get_all value _).
  - intros Hd.
    unfold RentInvoiceEntry.extra_state_attributes,
      InvoiceSummarySensor.extra_state_attributes, lookup_value,
      EkartotekaRentInvoiceEntry.native_value,
      EkartotekaInvoiceSummarySensor.native_value, lookup_field.
    by rewrite Hd.
  - done.
Qed.

Lemma attributes_need_entry_witness :
  RentInvoiceEntry.extra_state_attributes house_11
    (EkartotekaRentInvoiceEntry.Make (JStr "Czynsz") (JInt 1)) =
    Raise (no_attribute JNull "get") /\
  is_ok (RentInvoiceEntry.extra_state_attributes house_11_refreshed
           (EkartotekaRentInvoiceEntry.Make (JStr "Czynsz") (JInt 1))) = true.
Proof.
  pose proof (attributes_need_entry house_11 (JStr "Czynsz") (JInt 1) 0)
    as (_ & _ & Hnone & _).
  pose proof (attributes_need_entry house_11_refreshed (JStr "Czynsz") (JInt 1) 0)
    as (Hsome & _).
  split; [by destruct (Hnone eq_refl)|].
  apply Hsome. exists old_snapshot, (KStr "Czynsz"), rent.
  split; [reflexivity|]. split; [reflexivity|]. vm_compute. reflexivity.
Defined.

(* ===================================================================== *)
(** * Properties of the set-up                                            *)
(* ===================================================================== *)

Import CoordinatorRest SensorsRest Setup.

Section SetupFacts.
Context `{PyRuntime} {W : Type} `{EkartotekaApi W}.
Variable host : coordinator -> M (env W) coordinator.
Variable invoice_items : gmap pykey json -> list (json * json).
Variable meter_items : gmap (Z * Z) meter_entry -> list ((Z * Z) * meter_entry).

(** The [except] clause turns every exception of the build into one error
    record; the list is returned as it stands. *)
Lemma build_outcome (house : json) (e : env W) :
  _async_build_entities_for_house host invoice_items meter_items house e =
    match build_try host invoice_items meter_items house (e, []) with
    | (Ok _, (e', entities)) => (Ok entities, e')
    | (Raise err, (e', entities)) =>
        (Ok entities, Env (api e') (logs e' ++ [build_error err]))
    end.
Proof.
  unfold _async_build_entities_for_house, try_except, bind, get_state, ret.
  destruct (build_try _ _ _ house (e, [])) as [[[]|err] [e' entities]]; done.
Qed.

Lemma build_returns (house : json) (e : env W) :
  exists entities e',
    _async_build_entities_for_house host invoice_items meter_items house e =
      (Ok entities, e').
Proof.
  rewrite build_outcome.
  destruct (build_try _ _ _ house (e, [])) as [[[]|err] [e' entities]]; eauto.
Qed.

(** ** The loops of the build *)

Lemma invoice_entities_loop (c : coordinator) (items : list (json * json))
    (e : env W) (acc : list sensor_entity) :
  Forall (fun item => is_dict (snd item) = true) items ->
  for_each items (invoice_entity_body c) (e, acc) =
    (Ok tt, (e, (acc ++ map (invoice_entity c) items)%list)).
Proof.
  intros Hall. revert acc. induction Hall as [|[k v] items Hv _ IH]; intros acc; simpl.
  - by rewrite app_nil_r.
  - unfold bind at 1. unfold invoice_entity_body at 1. unfold bind, lift, append, modify.
    destruct v as [| | | | |o]; try done. simpl.
    rewrite IH. unfold invoice_entity. simpl. by rewrite <- List.app_assoc.
Qed.

Lemma meta_domain (ss : list json) :
  forall (acc metas : gmap Z sensor_meta),
    sensor_meta_by_id ss acc = Ok metas ->
    forall b, is_Some (metas !! b) <->
              is_Some (acc !! b) \/
              exists s v, s ∈ ss /\ py_get s "id_el_op" = Ok v /\ py_int v = Ok b.
Proof.
  induction ss as [|s ss IH]; intros acc metas; simpl.
  - intros [= <-] b. split; [by left|].
    intros [Hb|(s & v & Hs & _)]; [done|]. by apply elem_of_nil in Hs.
  - destruct (py_get s "id_el_op") as [id|err] eqn:Hid; [|done].
    destruct (is_none id) eqn:Hn.
    + intros Hrest b. rewrite (IH _ _ Hrest b). split.
      * intros [Hb|(s' & v & Hs' & Hv & Hb)]; [by left|].
        right. exists s', v. split; [apply elem_of_cons; by right | done].
      * intros [Hb|(s' & v & Hs' & Hv & Hb)]; [by left|].
        apply elem_of_cons in Hs' as [->|Hs']; [|right; by exists s', v].
        rewrite Hid in Hv. injection Hv as <-.
        by destruct (py_int_none_raises id b Hn).
    + destruct (py_int id) as [n|err] eqn:Hint; [|done].
      destruct (py_get s "id_gru") as [gru|err]; [|done].
      destruct (py_get s "jm") as [jm|err]; [|done].
      destruct (or_empty_strip jm) as [unit|err]; [|done].
      destruct (py_get s "nazwa") as [nazwa|err]; [|done].
      intros Hrest b. rewrite (IH _ _ Hrest b). split.
      * intros [Hb|(s' & v & Hs' & Hv & Hb)].
        -- destruct (decide (b = n)) as [->|Hne].
           ++ right. exists s, id. split; [apply elem_of_cons; by left | done].
           ++ left. by rewrite lookup_insert_ne in Hb.
        -- right. exists s', v. split; [apply elem_of_cons; by right | done].
      * intros [Hb|(s' & v & Hs' & Hv & Hb)].
        -- left. destruct (decide (b = n)) as [->|Hne].
           ++ by rewrite lookup_insert_eq.
           ++ by rewrite lookup_insert_ne.
        -- apply elem_of_cons in Hs' as [->|Hs']; [|right; by exists s', v].
           rewrite Hid in Hv. injection Hv as <-. rewrite Hint in Hb. injection Hb as <-.
           left. by rewrite lookup_insert_eq.
Qed.

Lemma has_meter_app (l : list sensor_entity) (x : sensor_entity) (a b : Z) :
  has_meter_entity (l ++ [x])%list a b <->
  has_meter_entity l a b \/
  exists y, x = MeterSensor y /\
            EkartotekaMeterSensor.apartment_id (fst y) = a /\
            EkartotekaMeterSensor.sensor_id (fst y) = b.
Proof.
  unfold has_meter_entity. split.
  - intros (y & Hin & Ha & Hb). apply elem_of_app in Hin as [Hin|Hin].
    + left. by exists y.
    + apply list_elem_of_singleton in Hin. right. by exists y.
  - intros [(y & Hin & Ha & Hb)|(y & -> & Ha & Hb)].
    + exists y. split; [apply elem_of_app; by left | done].
    + exists y. split; [apply elem_of_app; right; by apply list_elem_of_singleton | done].
Qed.

Lemma meter_entities_loop (c : coordinator) (metas : gmap Z sensor_meta)
    (items : list ((Z * Z) * meter_entry)) :
  forall (f f' : @build_frame W),
    for_each items (meter_entity_body c metas) f = (Ok tt, f') ->
    forall a b,
      has_meter_entity (snd f') a b <->
      has_meter_entity (snd f) a b \/
      (exists v, ((a, b), v) ∈ items) /\ is_Some (metas !! b).
Proof.
  induction items as [|[[a0 b0] v0] items IH]; intros f f'; simpl.
  - unfold ret. intros [= <-] a b. split; [by left|].
    intros [Hm|[(v & Hv) _]]; [done|]. by apply elem_of_nil in Hv.
  - unfold bind at 1. unfold meter_entity_body at 1. simpl.
    assert (Hcons : forall a b,
               (exists v, ((a, b), v) ∈ ((a0, b0, v0) :: items)) <->
               (a = a0 /\ b = b0) \/ exists v, ((a, b), v) ∈ items).
    { intros a b. split.
      - intros (v & Hv). apply elem_of_cons in Hv as [[= -> -> ->]|Hv]; [by left|].
        right. by exists v.
      - intros [[-> ->]|(v & Hv)].
        + exists v0. apply elem_of_cons. by left.
        + exists v. apply elem_of_cons. by right. }
    destruct (metas !! b0) as [meta|] eqn:Hmeta.
    + unfold bind, lift, append, modify, ret.
      destruct (is_none (meta_group_id meta)).
      * simpl. intros Hrest a b. rewrite (IH _ _ Hrest a b). simpl.
        rewrite has_meter_app, Hcons. split.
        -- intros [[Hm|(y & [= <-] & Ha & Hb)]|[Hv Hs]]; [by left| |].
           ++ simpl in Ha, Hb. subst a b. right. split; [by left | by rewrite Hmeta].
           ++ right. split; [by right | done].
        -- intros [Hm|[[[-> ->]|Hv] Hs]]; [by left; left| |by right].
           left. right. by eexists.
      * destruct (py_int (meta_group_id meta)) as [g|err]; [|done].
        simpl. intros Hrest a b. rewrite (IH _ _ Hrest a b). simpl.
        rewrite has_meter_app, Hcons. split.
        -- intros [[Hm|(y & [= <-] & Ha & Hb)]|[Hv Hs]]; [by left| |].
           ++ simpl in Ha, Hb. subst a b. right. split; [by left | by rewrite Hmeta].
           ++ right. split; [by right | done].
        -- intros [Hm|[[[-> ->]|Hv] Hs]]; [by left; left| |by right].
           left. right. by eexists.
    + unfold ret. intros Hrest a b. rewrite (IH _ _ Hrest a b), Hcons. split.
      * intros [Hm|[Hv Hs]]; [by left|]. right. split; [by right | done].
      * intros [Hm|[[[-> ->]|Hv] Hs]]; [by left| |by right].
        rewrite Hmeta in Hs. by destruct Hs.
Qed.

(** ** Steps that add no meter entity *)

Lemma append_other (x : sensor_entity) :
  (forall y, x <> MeterSensor y) -> stable (@no_new_meters W) (append x).
Proof.
  intros Hx [e l] a b. simpl. rewrite has_meter_app.
  intros [Hm|(y & Hy & _)]; [done|]. by destruct (Hx y).
Qed.

End SetupFacts.

#[local] Instance no_new_meters_pre {W} : PreOrder (@no_new_meters W).
Proof.
  split.
  - intros f a b Hm. exact Hm.
  - intros f1 f2 f3 H12 H23 a b Hm. apply H12, H23, Hm.
Qed.

Ltac setup_stable_step R :=
  first
    [ assumption
    | apply (stable_ret R) | apply (stable_raise R) | apply (stable_lift R)
    | apply (stable_get_state R)
    | apply (stable_for_each R); intros
    | match goal with
      | |- stable _ (Setup._LOGGER _ _ _) => intros [? ?] ? ? ?; assumption
      | |- stable _ (Setup.executor_job _) => intros [? ?] ? ? ?; assumption
      | |- stable _ (append _) => apply append_other; intros ?; discriminate
      | |- stable _ (if ?c then _ else _) => destruct c eqn:?
      end
    | apply (stable_bind R); [| intros ] ].

Ltac setup_stable :=
  repeat match goal with |- stable ?R _ => setup_stable_step R end.

Section SetupLoops.
Context `{PyRuntime} {W : Type} `{EkartotekaApi W}.

Lemma summary_entities_no_meters (c : coordinator) (meter : json) :
  stable (@no_new_meters W) (summary_entities_body c meter).
Proof. unfold summary_entities_body. setup_stable. Qed.

Lemma invoice_entity_no_meters (c : coordinator) (item : json * json) :
  stable (@no_new_meters W) (invoice_entity_body c item).
Proof. unfold invoice_entity_body. setup_stable. Qed.

Lemma no_meter_entity_in_nil (a b : Z) : ~ has_meter_entity [] a b.
Proof. intros (x & Hx & _). by apply elem_of_nil in Hx. Qed.

End SetupLoops.

Section SetupTheorems.
Context `{PyRuntime} {W : Type} `{EkartotekaApi W}.
Variable host : coordinator -> M (env W) coordinator.
Variable invoice_items : gmap pykey json -> list (json * json).
Variable meter_items : gmap (Z * Z) meter_entry -> list ((Z * Z) * meter_entry).

(** X16.  A house for which no coordinator comes about gives an empty list
    and never an exception.  A house without [IdADo] is logged with a warning
    before a coordinator is made; a house that is no dict, a house whose
    [IdADo] the coordinator cannot convert, and a house whose first refresh
    raises each leave one error record.  In the first three cases neither the
    client nor the host has been called. *)
Theorem house_without_coordinator (e : env W) :
  (forall o,
     is_none (field "IdADo" o) = true ->
     _async_build_entities_for_house host invoice_items meter_items (JObj o) e =
       (Ok [], Env (api e)
                   (logs e ++ [LogRecord WARNING (JStr "Skipping house without IdADo: %s")
                                 [JObj o]]))) /\
  (forall house,
     is_dict house = false ->
     _async_build_entities_for_house host invoice_items meter_items house e =
       (Ok [], Env (api e) (logs e ++ [build_error (no_attribute house "get")]))) /\
  (forall o err,
     is_none (field "IdADo" o) = false ->
     Coordinator.__init__ (JObj o) = Raise err ->
     _async_build_entities_for_house host invoice_items meter_items (JObj o) e =
       (Ok [], Env (api e) (logs e ++ [build_error err]))) /\
  (forall o c err e1,
     is_none (field "IdADo" o) = false ->
     Coordinator.__init__ (JObj o) = Ok c ->
     host c e = (Raise err, e1) ->
     _async_build_entities_for_house host invoice_items meter_items (JObj o) e =
       (Ok [], Env (api e1) (logs e1 ++ [build_error err]))).
Proof.
  split; [|split; [|split]].
  - intros o Hid. rewrite build_outcome.
    unfold build_try, bind, lift. simpl. fold (field "IdADo" o). by rewrite Hid.
  - intros house Hd. rewrite build_outcome.
    unfold build_try, bind, lift. by destruct house.
  - intros o err Hid Hinit. rewrite build_outcome.
    unfold build_try, bind, lift. simpl py_get. cbv iota beta.
    fold (field "IdADo" o). rewrite Hid, Hinit. by destruct e.
  - intros o c err e1 Hid Hinit Hhost. rewrite build_outcome.
    unfold build_try, bind, lift. simpl py_get. cbv iota beta.
    fold (field "IdADo" o). rewrite Hid, Hinit. unfold await. simpl.
    by rewrite Hhost.
Qed.

(** X17.  An exception in the middle of the build does not discard what was
    built: when the first refresh returned a coordinator with a snapshot, the
    loop over the summary rows made the entities [built], every last-invoice
    entry is a dict, and the fetch of the sensor list then raises, the build
    returns [built] followed by one invoice entity per last-invoice item,
    with one error record and no meter entity. *)
Theorem entities_built_before_failure_are_kept (e : env W) (o : list (string * json))
    (c c' : coordinator) (e1 e2 : env W) (d : snapshot) (rows : list json)
    (w2 w3 : W) (built : list sensor_entity) (err : exn) :
  is_none (field "IdADo" o) = false ->
  Coordinator.__init__ (JObj o) = Ok c ->
  host c e = (Ok c', e1) ->
  data c' = Some d ->
  api_houseAnalysisSummary (JInt (house_id c')) (api e1) = (Ok (JList rows), w2) ->
  for_each rows (summary_entities_body c') (Env w2 (logs e1), []) = (Ok tt, (e2, built)) ->
  Forall (fun item => is_dict (snd item) = true) (invoice_items (last_invoice d)) ->
  api_houseSensorList (JInt (house_id c')) (api e2) = (Raise err, w3) ->
  _async_build_entities_for_house host invoice_items meter_items (JObj o) e =
    (Ok (built ++ map (invoice_entity c') (invoice_items (last_invoice d)))%list,
     Env w3 (logs e2 ++ [build_error err])).
Proof.
  intros Hid Hinit Hhost Hd Hsum Hrows Hdicts Hsens. rewrite build_outcome.
  unfold build_try, bind, lift. simpl py_get. cbv iota beta.
  fold (field "IdADo" o). rewrite Hid, Hinit. unfold await. simpl.
  rewrite Hhost. simpl.
  rewrite Hsum. simpl. rewrite Hrows. unfold data_of. rewrite Hd.
  rewrite (invoice_entities_loop c' _ e2 built Hdicts). simpl.
  by rewrite Hsens.
Qed.

(** X18.  When the build of a house runs to its end, the list holds a meter
    entity for apartment [a] and sensor [b] exactly when the snapshot of the
    first refresh has a reading under [(a, b)] and the sensor list fetched by
    the build carries [b] as an [id_el_op]: readings of sensors that are no
    longer listed get no entity, and nothing else makes a meter entity. *)
Theorem meter_entities_for_listed_sensors (e : env W) (o : list (string * json))
    (e' : env W) (entities : list sensor_entity) :
  (forall m k v, (k, v) ∈ meter_items m <-> m !! k = Some v) ->
  is_none (field "IdADo" o) = false ->
  build_try host invoice_items meter_items (JObj o) (e, []) = (Ok tt, (e', entities)) ->
  exists c c' e1 d sensors w w',
    Coordinator.__init__ (JObj o) = Ok c /\
    host c e = (Ok c', e1) /\
    data c' = Some d /\
    api_houseSensorList (JInt (house_id c')) w = (Ok sensors, w') /\
    forall a b,
      has_meter_entity entities a b <->
      is_Some (meters d !! (a, b)) /\ listed_id "id_el_op" sensors b.
Proof.
  intros Hitems Hid Hb.
  unfold build_try, bind, lift in Hb. simpl py_get in Hb. cbv iota beta in Hb.
  fold (field "IdADo" o) in Hb. rewrite Hid in Hb.
  destruct (Coordinator.__init__ (JObj o)) as [c|err] eqn:Hinit; [|done].
  unfold await in Hb. simpl in Hb.
  destruct (host c e) as [[c'|err] e1] eqn:Hhost; [|done]. simpl in Hb.
  destruct (api_houseAnalysisSummary _ (api e1)) as [[meters_info|err] w2]; [|done].
  simpl in Hb.
  destruct (py_iter meters_info) as [ms|err]; [|done].
  pose proof (stable_for_each no_new_meters ms _ (summary_entities_no_meters c')
                (Env w2 (logs e1), [])) as Hno1.
  destruct (for_each ms _ _) as [[[]|err] f2]; [|done]. simpl in Hno1.
  destruct (data_of c') as [d|err] eqn:Hd; [|done].
  pose proof (stable_for_each no_new_meters (invoice_items (last_invoice d)) _
                (invoice_entity_no_meters c') f2) as Hno2.
  destruct (for_each (invoice_items _) _ _) as [[[]|err] f3]; [|done]. simpl in Hno2.
  destruct (api_houseSensorList _ (api (fst f3))) as [[sensors|err] w3] eqn:Hs; [|done].
  simpl in Hb.
  destruct (py_iter sensors) as [ss|err] eqn:Hss; [|done].
  destruct (sensor_meta_by_id ss ∅) as [metas|err] eqn:Hm; [|done].
  exists c, c', e1, d, sensors, (api (fst f3)), w3.
  split; [done|]. split; [done|].
  split.
  { unfold data_of in Hd. destruct (data c') as [d0|]; [|done]. by injection Hd as ->. }
  split; [done|].
  intros a b.
  rewrite (meter_entities_loop c' metas _ _ _ Hb a b). simpl.
  rewrite (meta_domain ss _ _ Hm b), lookup_empty. split.
  - intros [Hm0|[(v & Hv) [Hb0|(s & x & Hsin & Hx & Hint)]]].
    + by destruct (no_meter_entity_in_nil a b (Hno1 a b (Hno2 a b Hm0))).
    + by destruct Hb0.
    + split; [exists v; by apply Hitems | by exists ss, s, x].
  - intros [[v Hv] (ss' & s & x & Hss' & Hsin & Hx & Hint)].
    rewrite Hss in Hss'. injection Hss' as <-.
    right. split; [exists v; by apply Hitems|]. right. by exists s, x.
Qed.

End SetupTheorems.

Section EntryPoints.
Context `{PyRuntime} {W : Type} `{EkartotekaApi W} `{!EkartotekaHouses W}.
Variable host : coordinator -> M (env W) coordinator.
Variable invoice_items : gmap pykey json -> list (json * json).
Variable meter_items : gmap (Z * Z) meter_entry -> list ((Z * Z) * meter_entry).

Lemma build_houses_all (hs : list json) :
  forall (all_entities : list sensor_entity) (e : env W)
         (added : list (list sensor_entity)),
    build_houses host invoice_items meter_items hs all_entities (e, added) =
      (Ok (all_entities ++ fst (entities_of_houses host invoice_items meter_items hs e))%list,
       (snd (entities_of_houses host invoice_items meter_items hs e), added)).
Proof.
  induction hs as [|house hs IH]; intros all_entities e added.
  - simpl. unfold ret. by rewrite app_nil_r.
  - cbn [build_houses entities_of_houses]. unfold bind at 1. cbn [fst snd].
    destruct (build_returns host invoice_items meter_items house e) as (l & e1 & Hb).
    rewrite Hb. cbn [fst snd]. rewrite IH. by rewrite <- List.app_assoc.
Qed.

(** X19.  What the entry points do once the client exists.  If the fetch of
    the house list raises, one error is logged and nothing is handed to the
    host; if the list is falsy, one warning is logged and nothing is handed
    over; neither raises.  Otherwise every house of the list is built, in
    order, each on the store the one before left, a house whose build failed
    included; the concatenation of their entities is handed to the host in
    one call, and in no call when it is empty. *)
Theorem setup_outcomes (e : env W) (added : list (list sensor_entity)) :
  (forall err w1,
     api_houseList (api e) = (Raise err, w1) ->
     setup_houses host invoice_items meter_items (e, added) =
       (Ok tt,
        (Env w1 (logs e ++ [LogRecord ERROR (JStr "Failed to fetch house list: %s")
                              [JStr (exn_msg err)]]), added))) /\
  (forall houses w1,
     api_houseList (api e) = (Ok houses, w1) ->
     truthy houses = false ->
     setup_houses host invoice_items meter_items (e, added) =
       (Ok tt,
        (Env w1 (logs e ++ [LogRecord WARNING (JStr "No houses returned by API") []]),
         added))) /\
  (forall houses w1 hs,
     api_houseList (api e) = (Ok houses, w1) ->
     truthy houses = true ->
     py_iter houses = Ok hs ->
     setup_houses host invoice_items meter_items (e, added) =
       (Ok tt,
        (snd (entities_of_houses host invoice_items meter_items hs (Env w1 (logs e))),
         match fst (entities_of_houses host invoice_items meter_items hs
                      (Env w1 (logs e))) with
         | [] => added
         | all_entities => (added ++ [all_entities])%list
         end))).
Proof.
  split; [|split].
  - intros err w1 Hl.
    unfold setup_houses, bind, try_except, setup_job, setup_log, modify, ret. simpl.
    by rewrite Hl.
  - intros houses w1 Hl Hf.
    unfold setup_houses, bind, try_except, setup_job, setup_log, modify, ret. simpl.
    rewrite Hl. simpl. by rewrite Hf.
  - intros houses w1 hs Hl Ht Hhs.
    unfold setup_houses, bind, try_except, setup_job, lift, ret. simpl.
    rewrite Hl. simpl. rewrite Ht, Hhs. simpl.
    rewrite build_houses_all. simpl.
    by destruct (fst (entities_of_houses _ _ _ hs _)).
Qed.

End EntryPoints.

Lemma entities_built_before_failure_are_kept_witness :
  exists l e',
    @_async_build_entities_for_house _ nat SetupExamples.summary_only
      SetupExamples.refreshed SetupExamples.invoice_items SetupExamples.meter_items
      SetupExamples.house (Env 0%nat []) = (Ok l, e') /\
    length l = 3%nat.
Proof.
  eexists _, _. split.
  - eapply (@entities_built_before_failure_are_kept _ nat SetupExamples.summary_only
              SetupExamples.refreshed SetupExamples.invoice_items SetupExamples.meter_items
              (Env 0%nat []) [("IdADo", JInt 11); ("nazwa", JStr "Dom")]
              house_11 house_11_refreshed (Env 0%nat []) _ old_snapshot
              [JObj row_10] 1%nat 2%nat);
      [reflexivity | reflexivity | reflexivity | reflexivity | reflexivity
      | vm_compute; reflexivity | | reflexivity].
    vm_compute. repeat constructor.
  - vm_compute. reflexivity.
Defined.

Lemma meter_entities_for_listed_sensors_witness :
  has_meter_entity
    (snd (snd (@build_try _ nat canned SetupExamples.refreshed SetupExamples.invoice_items
                 SetupExamples.meter_items SetupExamples.house (Env 0%nat [], [])))) 1 10.
Proof.
  destruct (@meter_entities_for_listed_sensors _ nat canned SetupExamples.refreshed
              SetupExamples.invoice_items SetupExamples.meter_items (Env 0%nat [])
              [("IdADo", JInt 11); ("nazwa", JStr "Dom")]
              (fst (snd (@build_try _ nat canned SetupExamples.refreshed
                           SetupExamples.invoice_items SetupExamples.meter_items
                           SetupExamples.house (Env 0%nat [], []))))
              (snd (snd (@build_try _ nat canned SetupExamples.refreshed
                           SetupExamples.invoice_items SetupExamples.meter_items
                           SetupExamples.house (Env 0%nat [], [])))))
    as (c & c' & e1 & d & sensors & w & w' & Hc & Hh & Hd & Hs & Hiff).
  - intros m k v. apply elem_of_map_to_list.
  - reflexivity.
  - vm_compute. reflexivity.
  - injection Hh as <- <-. injection Hd as <-. injection Hs as <- <-.
    apply Hiff. split; [by eexists|].
    exists [JObj sensor_without_id; cold_water], cold_water, (JInt 10).
    split; [reflexivity|].
    split; [apply elem_of_cons; right; apply elem_of_cons; by left|].
    split; reflexivity.
Defined.
